(** * Token-classification feature encoding (NeMo)

    A shallow embedding of
    [nemo/collections/nlp/data/token_classification/token_classification_dataset.py]:
    the function [get_features] and the two dataset wrappers
    [BertTokenClassificationDataset] and [BertTokenClassificationInferDataset].

    Python values are modelled as follows.
    - [int] is [Z]; [bool] is [bool] (and [int_of_bool] where Python uses a
      bool as a number); [str] is [string]; a list is a [list];
      the [label_ids] dict is a [gmap string Z]; [None] is [option].
    - A raised exception is the [Raise] branch of [result].
    - The tokenizer is an object of another package: it is a record of the
      members the code uses, and the properties below hold for every such
      record unless they name an assumption on it.
    - A file is the list of its lines; the file system is a [gmap] from
      paths to files.
    - Calls to [logging] only print.  The two numbers the function reports
      (the effective max length and the truncation count) are returned next
      to the features; the example dump and [get_stats] are left out. *)

From Stdlib Require Import ZArith Lia Ascii String.
From stdpp Require Import base option list strings gmap pretty.

Local Open Scope Z_scope.

(** ** Exceptions and the error monad *)

Inductive exn : Type :=
  | ValueError (msg : string)
  | KeyError (key : string)
  | IndexError
  | TypeError
  | NameError (var : string)
  | FileNotFoundError (path : string)
  | UnpicklingError.

Inductive result (A : Type) : Type :=
  | Ok (a : A)
  | Raise (e : exn).
Arguments Ok {A} a.
Arguments Raise {A} e.

#[export] Instance result_ret : MRet result := λ A a, Ok a.
#[export] Instance result_bind : MBind result := λ A B f r,
  match r with
  | Ok a => f a
  | Raise e => Raise e
  end.

(** [for x in xs: s = body(s, x)], stopping at the first exception. *)
Fixpoint for_each {S A : Type} (body : S → A → result S) (xs : list A) (s : S)
  : result S :=
  match xs with
  | [] => Ok s
  | x :: xs' => s' ← body s x; for_each body xs' s'
  end.

(** [[f(x) for x in xs]] for an [f] that may raise. *)
Fixpoint list_comp {A B : Type} (f : A → result B) (xs : list A)
  : result (list B) :=
  match xs with
  | [] => Ok []
  | x :: xs' => y ← f x; ys ← list_comp f xs'; Ok (y :: ys)
  end.

(** [enumerate(xs)], counting from [k]. *)
Fixpoint enumerate_from {A : Type} (k : nat) (xs : list A) : list (nat * A) :=
  match xs with
  | [] => []
  | x :: xs' => (k, x) :: enumerate_from (S k) xs'
  end.
Definition enumerate {A : Type} (xs : list A) : list (nat * A) :=
  enumerate_from 0 xs.

(** ** Python list and string primitives *)

(** [xs[i]] for an index [i >= 0]. *)
Definition list_get {A : Type} (xs : list A) (i : nat) : result A :=
  match xs !! i with
  | Some x => Ok x
  | None => Raise IndexError
  end.

(** [[x] * n]: empty when [n <= 0]. *)
Definition py_repeat {A : Type} (x : A) (n : Z) : list A :=
  replicate (Z.to_nat n) x.

(** [xs[start:]]: a negative [start] counts from the end, and the bound is
    clamped to [0 .. len(xs)]. *)
Definition slice_from {A : Type} (start : Z) (xs : list A) : list A :=
  let n := Z.of_nat (length xs) in
  let s := if start <? 0 then Z.max (start + n) 0 else Z.min start n in
  drop (Z.to_nat s) xs.

(** [len(xs)] as a Python int. *)
Definition len {A : Type} (xs : list A) : Z := Z.of_nat (length xs).

(** [int(b)]. *)
Definition int_of_bool (b : bool) : Z := if b then 1 else 0.

(** [max(xs)]: raises [ValueError] on an empty list. *)
Definition py_max (xs : list Z) : result Z :=
  match xs with
  | [] => Raise (ValueError "max() arg is an empty sequence")
  | x :: xs' => Ok (foldl Z.max x xs')
  end.

(** [c.isspace()], the white space [str.split()] splits at.  A character
    of the model is a code point from 0 to 255; the white space among these
    is tab, line feed, vertical tab, form feed, carriage return, the four
    separators 28..31, the blank, next line (133) and the no-break space
    (160).  The white space above 255 has no character in the model. *)
Definition py_isspace (c : ascii) : bool :=
  let n := nat_of_ascii c in
  (((9 <=? n) && (n <=? 13)) || ((28 <=? n) && (n <=? 32))
   || (n =? 133) || (n =? 160))%nat.

(** [s.strip().split()]: the maximal runs of non-blank characters, in order.
    [cur] is the word being read. *)
Fixpoint py_split_go (cur : string) (s : string) : list string :=
  match s with
  | EmptyString => if decide (cur = "") then [] else [cur]
  | String c s' =>
      if py_isspace c then
        if decide (cur = "") then py_split_go "" s'
        else cur :: py_split_go "" s'
      else py_split_go (cur +:+ String c "") s'
  end.
Definition py_split (s : string) : list string := py_split_go "" s.

(** ** The tokenizer *)

Record Tokenizer : Type := {
  cls_token : string;
  sep_token : string;
  text_to_tokens : string → list string;
  tokens_to_ids : list string → list Z;
  (** [type(tokenizer.tokenizer).__name__] *)
  tokenizer_type : string;
  (** the attribute [vocab_size], when the object has one *)
  vocab_size : option Z
}.

(** ** get_features *)

(** The six lists [get_features] returns. *)
Record features : Type := {
  f_input_ids : list (list Z);
  f_segment_ids : list (list Z);
  f_input_mask : list (list Z);
  f_loss_mask : list (list Z);
  f_subtokens_mask : list (list Z);
  f_labels : list (list Z)
}.

(** What a call produces: the returned tuple and the two numbers it logs,
    [Max length: ...] and [... are longer than ...]. *)
Record output : Type := {
  feats : features;
  log_max_length : Z;
  log_too_long_count : Z
}.

(** The locals of the inner loop over the words of one query.  [labels] is
    bound only when [with_label]; it is [[]] here otherwise and never read. *)
Record sentence : Type := {
  subtokens : list string;
  loss_mask : list Z;
  subtokens_mask : list Z;
  labels : list Z
}.

(** The lists of the function body.  [pad_id] is the local of that name:
    unbound ([None]) until an iteration of the first loop binds it. *)
Record state : Type := {
  all_subtokens : list (list string);
  all_loss_mask : list (list Z);
  all_subtokens_mask : list (list Z);
  all_segment_ids : list (list Z);
  all_input_ids : list (list Z);
  all_input_mask : list (list Z);
  sent_lengths : list Z;
  all_labels : list (list Z);
  pad_id : option Z;
  too_long_count : Z
}.

Definition initial_state : state :=
  {| all_subtokens := []; all_loss_mask := []; all_subtokens_mask := [];
     all_segment_ids := []; all_input_ids := []; all_input_mask := [];
     sent_lengths := []; all_labels := []; pad_id := None;
     too_long_count := 0 |}.

Section GetFeatures.
Variable queries : list string.
Variable max_seq_length : Z.
Variable tokenizer : Tokenizer.
Variable label_ids : option (gmap string Z).
Variable pad_label : string.
Variable raw_labels : option (list (list string)).
Variable ignore_extra_tokens : bool.
Variable ignore_start_end : bool.

(** [with_label = raw_labels is not None] *)
Definition with_label : bool :=
  match raw_labels with Some _ => true | None => false end.

(** [label_ids[key]] *)
Definition label_id (key : string) : result Z :=
  match label_ids with
  | None => Raise TypeError
  | Some d =>
      match d !! key with
      | Some v => Ok v
      | None => Raise (KeyError key)
      end
  end.

(** [raw_labels[i]] *)
Definition raw_labels_at (i : nat) : result (list string) :=
  match raw_labels with
  | None => Raise TypeError
  | Some r => list_get r i
  end.

(** Body of [for j, word in enumerate(words)]. *)
Definition word_body (query_labels : list Z) (a : sentence)
    (jw : nat * string) : result sentence :=
  let '(j, word) := jw in
  let word_tokens := text_to_tokens tokenizer word in
  lbls ← (if with_label then
            l ← list_get query_labels j;
            Ok (labels a ++ py_repeat l (len word_tokens))
          else Ok (labels a));
  Ok {| subtokens := subtokens a ++ word_tokens;
        loss_mask :=
          (loss_mask a ++ [1])
          ++ py_repeat (int_of_bool (negb ignore_extra_tokens))
               (len word_tokens - 1);
        subtokens_mask :=
          (subtokens_mask a ++ [1]) ++ py_repeat 0 (len word_tokens - 1);
        labels := lbls |}.

(** Body of [for i, query in enumerate(queries)]. *)
Definition query_body (s : state) (iq : nat * string) : result state :=
  let '(i, query) := iq in
  let words := py_split query in
  '(pad, lbl0, query_labels) ←
    (if with_label then
       p ← label_id pad_label;
       rl ← raw_labels_at i;
       ql ← list_comp label_id rl;
       Ok (Some p, [p], ql)
     else Ok (pad_id s, [], []));
  a ← for_each (word_body query_labels) (enumerate words)
        {| subtokens := [cls_token tokenizer];
           loss_mask := [1 - int_of_bool ignore_start_end];
           subtokens_mask := [0];
           labels := lbl0 |};
  let subtokens' := subtokens a ++ [sep_token tokenizer] in
  let loss_mask' := loss_mask a ++ [1 - int_of_bool ignore_start_end] in
  let subtokens_mask' := subtokens_mask a ++ [0] in
  all_labels' ←
    (if with_label then
       p ← from_option Ok (Raise (NameError "pad_id")) pad;
       Ok (all_labels s ++ [labels a ++ [p]])
     else Ok (all_labels s));
  Ok {| all_subtokens := all_subtokens s ++ [subtokens'];
        all_loss_mask := all_loss_mask s ++ [loss_mask'];
        all_subtokens_mask := all_subtokens_mask s ++ [subtokens_mask'];
        all_segment_ids := all_segment_ids s;
        all_input_ids := all_input_ids s;
        all_input_mask := all_input_mask s ++ [py_repeat 1 (len subtokens')];
        sent_lengths := sent_lengths s ++ [len subtokens'];
        all_labels := all_labels';
        pad_id := pad;
        too_long_count := too_long_count s |}.

(** Body of [for i, subtokens in enumerate(all_subtokens)], with
    [m] the effective [max_seq_length] computed before the loop. *)
Definition pad_body (m : Z) (s : state) (it : nat * list string)
  : result state :=
  let '(i, subtokens0) := it in
  '(subtokens1, s1) ←
    (if len subtokens0 >? m then
       im ← list_get (all_input_mask s) i;
       lm ← list_get (all_loss_mask s) i;
       sm ← list_get (all_subtokens_mask s) i;
       all_labels' ←
         (if with_label then
            p ← from_option Ok (Raise (NameError "pad_id")) (pad_id s);
            lb ← list_get (all_labels s) i;
            Ok (<[i := [p] ++ slice_from (- m + 1) lb]> (all_labels s))
          else Ok (all_labels s));
       Ok ([cls_token tokenizer] ++ slice_from (- m + 1) subtokens0,
           {| all_subtokens := all_subtokens s;
              all_loss_mask :=
                <[i := [int_of_bool (negb ignore_start_end)]
                       ++ slice_from (- m + 1) lm]> (all_loss_mask s);
              all_subtokens_mask :=
                <[i := [0] ++ slice_from (- m + 1) sm]>
                  (all_subtokens_mask s);
              all_segment_ids := all_segment_ids s;
              all_input_ids := all_input_ids s;
              all_input_mask :=
                <[i := [1] ++ slice_from (- m + 1) im]> (all_input_mask s);
              sent_lengths := sent_lengths s;
              all_labels := all_labels';
              pad_id := pad_id s;
              too_long_count := too_long_count s + 1 |})
     else Ok (subtokens0, s));
  let ids := all_input_ids s1 ++ [tokens_to_ids tokenizer subtokens1] in
  s2 ←
    (if len subtokens1 <? m then
       let extra := m - len subtokens1 in
       id ← list_get ids i;
       lm ← list_get (all_loss_mask s1) i;
       sm ← list_get (all_subtokens_mask s1) i;
       im ← list_get (all_input_mask s1) i;
       all_labels' ←
         (if with_label then
            p ← from_option Ok (Raise (NameError "pad_id")) (pad_id s1);
            lb ← list_get (all_labels s1) i;
            Ok (<[i := lb ++ py_repeat p extra]> (all_labels s1))
          else Ok (all_labels s1));
       Ok {| all_subtokens := all_subtokens s1;
             all_loss_mask :=
               <[i := lm ++ py_repeat 0 extra]> (all_loss_mask s1);
             all_subtokens_mask :=
               <[i := sm ++ py_repeat 0 extra]> (all_subtokens_mask s1);
             all_segment_ids := all_segment_ids s1;
             all_input_ids := <[i := id ++ py_repeat 0 extra]> ids;
             all_input_mask :=
               <[i := im ++ py_repeat 0 extra]> (all_input_mask s1);
             sent_lengths := sent_lengths s1;
             all_labels := all_labels';
             pad_id := pad_id s1;
             too_long_count := too_long_count s1 |}
     else
       Ok {| all_subtokens := all_subtokens s1;
             all_loss_mask := all_loss_mask s1;
             all_subtokens_mask := all_subtokens_mask s1;
             all_segment_ids := all_segment_ids s1;
             all_input_ids := ids;
             all_input_mask := all_input_mask s1;
             sent_lengths := sent_lengths s1;
             all_labels := all_labels s1;
             pad_id := pad_id s1;
             too_long_count := too_long_count s1 |});
  Ok {| all_subtokens := all_subtokens s2;
        all_loss_mask := all_loss_mask s2;
        all_subtokens_mask := all_subtokens_mask s2;
        all_segment_ids := all_segment_ids s2 ++ [py_repeat 0 m];
        all_input_ids := all_input_ids s2;
        all_input_mask := all_input_mask s2;
        sent_lengths := sent_lengths s2;
        all_labels := all_labels s2;
        pad_id := pad_id s2;
        too_long_count := too_long_count s2 |}.

(** The state after the first loop. *)
Definition first_loop : result state :=
  for_each query_body (enumerate queries) initial_state.

(** [min(max_seq_length, max(sent_lengths))] *)
Definition effective_max_length (s : state) : result Z :=
  longest ← py_max (sent_lengths s);
  Ok (Z.min max_seq_length longest).

Definition get_features : result output :=
  s ← first_loop;
  m ← effective_max_length s;
  s' ← for_each (pad_body m) (enumerate (all_subtokens s)) s;
  Ok {| feats :=
          {| f_input_ids := all_input_ids s';
             f_segment_ids := all_segment_ids s';
             f_input_mask := all_input_mask s';
             f_loss_mask := all_loss_mask s';
             f_subtokens_mask := all_subtokens_mask s';
             f_labels := all_labels s' |};
        log_max_length := m;
        log_too_long_count := too_long_count s' |}.

End GetFeatures.

(** ** File system, process group and the dataset wrappers *)

(** A file holds text, as its lines, or a pickled feature tuple. *)
Inductive file : Type :=
  | TextFile (lines : list string)
  | PickleFile (content : features).

(** What the constructor can see and change.  [dist_rank] is [None] when
    [torch.distributed] is not initialised and the rank of this process
    otherwise.  [encodings] is not a Python value: it counts the calls of
    [get_features], so that the order of an error and the encoding can be
    stated. *)
Record world : Type := {
  files : gmap string file;
  dist_rank : option Z;
  encodings : nat
}.

(** State and exceptions: an exception keeps the world it was raised in. *)
Definition io (A : Type) : Type := world → result A * world.

#[export] Instance io_ret : MRet io := λ A a w, (Ok a, w).
#[export] Instance io_bind : MBind io := λ A B f c w,
  match c w with
  | (Ok a, w') => f a w'
  | (Raise e, w') => (Raise e, w')
  end.

Definition raise {A : Type} (e : exn) : io A := λ w, (Raise e, w).

(** [open(path, 'r')] followed by reading every line. *)
Definition read_lines (path : string) : io (list string) := λ w,
  match files w !! path with
  | Some (TextFile ls) => (Ok ls, w)
  | Some (PickleFile _) => (Raise (ValueError "not a text file"), w)
  | None => (Raise (FileNotFoundError path), w)
  end.

(** [os.path.exists(path)] *)
Definition path_exists (path : string) : io bool := λ w,
  (Ok (bool_decide (is_Some (files w !! path))), w).

(** [pickle.dump(content, open(path, "wb"))] *)
Definition pickle_dump (content : features) (path : string) : io unit := λ w,
  (Ok (),
   {| files := <[path := PickleFile content]> (files w);
      dist_rank := dist_rank w;
      encodings := encodings w |}).

(** [pickle.load(open(path, 'rb'))] *)
Definition pickle_load (path : string) : io features := λ w,
  match files w !! path with
  | Some (PickleFile content) => (Ok content, w)
  | Some (TextFile _) => (Raise UnpicklingError, w)
  | None => (Raise (FileNotFoundError path), w)
  end.

(** [not torch.distributed.is_initialized() or
    torch.distributed.get_rank() == 0] *)
Definition master_device : io bool := λ w,
  (Ok (match dist_rank w with None => true | Some r => r =? 0 end), w).

(** [torch.distributed.barrier()], as this process sees it: it returns.
    The other processes of the group are not part of the model. *)
Definition barrier : io unit := λ w, (Ok (), w).

(** A call of [get_features] from a constructor. *)
Definition call_get_features (r : result output) : io output := λ w,
  (r, {| files := files w; dist_rank := dist_rank w;
         encodings := S (encodings w) |}).

(** [os.path.split]: [Some (head, tail)] cuts after the last slash. *)
Fixpoint split_last_slash (p : string) : option (string * string) :=
  match p with
  | EmptyString => None
  | String c p' =>
      match split_last_slash p' with
      | Some (h, t) => Some (String c h, t)
      | None => if decide (c = "/"%char) then Some ("/", p') else None
      end
  end.

(** [s.rstrip('/')] *)
Fixpoint rstrip_slash (s : string) : string :=
  match s with
  | EmptyString => ""
  | String c s' =>
      let r := rstrip_slash s' in
      if decide (r = "" ∧ c = "/"%char) then "" else String c r
  end.

Definition basename (p : string) : string :=
  match split_last_slash p with
  | Some (_, t) => t
  | None => p
  end.

Definition dirname (p : string) : string :=
  match split_last_slash p with
  | Some (h, _) => if decide (rstrip_slash h = "") then h else rstrip_slash h
  | None => ""
  end.

(** [s.endswith(suffix)] *)
Definition endswith (s suffix : string) : bool :=
  String.prefix (String.rev suffix) (String.rev s).

(** [s.startswith(prefix)] *)
Definition startswith (s prefix : string) : bool := String.prefix prefix s.

(** [os.path.join(a, b)] *)
Definition path_join (a b : string) : string :=
  if startswith b "/" then b
  else if decide (a = "") then b
  else if endswith a "/" then a +:+ b
  else a +:+ "/" +:+ b.

(** The cache file of a text file, tokenizer and length. *)
Definition features_pkl_path (text_file : string) (max_seq_length : Z)
    (tokenizer : Tokenizer) : string :=
  let data_dir := dirname text_file in
  let filename := basename text_file in
  path_join data_dir
    ("cached_" +:+ filename +:+ "_" +:+ tokenizer_type tokenizer +:+ "_"
     +:+ pretty max_seq_length +:+ "_"
     +:+ pretty (default 0 (vocab_size tokenizer))).

(** The attributes of a [BertTokenClassificationDataset]. *)
Record BertTokenClassificationDataset : Type := {
  ds_input_ids : list (list Z);
  ds_segment_ids : list (list Z);
  ds_input_mask : list (list Z);
  ds_loss_mask : list (list Z);
  ds_subtokens_mask : list (list Z);
  ds_labels : list (list Z)
}.

(** [BertTokenClassificationDataset.__init__] *)
Definition dataset_init (text_file label_file : string) (max_seq_length : Z)
    (tokenizer : Tokenizer) (label_ids : option (gmap string Z))
    (num_samples : Z) (pad_label : string)
    (ignore_extra_tokens ignore_start_end overwrite_processed_files : bool)
  : io BertTokenClassificationDataset :=
  let filename := basename text_file in
  if negb (endswith filename ".txt") then
    raise (ValueError "{text_file} should have extension .txt")
  else
    let features_pkl := features_pkl_path text_file max_seq_length tokenizer in
    master ← master_device;
    cached ← path_exists features_pkl;
    (if master && (overwrite_processed_files || negb cached) then
       if num_samples =? 0 then
         raise (ValueError "num_samples has to be positive")
       else
         text_lines ← read_lines text_file;
         label_text ← read_lines label_file;
         let labels_lines := py_split <$> label_text in
         if negb (len labels_lines =? len text_lines) then
           raise (ValueError "Labels file should contain labels for every word")
         else
           '(text_lines, labels_lines) ←
             (if num_samples >? 0 then
                let dataset :=
                  take (Z.to_nat num_samples) (zip text_lines labels_lines) in
                match dataset with
                | [] => raise IndexError
                | _ :: _ => mret (dataset.*1, dataset.*2)
                end
              else mret (text_lines, labels_lines));
           out ← call_get_features
                   (get_features text_lines max_seq_length tokenizer label_ids
                      pad_label (Some labels_lines) ignore_extra_tokens
                      ignore_start_end);
           pickle_dump (feats out) features_pkl
     else mret ());;
    barrier;;
    features ← pickle_load features_pkl;
    mret {| ds_input_ids := f_input_ids features;
            ds_segment_ids := f_segment_ids features;
            ds_input_mask := f_input_mask features;
            ds_loss_mask := f_loss_mask features;
            ds_subtokens_mask := f_subtokens_mask features;
            ds_labels := f_labels features |}.

(** The attributes of a [BertTokenClassificationInferDataset]. *)
Record BertTokenClassificationInferDataset : Type := {
  infer_input_ids : list (list Z);
  infer_segment_ids : list (list Z);
  infer_input_mask : list (list Z);
  infer_loss_mask : list (list Z);
  infer_subtokens_mask : list (list Z)
}.

(** [BertTokenClassificationInferDataset.__init__]: [get_features] with its
    defaults [label_ids=None], [pad_label='O'], [raw_labels=None] and both
    flags [False]. *)
Definition infer_init (queries : list string) (max_seq_length : Z)
    (tokenizer : Tokenizer) : result BertTokenClassificationInferDataset :=
  out ← get_features queries max_seq_length tokenizer None "O" None false false;
  Ok {| infer_input_ids := f_input_ids (feats out);
        infer_segment_ids := f_segment_ids (feats out);
        infer_input_mask := f_input_mask (feats out);
        infer_loss_mask := f_loss_mask (feats out);
        infer_subtokens_mask := f_subtokens_mask (feats out) |}.

(** [xs[idx]] for any Python int: a negative index counts from the end. *)
Definition py_index {A : Type} (xs : list A) (idx : Z) : result A :=
  let j := if idx <? 0 then idx + len xs else idx in
  if (j <? 0) || (len xs <=? j) then Raise IndexError
  else list_get xs (Z.to_nat j).

(** [BertTokenClassificationInferDataset.__len__] *)
Definition infer_len (ds : BertTokenClassificationInferDataset) : Z :=
  len (infer_input_ids ds).

(** [BertTokenClassificationInferDataset.__getitem__] *)
Definition infer_getitem (ds : BertTokenClassificationInferDataset) (idx : Z)
  : result (list Z * list Z * list Z * list Z * list Z) :=
  a ← py_index (infer_input_ids ds) idx;
  b ← py_index (infer_segment_ids ds) idx;
  c ← py_index (infer_input_mask ds) idx;
  d ← py_index (infer_loss_mask ds) idx;
  e ← py_index (infer_subtokens_mask ds) idx;
  Ok (a, b, c, d, e).

(** [BertTokenClassificationDataset.__len__] *)
Definition dataset_len (ds : BertTokenClassificationDataset) : Z :=
  len (ds_input_ids ds).

(** [BertTokenClassificationDataset.__getitem__] *)
Definition dataset_getitem (ds : BertTokenClassificationDataset) (idx : Z)
  : result (list Z * list Z * list Z * list Z * list Z * list Z) :=
  a ← py_index (ds_input_ids ds) idx;
  b ← py_index (ds_segment_ids ds) idx;
  c ← py_index (ds_input_mask ds) idx;
  d ← py_index (ds_loss_mask ds) idx;
  e ← py_index (ds_subtokens_mask ds) idx;
  f ← py_index (ds_labels ds) idx;
  Ok (a, b, c, d, e, f).

(** The attributes a constructor sets from a feature tuple. *)
Definition dataset_of (content : features) : BertTokenClassificationDataset :=
  {| ds_input_ids := f_input_ids content;
     ds_segment_ids := f_segment_ids content;
     ds_input_mask := f_input_mask content;
     ds_loss_mask := f_loss_mask content;
     ds_subtokens_mask := f_subtokens_mask content;
     ds_labels := f_labels content |}.

(** The lines the constructor encodes: the first [num_samples] pairs of
    [zip(text_lines, labels_lines)], unzipped again, for a positive
    [num_samples], and all lines otherwise.  Taking component [0] of the
    unzipped list raises [IndexError] when no pair is left. *)
Definition select_samples (num_samples : Z) (text_lines : list string)
    (labels_lines : list (list string))
  : result (list string * list (list string)) :=
  if num_samples >? 0 then
    let dataset := take (Z.to_nat num_samples) (zip text_lines labels_lines) in
    match dataset with
    | [] => Raise IndexError
    | _ :: _ => Ok (dataset.*1, dataset.*2)
    end
  else Ok (text_lines, labels_lines).

(** The world after [get_features] has been called once more. *)
Definition encoded_once (w : world) : world :=
  {| files := files w; dist_rank := dist_rank w;
     encodings := S (encodings w) |}.

(** The world after the features [content] have been computed and written
    to [path]. *)
Definition cache_written (path : string) (content : features) (w : world)
  : world :=
  {| files := <[path := PickleFile content]> (files w);
     dist_rank := dist_rank w;
     encodings := S (encodings w) |}.

(** The constructor on the branch that computes the features, without the
    monad: [computed_init_eq] below proves that this is what
    [dataset_init] does there. *)
Definition computed_init (text_file label_file : string) (max_seq_length : Z)
    (tokenizer : Tokenizer) (label_ids : option (gmap string Z))
    (num_samples : Z) (pad_label : string)
    (ignore_extra_tokens ignore_start_end : bool) (w : world)
  : result BertTokenClassificationDataset * world :=
  if num_samples =? 0 then
    (Raise (ValueError "num_samples has to be positive"), w)
  else
    match files w !! text_file with
    | None => (Raise (FileNotFoundError text_file), w)
    | Some (PickleFile _) => (Raise (ValueError "not a text file"), w)
    | Some (TextFile text_lines) =>
        match files w !! label_file with
        | None => (Raise (FileNotFoundError label_file), w)
        | Some (PickleFile _) => (Raise (ValueError "not a text file"), w)
        | Some (TextFile label_text) =>
            if negb (len label_text =? len text_lines) then
              (Raise (ValueError
                        "Labels file should contain labels for every word"),
               w)
            else
              match select_samples num_samples text_lines
                      (py_split <$> label_text) with
              | Raise e => (Raise e, w)
              | Ok (text_lines', labels_lines') =>
                  match get_features text_lines' max_seq_length tokenizer
                          label_ids pad_label (Some labels_lines')
                          ignore_extra_tokens ignore_start_end with
                  | Raise e => (Raise e, encoded_once w)
                  | Ok out =>
                      (Ok (dataset_of (feats out)),
                       cache_written
                         (features_pkl_path text_file max_seq_length tokenizer)
                         (feats out) w)
                  end
              end
        end
    end.

(** ** Sample inputs *)

(** A word-piece tokenizer in miniature: the first character of a word is
    its first piece and every further character a [##] continuation piece;
    ids are the piece lengths. *)
Fixpoint pieces (s : string) : list string :=
  match s with
  | EmptyString => []
  | String c s' => ("##" +:+ String c "") :: pieces s'
  end.

Definition wordpiece (w : string) : list string :=
  match w with
  | EmptyString => ["[UNK]"]
  | String c s' => String c "" :: pieces s'
  end.

Definition sample_tokenizer : Tokenizer :=
  {| cls_token := "[CLS]";
     sep_token := "[SEP]";
     text_to_tokens := wordpiece;
     tokens_to_ids := map (λ t, Z.of_nat (String.length t));
     tokenizer_type := "BertTokenizer";
     vocab_size := Some 30522 |}.

(** A tokenizer that produces no piece for the word [~]. *)
Definition dropping_tokenizer : Tokenizer :=
  {| cls_token := "[CLS]";
     sep_token := "[SEP]";
     text_to_tokens := λ w, if decide (w = "~") then [] else wordpiece w;
     tokens_to_ids := map (λ t, Z.of_nat (String.length t));
     tokenizer_type := "BertTokenizer";
     vocab_size := Some 30522 |}.

Definition sample_label_ids : gmap string Z :=
  <["O" := 0]> (<["B-PER" := 1]> (<["B-LOC" := 2]> ∅)).

Definition sample_queries : list string := ["ab c"; "d"].
Definition sample_raw_labels : list (list string) := [["B-PER"; "O"]; ["B-LOC"]].

(** A directory with a text file of three lines, label files of three and
    of two lines, and no cache. *)
Definition sample_files : gmap string file :=
  <["data/text.txt" := TextFile ["ab c"; "d"; "ab"] ]>
  (<["data/labels.txt" := TextFile ["B-PER O"; "B-LOC"; "O"] ]>
  (<["data/short.txt" := TextFile ["B-PER O"; "B-LOC"] ]> ∅)).

Definition sample_world : world :=
  {| files := sample_files; dist_rank := None; encodings := 0 |}.



(** Label lines for the sample batch with a label that is no key of
    [sample_label_ids], with a label too few, and with labels to spare. *)
Definition unknown_raw_labels : list (list string) :=
  [["B-PER"; "O"]; ["B-MISC"]].
Definition short_raw_labels : list (list string) := [["B-PER"; "O"]; []].
Definition surplus_raw_labels : list (list string) :=
  [["B-PER"; "O"; "B-LOC"]; ["B-LOC"; "O"]].

(** A directory with a text file and a label file of no lines. *)
Definition blank_world : world :=
  {| files :=
       <["data/blank.txt" := TextFile [] ]>
       (<["data/blank_labels.txt" := TextFile [] ]> ∅);
     dist_rank := None;
     encodings := 0 |}.

(** ** The lists of one sentence, in closed form

    What the two loops of [get_features] leave for one query, written
    without the loops; [first_loop_closed] and [pad_loop_closed] below prove
    that the loops compute exactly these. *)

Section Built.
Variable tokenizer : Tokenizer.
Variable ignore_extra_tokens : bool.
Variable ignore_start_end : bool.

(** Loss-mask bit of both markers in the first loop, [1 - ignore_start_end]. *)
Definition marker_bit : Z := 1 - int_of_bool ignore_start_end.

(** Loss-mask bit of a continuation piece, [int(not ignore_extra_tokens)]. *)
Definition continuation_bit : Z := int_of_bool (negb ignore_extra_tokens).

(** The entries one word adds to [loss_mask] and to [subtokens_mask]. *)
Definition word_loss_mask (word : string) : list Z :=
  [1] ++ py_repeat continuation_bit (len (text_to_tokens tokenizer word) - 1).
Definition word_subtokens_mask (word : string) : list Z :=
  [1] ++ py_repeat 0 (len (text_to_tokens tokenizer word) - 1).

(** The lists of a query when the first loop has appended the end marker. *)
Definition built_subtokens (query : string) : list string :=
  [cls_token tokenizer]
  ++ concat (text_to_tokens tokenizer <$> py_split query)
  ++ [sep_token tokenizer].
Definition built_loss_mask (query : string) : list Z :=
  [marker_bit] ++ concat (word_loss_mask <$> py_split query) ++ [marker_bit].
Definition built_subtokens_mask (query : string) : list Z :=
  [0] ++ concat (word_subtokens_mask <$> py_split query) ++ [0].
Definition built_input_mask (query : string) : list Z :=
  py_repeat 1 (len (built_subtokens query)).
Definition built_labels (pad : Z) (query_labels : list Z) (query : string)
  : list Z :=
  [pad]
  ++ concat (zip_with (λ word l, py_repeat l (len (text_to_tokens tokenizer word)))
               (py_split query) query_labels)
  ++ [pad].

(** The second loop on one sentence, for the effective max length [m]:
    [subs] is the sentence's entry of [all_subtokens], [xs] its entry of
    one of the other lists. *)
Definition kept_subtokens (m : Z) (subs : list string) : list string :=
  if len subs >? m then [cls_token tokenizer] ++ slice_from (- m + 1) subs
  else subs.
Definition truncated {A : Type} (m : Z) (subs : list string) (head : A)
    (xs : list A) : list A :=
  if len subs >? m then [head] ++ slice_from (- m + 1) xs else xs.
Definition padded {A : Type} (m : Z) (subs : list string) (pad : A)
    (xs : list A) : list A :=
  if len (kept_subtokens m subs) <? m
  then xs ++ py_repeat pad (m - len (kept_subtokens m subs))
  else xs.

Definition final_input_ids (m : Z) (subs : list string) : list Z :=
  padded m subs 0 (tokens_to_ids tokenizer (kept_subtokens m subs)).
Definition final_input_mask (m : Z) (subs : list string) (xs : list Z)
  : list Z :=
  padded m subs 0 (truncated m subs 1 xs).
Definition final_loss_mask (m : Z) (subs : list string) (xs : list Z)
  : list Z :=
  padded m subs 0 (truncated m subs (int_of_bool (negb ignore_start_end)) xs).
Definition final_subtokens_mask (m : Z) (subs : list string) (xs : list Z)
  : list Z :=
  padded m subs 0 (truncated m subs 0 xs).
Definition final_labels (m : Z) (pad : Z) (subs : list string) (xs : list Z)
  : list Z :=
  padded m subs pad (truncated m subs pad xs).

(** The length of the longest sentence of the batch, markers included
    ([0] for no sentence), and the effective max length. *)
Definition longest_sentence (queries : list string) : Z :=
  foldr Z.max 0 ((λ q, len (built_subtokens q)) <$> queries).
Definition effective_length (max_seq_length : Z) (queries : list string)
  : Z :=
  Z.min max_seq_length (longest_sentence queries).

(** How many of the sentences are longer than [m]. *)
Definition count_too_long (m : Z) (all : list (list string)) : Z :=
  len (filter (λ subs, m < len subs) all).

Variable label_ids : option (gmap string Z).
Variable pad_label : string.
Variable raw_labels : option (list (list string)).

(** [label_ids[l]] and [[label_ids[lab] for lab in raw_labels[i]]] where
    they are defined (see [labels_available]); [0] and [[]] stand in
    where the code raises. *)
Definition label_value (l : string) : Z :=
  default 0 (d ← label_ids; d !! l).
Definition query_label_values (i : nat) : list Z :=
  label_value <$> default [] (r ← raw_labels; r !! i).

(** The labels are usable: when labels are given, the pad label and every
    label of a query are keys of [label_ids], and a query has at least as
    many labels as words. *)
Definition labels_available (queries : list string) : Prop :=
  with_label raw_labels = true →
  is_Some (d ← label_ids; d !! pad_label) ∧
  ∀ (i : nat) (q : string), queries !! i = Some q →
    ∃ ls : list string,
      (r ← raw_labels; r !! i) = Some ls ∧
      Forall (λ l, is_Some (d ← label_ids; d !! l)) ls ∧
      (length (py_split q) ≤ length ls)%nat.

(** The state when the first loop has run over the queries [qs], numbered
    from [k], starting in [s]. *)
Definition first_loop_state (s : state) (k : nat) (qs : list string)
  : state :=
  {| all_subtokens := all_subtokens s ++ (built_subtokens <$> qs);
     all_loss_mask := all_loss_mask s ++ (built_loss_mask <$> qs);
     all_subtokens_mask :=
       all_subtokens_mask s ++ (built_subtokens_mask <$> qs);
     all_segment_ids := all_segment_ids s;
     all_input_ids := all_input_ids s;
     all_input_mask := all_input_mask s ++ (built_input_mask <$> qs);
     sent_lengths := sent_lengths s ++ ((λ q, len (built_subtokens q)) <$> qs);
     all_labels :=
       if with_label raw_labels
       then all_labels s
            ++ imap (λ i q, built_labels (label_value pad_label)
                              (query_label_values (k + i)) q) qs
       else all_labels s;
     pad_id :=
       match qs with
       | [] => pad_id s
       | _ :: _ =>
           if with_label raw_labels then Some (label_value pad_label)
           else pad_id s
       end;
     too_long_count := too_long_count s |}.

(** What [get_features] returns and logs for a non-empty batch with
    usable labels. *)
Definition get_features_result (queries : list string) (max_seq_length : Z)
  : output :=
  let m := effective_length max_seq_length queries in
  {| feats :=
       {| f_input_ids :=
            (λ q, final_input_ids m (built_subtokens q)) <$> queries;
          f_segment_ids := (λ _, py_repeat 0 m) <$> queries;
          f_input_mask :=
            (λ q, final_input_mask m (built_subtokens q)
                    (built_input_mask q)) <$> queries;
          f_loss_mask :=
            (λ q, final_loss_mask m (built_subtokens q)
                    (built_loss_mask q)) <$> queries;
          f_subtokens_mask :=
            (λ q, final_subtokens_mask m (built_subtokens q)
                    (built_subtokens_mask q)) <$> queries;
          f_labels :=
            if with_label raw_labels
            then imap (λ i q,
                    final_labels m (label_value pad_label)
                      (built_subtokens q)
                      (built_labels (label_value pad_label)
                         (query_label_values i) q)) queries
            else [] |};
     log_max_length := m;
     log_too_long_count := count_too_long m (built_subtokens <$> queries) |}.
End Built.

(** The executable form of [labels_available] for a dictionary [d] and
    label lines [rl]. *)
Fixpoint well_labelled (d : gmap string Z) (queries : list string)
    (rl : list (list string)) : bool :=
  match queries, rl with
  | [], _ => true
  | q :: queries', ls :: rl' =>
      forallb (λ l, bool_decide (is_Some (d !! l))) ls
      && (length (py_split q) <=? length ls)%nat
      && well_labelled d queries' rl'
  | _ :: _, [] => false
  end.

(** ** The statements of the specification *)

(** What the specification asks of the tokenizer: at least one subword for
    every word of the batch, and one id per token. *)
Definition tokenizes_words (tokenizer : Tokenizer) (queries : list string)
  : Prop :=
  ∀ q w : string, q ∈ queries → w ∈ py_split q →
    text_to_tokens tokenizer w ≠ [].
Definition ids_per_token (tokenizer : Tokenizer) : Prop :=
  ∀ ts : list string, length (tokens_to_ids tokenizer ts) = length ts.

(** In the words of the specification: one entry per subword of a word,
    [first] for its first subword and [rest] for every continuation
    subword. *)
Definition per_subword {A : Type} (first rest : A) (word_tokens : list string)
  : list A :=
  match word_tokens with
  | [] => []
  | _ :: continuation => first :: ((λ _, rest) <$> continuation)
  end.

(** The last [k] elements of a list. *)
Definition last_n {A : Type} (k : Z) (xs : list A) : list A :=
  drop (length xs - Z.to_nat k) xs.

(** The number of 1-bits of a mask. *)
Definition ones (mask : list Z) : nat := length (filter (λ b, b = 1) mask).

(** The six lists of a result, in the order of the returned tuple. *)
Definition six_lists (out : output) : list (list (list Z)) :=
  [f_input_ids (feats out); f_segment_ids (feats out);
   f_input_mask (feats out); f_loss_mask (feats out);
   f_subtokens_mask (feats out); f_labels (feats out)].

(** Each of the six lists has [n] entries, and every entry has the
    reported effective max length. *)
Definition uniform_length (out : output) (n : nat) : Prop :=
  Forall (λ l : list (list Z),
            length l = n ∧ Forall (λ xs, len xs = log_max_length out) l)
    (six_lists out).

(** The truncation policy, between the state [s] left by the first loop and
    the result [out]: a sentence longer than the effective max length [e]
    becomes the start marker and the last [e - 1] entries, in every list; a
    sentence of exactly [e] subtokens is left as it is; and the reported
    count is the number of sentences longer than [e]. *)
Definition truncation_policy (tokenizer : Tokenizer)
    (ignore_start_end labelled : bool) (s : state) (out : output) : Prop :=
  let e := log_max_length out in
  let f := feats out in
  (∀ (i : nat) (subs : list string),
     all_subtokens s !! i = Some subs → e < len subs →
     f_input_ids f !! i
     = Some (tokens_to_ids tokenizer
               ([cls_token tokenizer] ++ last_n (e - 1) subs))
     ∧ f_input_mask f !! i
       = (λ xs, [1] ++ last_n (e - 1) xs) <$> all_input_mask s !! i
     ∧ f_loss_mask f !! i
       = (λ xs, [int_of_bool (negb ignore_start_end)] ++ last_n (e - 1) xs)
           <$> all_loss_mask s !! i
     ∧ f_subtokens_mask f !! i
       = (λ xs, [0] ++ last_n (e - 1) xs) <$> all_subtokens_mask s !! i
     ∧ (labelled = true →
        ∃ p : Z, pad_id s = Some p
          ∧ f_labels f !! i
            = (λ xs, [p] ++ last_n (e - 1) xs) <$> all_labels s !! i))
  ∧ (∀ (i : nat) (subs : list string),
       all_subtokens s !! i = Some subs → len subs = e →
       f_input_ids f !! i = Some (tokens_to_ids tokenizer subs)
       ∧ f_input_mask f !! i = all_input_mask s !! i
       ∧ f_loss_mask f !! i = all_loss_mask s !! i
       ∧ f_subtokens_mask f !! i = all_subtokens_mask s !! i
       ∧ f_labels f !! i = all_labels s !! i)
  ∧ log_too_long_count out
    = len (filter (λ subs, e < len subs) (all_subtokens s)).

(** The padding policy, between the state [s] left by the first loop and
    the result [out]: a sentence shorter than the effective max length [e]
    gets [e - len] trailing entries, 0 in the ids and the masks and the pad
    id in the labels, which brings every list to [e] entries; and the
    segment ids are [e] zeros for every sentence. *)
Definition padding_policy (tokenizer : Tokenizer) (labelled : bool)
    (s : state) (out : output) : Prop :=
  let e := log_max_length out in
  let f := feats out in
  (∀ (i : nat) (subs : list string),
     all_subtokens s !! i = Some subs → len subs < e →
     let extra := e - len subs in
     f_input_ids f !! i
     = Some (tokens_to_ids tokenizer subs ++ py_repeat 0 extra)
     ∧ f_input_mask f !! i
       = (λ xs, xs ++ py_repeat 0 extra) <$> all_input_mask s !! i
     ∧ f_loss_mask f !! i
       = (λ xs, xs ++ py_repeat 0 extra) <$> all_loss_mask s !! i
     ∧ f_subtokens_mask f !! i
       = (λ xs, xs ++ py_repeat 0 extra) <$> all_subtokens_mask s !! i
     ∧ (labelled = true →
        ∃ p : Z, pad_id s = Some p
          ∧ f_labels f !! i
            = (λ xs, xs ++ py_repeat p extra) <$> all_labels s !! i)
     ∧ Forall (λ l : list (list Z), ∃ xs, l !! i = Some xs ∧ len xs = e)
         ([f_input_ids f; f_input_mask f; f_loss_mask f; f_subtokens_mask f]
          ++ if labelled then [f_labels f] else []))
  ∧ length (f_segment_ids f) = length (all_subtokens s)
  ∧ ∀ (i : nat) (seg : list Z),
      f_segment_ids f !! i = Some seg → seg = replicate (Z.to_nat e) 0.

(** [r] does not raise a [ValueError]. *)
Definition no_value_error {A : Type} (r : result A) : Prop :=
  ∀ msg : string, r ≠ Raise (ValueError msg).



(** The constructor computes the features, rather than only loading them:
    this is the master process, and the cache file is missing or
    [overwrite_processed_files] is set. *)
Definition computes_features (text_file : string) (max_seq_length : Z)
    (tokenizer : Tokenizer) (overwrite_processed_files : bool) (w : world)
  : bool :=
  match dist_rank w with None => true | Some r => r =? 0 end
  && (overwrite_processed_files
      || negb (bool_decide
                 (is_Some (files w !! features_pkl_path text_file
                                        max_seq_length tokenizer)))).

(** * Properties *)

(** ** Lists and the error monad *)

Lemma list_get_middle {A : Type} (l1 l2 : list A) (x : A) (k : nat) :
  length l1 = k → list_get (l1 ++ x :: l2) k = Ok x.
Proof.
  intros <-. unfold list_get. by rewrite list_lookup_middle.
Qed.

Lemma insert_middle {A : Type} (l1 l2 : list A) (x y : A) (k : nat) :
  length l1 = k → <[k := y]> (l1 ++ x :: l2) = l1 ++ y :: l2.
Proof.
  intros <-. rewrite insert_app_r_alt by lia.
  by rewrite Nat.sub_diag.
Qed.

Lemma list_get_last {A : Type} (l : list A) (x : A) (k : nat) :
  length l = k → list_get (l ++ [x]) k = Ok x.
Proof. apply list_get_middle. Qed.

Lemma insert_last {A : Type} (l : list A) (x y : A) (k : nat) :
  length l = k → <[k := y]> (l ++ [x]) = l ++ [y].
Proof. apply insert_middle. Qed.

Lemma list_get_lookup {A : Type} (l : list A) (i : nat) (x : A) :
  l !! i = Some x → list_get l i = Ok x.
Proof. intros H. unfold list_get. by rewrite H. Qed.

Lemma len_app {A : Type} (l k : list A) : len (l ++ k) = len l + len k.
Proof. unfold len. rewrite length_app. lia. Qed.

Lemma len_nonneg {A : Type} (l : list A) : 0 <= len l.
Proof. unfold len. lia. Qed.

Lemma len_py_repeat {A : Type} (x : A) (n : Z) :
  len (py_repeat x n) = Z.max 0 n.
Proof. unfold len, py_repeat. rewrite length_replicate. lia. Qed.

Lemma foldl_max_foldr (xs : list Z) :
  ∀ x : Z, 0 <= x → foldl Z.max x xs = Z.max x (foldr Z.max 0 xs).
Proof.
  induction xs as [|y ys IH]; intros x Hx; simpl; [lia|].
  rewrite IH by lia. lia.
Qed.

Lemma py_max_nonneg (xs : list Z) :
  xs ≠ [] → Forall (λ x, 0 <= x) xs → py_max xs = Ok (foldr Z.max 0 xs).
Proof.
  intros Hne Hall. destruct xs as [|x xs]; [done|].
  apply Forall_cons in Hall as [Hx _]. simpl.
  by rewrite foldl_max_foldr.
Qed.

Lemma zip_with_fmap_fmap {A B C D : Type} (f : B → C → D) (g : A → B)
    (h : A → C) (l : list A) :
  zip_with f (g <$> l) (h <$> l) = (λ x, f (g x) (h x)) <$> l.
Proof. induction l; simpl; by f_equal. Qed.

Lemma zip_with_fmap_imap {A B C D : Type} (f : B → C → D) (g : A → B)
    (l : list A) :
  ∀ h : nat → A → C,
  zip_with f (g <$> l) (imap h l) = imap (λ i x, f (g x) (h i x)) l.
Proof.
  induction l as [|x l IH]; intros h; simpl; [done|]. f_equal. apply IH.
Qed.

(** Runs the body of the second loop on a state whose lists are split at
    the current index. *)
Ltac step_state :=
  rewrite ?list_get_middle, ?insert_middle, ?list_get_last, ?insert_last
    by done;
  cbn [mbind result_bind from_option all_subtokens all_loss_mask
    all_subtokens_mask all_segment_ids all_input_ids all_input_mask
    sent_lengths all_labels pad_id too_long_count].
Ltac run_pad_body m :=
  step_state; step_state;
  (match goal with |- context [?x <? m] => destruct (x <? m) end);
  step_state; step_state; rewrite ?Z.add_0_r; reflexivity.

Section Loops.
Variable queries : list string.
Variable max_seq_length : Z.
Variable tokenizer : Tokenizer.
Variable label_ids : option (gmap string Z).
Variable pad_label : string.
Variable raw_labels : option (list (list string)).
Variable ignore_extra_tokens : bool.
Variable ignore_start_end : bool.

Local Abbreviation with_label := (with_label raw_labels).
Local Abbreviation toks := (text_to_tokens tokenizer).
Local Abbreviation word_body :=
  (word_body tokenizer raw_labels ignore_extra_tokens).
Local Abbreviation query_body :=
  (query_body tokenizer label_ids pad_label raw_labels ignore_extra_tokens
     ignore_start_end).
Local Abbreviation pad_body :=
  (pad_body tokenizer raw_labels ignore_start_end).
Local Abbreviation word_loss_mask := (word_loss_mask tokenizer ignore_extra_tokens).
Local Abbreviation word_subtokens_mask := (word_subtokens_mask tokenizer).
Local Abbreviation word_labels :=
  (λ (word : string) (l : Z), py_repeat l (len (toks word))).

(** One iteration of the inner loop. *)
Lemma word_body_closed (query_labels : list Z) (a : sentence) (j : nat)
    (w : string) (l : Z) :
  (with_label = true → query_labels !! j = Some l) →
  word_body query_labels a (j, w)
  = Ok {| subtokens := subtokens a ++ toks w;
          loss_mask := loss_mask a ++ word_loss_mask w;
          subtokens_mask := subtokens_mask a ++ word_subtokens_mask w;
          labels :=
            if with_label then labels a ++ word_labels w l else labels a |}.
Proof.
  intros Hl. unfold word_body, word_loss_mask,
    word_subtokens_mask, continuation_bit.
  destruct with_label.
  - rewrite (list_get_lookup _ _ _ (Hl eq_refl)). cbn [mbind result_bind].
    by rewrite <- !app_assoc.
  - cbn [mbind result_bind]. by rewrite <- !app_assoc.
Qed.

(** The inner loop, from word [j] on: it needs a label for every word. *)
Lemma word_loop_closed (query_labels : list Z) (ws : list string) :
  ∀ (j : nat) (a : sentence),
  (with_label = true → (j + length ws ≤ length query_labels)%nat) →
  for_each (word_body query_labels) (enumerate_from j ws) a
  = Ok {| subtokens := subtokens a ++ concat (toks <$> ws);
          loss_mask := loss_mask a ++ concat (word_loss_mask <$> ws);
          subtokens_mask :=
            subtokens_mask a ++ concat (word_subtokens_mask <$> ws);
          labels :=
            if with_label
            then labels a
                 ++ concat (zip_with word_labels ws (drop j query_labels))
            else labels a |}.
Proof.
  induction ws as [|w ws IH]; intros j a Hlen.
  - simpl. destruct a; simpl. rewrite !app_nil_r.
    by destruct with_label.
  - cbn [enumerate_from for_each length] in *.
    destruct (decide (with_label = true)) as [Hwl|Hwl].
    + destruct (lookup_lt_is_Some_2 query_labels j) as [l Hl];
        [specialize (Hlen Hwl); lia|].
      rewrite (word_body_closed _ _ _ _ l) by done.
      cbn [mbind result_bind]. rewrite IH by (intros H; specialize (Hlen H); lia).
      cbn [subtokens loss_mask subtokens_mask labels].
      rewrite (drop_S _ _ _ Hl), Hwl. cbn [zip_with fmap list_fmap concat].
      by rewrite <- !app_assoc.
    + rewrite (word_body_closed _ _ _ _ 0) by done.
      cbn [mbind result_bind]. rewrite IH by done.
      cbn [subtokens loss_mask subtokens_mask labels fmap list_fmap concat].
      destruct with_label; [done|]. by rewrite <- !app_assoc.
Qed.

Local Abbreviation label_id := (label_id label_ids).
Local Abbreviation label_value := (label_value label_ids).
Local Abbreviation pad_value := (label_value pad_label).
Local Abbreviation query_label_values :=
  (query_label_values label_ids raw_labels).
Local Abbreviation built_subtokens := (built_subtokens tokenizer).
Local Abbreviation built_loss_mask :=
  (built_loss_mask tokenizer ignore_extra_tokens ignore_start_end).
Local Abbreviation built_subtokens_mask := (built_subtokens_mask tokenizer).
Local Abbreviation built_input_mask := (built_input_mask tokenizer).
Local Abbreviation built_labels := (built_labels tokenizer).
Local Abbreviation first_loop_state :=
  (first_loop_state tokenizer ignore_extra_tokens ignore_start_end label_ids
     pad_label raw_labels).
Local Abbreviation labels_available :=
  (labels_available label_ids pad_label raw_labels).

Lemma label_id_value (l : string) :
  is_Some (d ← label_ids; d !! l) → label_id l = Ok (label_value l).
Proof.
  unfold label_id, label_value.
  destruct label_ids as [d|]; simpl; [|by intros [? ?]].
  by intros [v ->].
Qed.

Lemma list_comp_label_id (ls : list string) :
  Forall (λ l, is_Some (d ← label_ids; d !! l)) ls →
  list_comp label_id ls = Ok (label_value <$> ls).
Proof.
  induction 1 as [|l ls Hl _ IH]; [done|].
  cbn [list_comp]. rewrite (label_id_value _ Hl). cbn [mbind result_bind].
  by rewrite IH.
Qed.

Lemma raw_labels_at_lookup (i : nat) (ls : list string) :
  (r ← raw_labels; r !! i) = Some ls →
  raw_labels_at raw_labels i = Ok ls.
Proof.
  unfold raw_labels_at. destruct raw_labels as [r|]; simpl; [|done].
  apply list_get_lookup.
Qed.

(** One iteration of the first loop. *)
Lemma query_body_closed (s : state) (i : nat) (q : string) :
  (with_label = true →
   is_Some (d ← label_ids; d !! pad_label) ∧
   ∃ ls : list string,
     (r ← raw_labels; r !! i) = Some ls ∧
     Forall (λ l, is_Some (d ← label_ids; d !! l)) ls ∧
     (length (py_split q) ≤ length ls)%nat) →
  query_body s (i, q) = Ok (first_loop_state s (i + 0) [q]).
Proof.
  intros Hok. replace (i + 0)%nat with i by lia.
  unfold query_body, first_loop_state.
  destruct (decide (with_label = true)) as [Hwl|Hwl].
  - destruct (Hok Hwl) as (Hpad & ls & Hls & Hall & Hlen).
    rewrite Hwl, (label_id_value _ Hpad). cbn [mbind result_bind].
    rewrite (raw_labels_at_lookup _ _ Hls). cbn [mbind result_bind].
    rewrite (list_comp_label_id _ Hall). cbn [mbind result_bind].
    unfold enumerate.
    rewrite word_loop_closed by (rewrite length_fmap; intros _; lia).
    rewrite Hwl. cbn [mbind result_bind subtokens loss_mask subtokens_mask
      labels from_option imap fmap list_fmap].
    unfold query_label_values. rewrite Nat.add_0_r, Hls.
    cbn [default].
    rewrite drop_0. unfold built_subtokens, built_loss_mask,
      built_subtokens_mask, built_input_mask,
      built_labels, marker_bit, built_subtokens.
    by rewrite <- !app_assoc.
  - apply not_true_is_false in Hwl. rewrite Hwl.
    cbn [mbind result_bind]. unfold enumerate.
    rewrite word_loop_closed by (rewrite Hwl; done).
    rewrite Hwl. cbn [mbind result_bind subtokens loss_mask subtokens_mask
      labels from_option imap fmap list_fmap].
    unfold built_subtokens, built_loss_mask,
      built_subtokens_mask, built_input_mask,
      built_labels, marker_bit, built_subtokens.
    by rewrite <- !app_assoc.
Qed.

Lemma first_loop_state_cons (s : state) (k : nat) (q : string)
    (qs : list string) :
  first_loop_state (first_loop_state s (k + 0) [q]) (S k) qs
  = first_loop_state s k (q :: qs).
Proof.
  unfold first_loop_state.
  cbn [all_subtokens all_loss_mask all_subtokens_mask all_segment_ids
    all_input_ids all_input_mask sent_lengths all_labels pad_id
    too_long_count fmap list_fmap imap].
  rewrite <- !app_assoc. cbn [app].
  f_equal.
  - destruct with_label; [|done]. rewrite <- app_assoc. cbn [app].
    rewrite !Nat.add_0_r. do 2 f_equal. apply imap_ext. intros j x _. simpl.
    by replace (k + S j)%nat with (S (k + j)) by lia.
  - destruct qs; by destruct with_label.
Qed.

(** The first loop over the queries [qs], numbered from [k]. *)
Lemma first_loop_from (qs : list string) :
  ∀ (k : nat) (s : state),
  (with_label = true →
   is_Some (d ← label_ids; d !! pad_label) ∧
   ∀ (i : nat) (q : string), qs !! i = Some q →
     ∃ ls : list string,
       (r ← raw_labels; r !! (k + i)%nat) = Some ls ∧
       Forall (λ l, is_Some (d ← label_ids; d !! l)) ls ∧
       (length (py_split q) ≤ length ls)%nat) →
  for_each query_body (enumerate_from k qs) s
  = Ok (first_loop_state s k qs).
Proof.
  induction qs as [|q qs IH]; intros k s Hok.
  - simpl. unfold first_loop_state. destruct s; simpl.
    rewrite !app_nil_r. by destruct with_label.
  - cbn [enumerate_from for_each].
    rewrite query_body_closed.
    + cbn [mbind result_bind]. rewrite IH; [by rewrite first_loop_state_cons|].
      intros Hwl. destruct (Hok Hwl) as [Hpad Hq]. split; [done|].
      intros i q' Hi. destruct (Hq (S i) q' Hi) as (ls & Hls & ?).
      exists ls. by replace (S k + i)%nat with (k + S i)%nat by lia.
    + intros Hwl. destruct (Hok Hwl) as [Hpad Hq]. split; [done|].
      destruct (Hq 0%nat q eq_refl) as (ls & Hls & ?).
      exists ls. by rewrite Nat.add_0_r in Hls.
Qed.

Lemma first_loop_closed :
  labels_available queries →
  first_loop queries tokenizer label_ids pad_label raw_labels
    ignore_extra_tokens ignore_start_end
  = Ok (first_loop_state initial_state 0 queries).
Proof.
  intros Hok. apply first_loop_from. intros Hwl.
  destruct (Hok Hwl) as [Hpad Hq]. split; [done|]. intros i q Hi.
  by apply Hq.
Qed.

Local Abbreviation kept_subtokens := (kept_subtokens tokenizer).
Local Abbreviation final_input_ids := (final_input_ids tokenizer).
Local Abbreviation final_input_mask := (final_input_mask tokenizer).
Local Abbreviation final_loss_mask :=
  (final_loss_mask tokenizer ignore_start_end).
Local Abbreviation final_subtokens_mask := (final_subtokens_mask tokenizer).
Local Abbreviation final_labels := (final_labels tokenizer).

(** One iteration of the second loop, at index [k]: the entries before [k]
    are final, the entry at [k] is the one of the first loop. *)
Lemma pad_body_closed (m : Z) (k : nat) (sub : list string)
    (subs : list (list string)) (Plm Rlm Psm Rsm Pim Rim : list (list Z))
    (lm sm im : list Z) (segs ids : list (list Z)) (lens : list Z)
    (lbs Plb Rlb : list (list Z)) (lb : list Z) (pad : option Z) (p cnt : Z) :
  length Plm = k → length Psm = k → length Pim = k → length ids = k →
  (with_label = true →
   lbs = Plb ++ lb :: Rlb ∧ length Plb = k ∧ pad = Some p) →
  pad_body m
    {| all_subtokens := subs;
       all_loss_mask := Plm ++ lm :: Rlm;
       all_subtokens_mask := Psm ++ sm :: Rsm;
       all_segment_ids := segs;
       all_input_ids := ids;
       all_input_mask := Pim ++ im :: Rim;
       sent_lengths := lens;
       all_labels := lbs;
       pad_id := pad;
       too_long_count := cnt |} (k, sub)
  = Ok {| all_subtokens := subs;
          all_loss_mask := Plm ++ final_loss_mask m sub lm :: Rlm;
          all_subtokens_mask := Psm ++ final_subtokens_mask m sub sm :: Rsm;
          all_segment_ids := segs ++ [py_repeat 0 m];
          all_input_ids := ids ++ [final_input_ids m sub];
          all_input_mask := Pim ++ final_input_mask m sub im :: Rim;
          sent_lengths := lens;
          all_labels :=
            if with_label then Plb ++ final_labels m p sub lb :: Rlb
            else lbs;
          pad_id := pad;
          too_long_count := cnt + (if len sub >? m then 1 else 0) |}.
Proof.
  intros HPlm HPsm HPim Hids Hlb.
  unfold pad_body, final_loss_mask,
    final_subtokens_mask, final_input_ids,
    final_input_mask, final_labels, padded, truncated.
  cbn [all_subtokens all_loss_mask all_subtokens_mask all_segment_ids
    all_input_ids all_input_mask sent_lengths all_labels pad_id
    too_long_count].
  destruct (decide (with_label = true)) as [Hwl|Hwl].
  - destruct (Hlb Hwl) as (-> & HPlb & ->). rewrite Hwl.
    unfold kept_subtokens.
    destruct (len sub >? m); run_pad_body m.
  - apply not_true_is_false in Hwl. rewrite Hwl.
    unfold kept_subtokens.
    destruct (len sub >? m); run_pad_body m.
Qed.

Lemma count_too_long_cons (m : Z) (sub : list string)
    (rs : list (list string)) :
  count_too_long m (sub :: rs)
  = (if len sub >? m then 1 else 0) + count_too_long m rs.
Proof.
  unfold count_too_long. rewrite filter_cons.
  destruct (Z.gtb_spec (len sub) m); case_decide; try lia.
  unfold len at 1. cbn [length]. unfold len. lia.
Qed.

(** The second loop over the sentences [rs], numbered from [k]. *)
Lemma pad_loop_from (m p : Z) (rs : list (list string)) :
  ∀ (k : nat) (subs : list (list string))
    (Plm Rlm Psm Rsm Pim Rim segs ids : list (list Z)) (lens : list Z)
    (lbs Plb Rlb : list (list Z)) (pad : option Z) (cnt : Z),
  length Plm = k → length Psm = k → length Pim = k → length ids = k →
  length Rlm = length rs → length Rsm = length rs →
  length Rim = length rs →
  (with_label = true →
   lbs = Plb ++ Rlb ∧ length Plb = k ∧ length Rlb = length rs
   ∧ pad = Some p) →
  for_each (pad_body m) (enumerate_from k rs)
    {| all_subtokens := subs;
       all_loss_mask := Plm ++ Rlm;
       all_subtokens_mask := Psm ++ Rsm;
       all_segment_ids := segs;
       all_input_ids := ids;
       all_input_mask := Pim ++ Rim;
       sent_lengths := lens;
       all_labels := lbs;
       pad_id := pad;
       too_long_count := cnt |}
  = Ok {| all_subtokens := subs;
          all_loss_mask := Plm ++ zip_with (final_loss_mask m) rs Rlm;
          all_subtokens_mask :=
            Psm ++ zip_with (final_subtokens_mask m) rs Rsm;
          all_segment_ids := segs ++ ((λ _, py_repeat 0 m) <$> rs);
          all_input_ids := ids ++ (final_input_ids m <$> rs);
          all_input_mask := Pim ++ zip_with (final_input_mask m) rs Rim;
          sent_lengths := lens;
          all_labels :=
            if with_label then Plb ++ zip_with (final_labels m p) rs Rlb
            else lbs;
          pad_id := pad;
          too_long_count := cnt + count_too_long m rs |}.
Proof.
  induction rs as [|sub rs IH];
    intros k subs Plm Rlm Psm Rsm Pim Rim segs ids lens lbs Plb Rlb pad cnt
      HPlm HPsm HPim Hids HRlm HRsm HRim Hlb.
  - destruct Rlm, Rsm, Rim; try discriminate. cbn [for_each enumerate_from].
    unfold count_too_long. cbn [zip_with fmap list_fmap filter list_filter].
    rewrite !app_nil_r, Z.add_0_r.
    destruct (decide (with_label = true)) as [Hwl|Hwl].
    + destruct (Hlb Hwl) as (-> & _ & HRlb & _). rewrite Hwl.
      destruct Rlb; [|discriminate]. by rewrite app_nil_r.
    + apply not_true_is_false in Hwl. by rewrite Hwl.
  - destruct Rlm as [|lm Rlm], Rsm as [|sm Rsm], Rim as [|im Rim];
      try discriminate.
    cbn [length] in HRlm, HRsm, HRim.
    cbn [for_each enumerate_from zip_with fmap list_fmap].
    rewrite count_too_long_cons.
    destruct (decide (with_label = true)) as [Hwl|Hwl].
    + destruct (Hlb Hwl) as (-> & HPlb & HRlb & ->).
      destruct Rlb as [|lb Rlb]; [discriminate|]. cbn [length] in HRlb.
      rewrite (pad_body_closed m k sub subs Plm Rlm Psm Rsm Pim Rim lm sm im
                 segs ids lens _ Plb Rlb lb (Some p) p cnt) by done.
      cbn [mbind result_bind]. rewrite Hwl.
      rewrite !(cons_middle _ Plm), !(cons_middle _ Psm),
        !(cons_middle _ Pim), !(cons_middle _ Plb), !app_assoc.
      rewrite (IH (S k) subs _ Rlm _ Rsm _ Rim _ _ lens _
                 (Plb ++ [final_labels m p sub lb]) Rlb (Some p));
        rewrite ?length_app; cbn [length]; try lia.
      * rewrite Hwl, <- !app_assoc, Z.add_assoc. reflexivity.
      * intros _. repeat split; lia.
    + rewrite (pad_body_closed m k sub subs Plm Rlm Psm Rsm Pim Rim lm sm im
                 segs ids lens lbs [] [] [] pad p cnt) by done.
      cbn [mbind result_bind]. apply not_true_is_false in Hwl. rewrite Hwl.
      rewrite !(cons_middle _ Plm), !(cons_middle _ Psm),
        !(cons_middle _ Pim), !app_assoc.
      rewrite (IH (S k) subs _ Rlm _ Rsm _ Rim _ _ lens lbs [] [] pad);
        rewrite ?length_app; cbn [length]; try lia.
      * rewrite Hwl, <- !app_assoc, Z.add_assoc. reflexivity.
      * rewrite Hwl. done.
Qed.

Local Abbreviation get_features_result :=
  (get_features_result tokenizer ignore_extra_tokens ignore_start_end
     label_ids pad_label raw_labels).

(** [get_features] in closed form. *)
Lemma get_features_closed :
  queries ≠ [] → labels_available queries →
  get_features queries max_seq_length tokenizer label_ids pad_label
    raw_labels ignore_extra_tokens ignore_start_end
  = Ok (get_features_result queries max_seq_length).
Proof.
  intros Hne Hok. unfold get_features. rewrite (first_loop_closed Hok).
  cbn [mbind result_bind]. unfold effective_max_length.
  unfold first_loop_state at 1. cbn [sent_lengths initial_state app].
  rewrite py_max_nonneg.
  - cbn [mbind result_bind]. fold (longest_sentence tokenizer queries).
    fold (effective_length tokenizer max_seq_length queries).
    set (m := effective_length tokenizer max_seq_length queries).
    unfold first_loop_state.
    cbn [all_subtokens all_loss_mask all_subtokens_mask all_segment_ids
      all_input_ids all_input_mask sent_lengths all_labels pad_id
      too_long_count initial_state app]. unfold enumerate.
    rewrite <- (app_nil_l (built_loss_mask <$> queries)),
      <- (app_nil_l (built_subtokens_mask <$> queries)),
      <- (app_nil_l (built_input_mask <$> queries)).
    rewrite (pad_loop_from m pad_value (built_subtokens <$> queries)
               0 _ [] _ [] _ [] _ [] [] _ _ []
               (imap (λ i q, built_labels pad_value
                               (query_label_values (0 + i)) q) queries));
      rewrite ?length_fmap, ?length_imap; try done.
    + cbn [mbind result_bind all_subtokens all_loss_mask all_subtokens_mask
        all_segment_ids all_input_ids all_input_mask all_labels
        too_long_count app].
      unfold get_features_result. fold m.
      rewrite !zip_with_fmap_fmap, zip_with_fmap_imap, <- !list_fmap_compose,
        Z.add_0_l.
      destruct queries as [|q0 qs]; [done|].
      by destruct with_label.
    + intros Hwl. destruct queries as [|q0 qs]; [done|].
      rewrite Hwl. done.
  - by destruct queries.
  - apply Forall_fmap, Forall_forall. intros q _. apply len_nonneg.
Qed.
End Loops.

(** ** Lengths of the lists of one sentence *)

Lemma slice_from_last_n {A : Type} (e : Z) (xs : list A) :
  2 <= e → slice_from (- e + 1) xs = last_n (e - 1) xs.
Proof.
  intros He. unfold slice_from, last_n.
  destruct (Z.ltb_spec (- e + 1) 0); [|lia]. f_equal. lia.
Qed.

Lemma len_last_n {A : Type} (k : Z) (xs : list A) :
  0 <= k <= len xs → len (last_n k xs) = k.
Proof.
  unfold last_n, len. intros Hk. rewrite length_drop. lia.
Qed.

Lemma replicate_length_fmap {A B : Type} (c : B) (l : list A) :
  replicate (length l) c = (λ _, c) <$> l.
Proof. induction l; simpl; by f_equal. Qed.

Lemma length_concat_fmap_eq {A B C : Type} (f : A → list B) (g : A → list C)
    (ws : list A) :
  (∀ w, w ∈ ws → length (f w) = length (g w)) →
  length (concat (f <$> ws)) = length (concat (g <$> ws)).
Proof.
  induction ws as [|w ws IH]; intros H; [done|].
  cbn [fmap list_fmap concat].
  rewrite !length_app, (H w), IH; [done| |]; set_solver.
Qed.

Section Sentence.
Variable tokenizer : Tokenizer.
Variable ignore_extra_tokens : bool.
Variable ignore_start_end : bool.

Local Abbreviation toks := (text_to_tokens tokenizer).
Local Abbreviation built_subtokens := (built_subtokens tokenizer).
Local Abbreviation built_loss_mask :=
  (built_loss_mask tokenizer ignore_extra_tokens ignore_start_end).
Local Abbreviation built_subtokens_mask := (built_subtokens_mask tokenizer).
Local Abbreviation built_input_mask := (built_input_mask tokenizer).
Local Abbreviation built_labels := (built_labels tokenizer).
Local Abbreviation kept_subtokens := (kept_subtokens tokenizer).
Local Abbreviation padded := (padded tokenizer).

(** With at least one subword, the entries of a word are one per
    subword, as the specification words it. *)
Lemma word_loss_mask_per_subword (w : string) :
  toks w ≠ [] →
  word_loss_mask tokenizer ignore_extra_tokens w
  = per_subword 1 (if ignore_extra_tokens then 0 else 1) (toks w).
Proof.
  unfold word_loss_mask, continuation_bit, py_repeat, len.
  destruct (toks w) as [|t ts]; [done|]. intros _. cbn [length per_subword].
  replace (Z.to_nat (Z.of_nat (S (length ts)) - 1)) with (length ts) by lia.
  rewrite replicate_length_fmap. by destruct ignore_extra_tokens.
Qed.

Lemma word_subtokens_mask_per_subword (w : string) :
  toks w ≠ [] →
  word_subtokens_mask tokenizer w = per_subword 1 0 (toks w).
Proof.
  unfold word_subtokens_mask, py_repeat, len.
  destruct (toks w) as [|t ts]; [done|]. intros _. cbn [length per_subword].
  replace (Z.to_nat (Z.of_nat (S (length ts)) - 1)) with (length ts) by lia.
  by rewrite replicate_length_fmap.
Qed.

Lemma length_per_subword {A : Type} (a b : A) (ts : list string) :
  length (per_subword a b ts) = length ts.
Proof. destruct ts; simpl; [done|]. by rewrite length_fmap. Qed.

Lemma len_built_subtokens (q : string) :
  len (built_subtokens q) = 2 + len (concat (toks <$> py_split q)).
Proof.
  unfold built_subtokens, len. rewrite !length_app. simpl. lia.
Qed.

Lemma len_built_subtokens_ge (q : string) : 2 <= len (built_subtokens q).
Proof. rewrite len_built_subtokens. pose proof (len_nonneg (concat (toks <$> py_split q))). lia. Qed.

Lemma len_built_input_mask (q : string) :
  len (built_input_mask q) = len (built_subtokens q).
Proof.
  unfold built_input_mask. rewrite len_py_repeat.
  pose proof (len_built_subtokens_ge q). lia.
Qed.

Lemma len_built_loss_mask (q : string) :
  (∀ w, w ∈ py_split q → toks w ≠ []) →
  len (built_loss_mask q) = len (built_subtokens q).
Proof.
  intros Hw. unfold built_loss_mask, built_subtokens, len.
  rewrite !length_app. cbn [length]. do 3 f_equal.
  apply length_concat_fmap_eq. intros w Hin.
  rewrite word_loss_mask_per_subword by auto. apply length_per_subword.
Qed.

Lemma len_built_subtokens_mask (q : string) :
  (∀ w, w ∈ py_split q → toks w ≠ []) →
  len (built_subtokens_mask q) = len (built_subtokens q).
Proof.
  intros Hw. unfold built_subtokens_mask, built_subtokens, len.
  rewrite !length_app. cbn [length]. do 3 f_equal.
  apply length_concat_fmap_eq. intros w Hin.
  rewrite word_subtokens_mask_per_subword by auto. apply length_per_subword.
Qed.

Lemma length_word_labels (ws : list string) :
  ∀ ql : list Z, (length ws ≤ length ql)%nat →
  length (concat (zip_with (λ word l, py_repeat l (len (toks word))) ws ql))
  = length (concat (toks <$> ws)).
Proof.
  induction ws as [|w ws IH]; intros ql Hlen; [done|].
  destruct ql as [|l ql]; cbn [length] in Hlen; [lia|].
  cbn [zip_with fmap list_fmap concat]. rewrite !length_app, IH by lia.
  unfold py_repeat, len. rewrite length_replicate. lia.
Qed.

Lemma len_built_labels (p : Z) (ql : list Z) (q : string) :
  (length (py_split q) ≤ length ql)%nat →
  len (built_labels p ql q) = len (built_subtokens q).
Proof.
  intros Hlen. unfold built_labels, built_subtokens.
  rewrite !len_app. do 2 f_equal. unfold len at 1 3. f_equal.
  by apply length_word_labels.
Qed.

(** The second loop on one sentence, for an effective max length [e] of
    at least 2: every list ends with [e] entries. *)
Lemma len_kept_subtokens (e : Z) (subs : list string) :
  2 <= e → len (kept_subtokens e subs) = Z.min e (len subs).
Proof.
  intros He. unfold kept_subtokens.
  destruct (Z.gtb_spec (len subs) e); [|lia].
  rewrite len_app, slice_from_last_n by done. rewrite len_last_n by lia.
  unfold len in *. simpl. lia.
Qed.

Lemma len_truncated {A : Type} (e : Z) (subs : list string) (head : A)
    (xs : list A) :
  2 <= e → len xs = len subs →
  len (truncated e subs head xs) = Z.min e (len subs).
Proof.
  intros He Hxs. unfold truncated.
  destruct (Z.gtb_spec (len subs) e); [|lia].
  rewrite len_app, slice_from_last_n by done. rewrite len_last_n by lia.
  unfold len in *. simpl. lia.
Qed.

Lemma len_padded {A : Type} (e : Z) (subs : list string) (pad : A)
    (xs : list A) :
  len xs = len (kept_subtokens e subs) →
  len (padded e subs pad xs) = Z.max e (len xs).
Proof.
  intros Hxs. unfold padded.
  destruct (Z.ltb_spec (len (kept_subtokens e subs)) e); [|lia].
  rewrite len_app, len_py_repeat. lia.
Qed.

Lemma len_final {A : Type} (e : Z) (subs : list string) (head pad : A)
    (xs : list A) :
  2 <= e → len xs = len subs →
  len (padded e subs pad (truncated e subs head xs)) = e.
Proof.
  intros He Hxs. rewrite len_padded.
  - rewrite len_truncated by done. lia.
  - by rewrite len_truncated, len_kept_subtokens.
Qed.

Lemma len_final_input_ids (e : Z) (subs : list string) :
  ids_per_token tokenizer → 2 <= e →
  len (final_input_ids tokenizer e subs) = e.
Proof.
  intros Hids He. unfold final_input_ids.
  assert (len (tokens_to_ids tokenizer (kept_subtokens e subs))
          = len (kept_subtokens e subs)) as Hlen
    by (unfold len; by rewrite Hids).
  rewrite len_padded by done. rewrite Hlen, len_kept_subtokens by done. lia.
Qed.

(** The longest sentence of a batch. *)
Lemma longest_sentence_ge (queries : list string) (q : string) :
  q ∈ queries →
  len (built_subtokens q) <= longest_sentence tokenizer queries.
Proof.
  unfold longest_sentence. induction queries as [|q' qs IH]; [set_solver|].
  intros [->|Hin]%elem_of_cons; cbn [fmap list_fmap foldr]; [lia|].
  specialize (IH Hin). lia.
Qed.

Lemma longest_sentence_attained (queries : list string) :
  queries ≠ [] →
  ∃ q : string, q ∈ queries
    ∧ longest_sentence tokenizer queries = len (built_subtokens q).
Proof.
  unfold longest_sentence. induction queries as [|q qs IH]; [done|].
  intros _. cbn [fmap list_fmap foldr]. destruct qs as [|q' qs].
  - exists q. split; [apply list_elem_of_here|]. simpl.
    pose proof (len_built_subtokens_ge q). lia.
  - destruct IH as (q1 & Hin & Heq); [done|].
    destruct (Z.max_spec (len (built_subtokens q))
                (foldr Z.max 0 ((λ q, len (built_subtokens q)) <$> q' :: qs)))
      as [[_ ->]|[_ ->]].
    + exists q1. split; [by apply list_elem_of_further|done].
    + exists q. split; [apply list_elem_of_here|done].
Qed.

Lemma effective_length_ge_2 (m : Z) (queries : list string) :
  queries ≠ [] → 2 <= m → 2 <= effective_length tokenizer m queries.
Proof.
  intros Hne Hm. unfold effective_length.
  destruct (longest_sentence_attained queries Hne) as (q & _ & ->).
  pose proof (len_built_subtokens_ge q). lia.
Qed.
End Sentence.

(** ** Usable labels and the sample tokenizer *)

Lemma unlabelled_available (label_ids : option (gmap string Z))
    (pad_label : string) (queries : list string) :
  labels_available label_ids pad_label None queries.
Proof. intros Hwl. discriminate. Qed.

Lemma well_labelled_lookup (d : gmap string Z) (queries : list string) :
  ∀ (rl : list (list string)) (i : nat) (q : string),
  well_labelled d queries rl = true → queries !! i = Some q →
  ∃ ls : list string,
    rl !! i = Some ls ∧ Forall (λ l, is_Some (d !! l)) ls
    ∧ (length (py_split q) ≤ length ls)%nat.
Proof.
  induction queries as [|q0 qs IH]; intros rl i q Hwl Hi; [done|].
  destruct rl as [|ls rl]; [done|]. cbn [well_labelled] in Hwl.
  apply andb_true_iff in Hwl as [[Hall Hlen]%andb_true_iff Hrest].
  destruct i as [|i]; simplify_eq/=.
  - exists ls. split; [done|]. split; [|by apply Nat.leb_le].
    apply Forall_forall. intros l Hl.
    rewrite forallb_forall in Hall.
    eapply bool_decide_eq_true_1, Hall. by apply list_elem_of_In.
  - by apply IH.
Qed.

Lemma well_labelled_available (d : gmap string Z) (pad_label : string)
    (rl : list (list string)) (queries : list string) :
  is_Some (d !! pad_label) → well_labelled d queries rl = true →
  labels_available (Some d) pad_label (Some rl) queries.
Proof.
  intros Hpad Hwl _. split; [done|]. intros i q Hi.
  by apply (well_labelled_lookup d queries).
Qed.

Lemma wordpiece_nonempty (w : string) : wordpiece w ≠ [].
Proof. by destruct w. Qed.

Lemma sample_tokenizer_words (queries : list string) :
  tokenizes_words sample_tokenizer queries.
Proof. intros q w _ _. apply wordpiece_nonempty. Qed.

Lemma sample_tokenizer_ids : ids_per_token sample_tokenizer.
Proof. intros ts. apply length_fmap. Qed.

(** Why the tokenizer has to yield a subword for every word: the word [~],
    for which [dropping_tokenizer] yields none, adds an entry to both masks
    and none to the ids, and the lists of the sentence get out of step. *)
Lemma masks_need_subwords :
  ∃ (out : output) (ids lm : list Z),
    get_features ["a ~"] 10 dropping_tokenizer None "O" None false false
    = Ok out
    ∧ f_input_ids (feats out) !! 0%nat = Some ids
    ∧ f_loss_mask (feats out) !! 0%nat = Some lm
    ∧ length lm = S (length ids).
Proof. eexists _, _, _. vm_compute. repeat split; reflexivity. Qed.

Lemma sample_labels_available :
  labels_available (Some sample_label_ids) "O" (Some sample_raw_labels)
    sample_queries.
Proof. apply well_labelled_available; [by eexists|by vm_compute]. Qed.

(** ** The lists of the first loop, in the words of the specification *)

Lemma py_repeat_len_fmap {A : Type} (v : A) (ts : list string) :
  py_repeat v (len ts) = (λ _, v) <$> ts.
Proof.
  unfold py_repeat, len. rewrite Nat2Z.id. apply replicate_length_fmap.
Qed.

Lemma ones_app (xs ys : list Z) : ones (xs ++ ys) = (ones xs + ones ys)%nat.
Proof. unfold ones. by rewrite filter_app, length_app. Qed.

Lemma ones_py_repeat_0 (n : Z) : ones (py_repeat 0 n) = 0%nat.
Proof.
  unfold ones, py_repeat. induction (Z.to_nat n) as [|k IH]; [done|].
  cbn [replicate]. by rewrite filter_cons_False.
Qed.

Lemma ones_concat_fmap {A : Type} (f : A → list Z) (ws : list A) :
  (∀ w, ones (f w) = 1%nat) → ones (concat (f <$> ws)) = length ws.
Proof.
  intros Hf. induction ws as [|w ws IH]; [done|].
  cbn [fmap list_fmap concat length]. by rewrite ones_app, Hf, IH.
Qed.

Section SpecWords.
Variable tokenizer : Tokenizer.
Variable ignore_extra_tokens : bool.
Variable ignore_start_end : bool.

Local Abbreviation toks := (text_to_tokens tokenizer).

Lemma built_loss_mask_per_subword (q : string) :
  (∀ w, w ∈ py_split q → toks w ≠ []) →
  built_loss_mask tokenizer ignore_extra_tokens ignore_start_end q
  = [if ignore_start_end then 0 else 1]
    ++ concat (per_subword 1 (if ignore_extra_tokens then 0 else 1)
                 <$> (toks <$> py_split q))
    ++ [if ignore_start_end then 0 else 1].
Proof.
  intros Hw. unfold built_loss_mask, marker_bit.
  replace (1 - int_of_bool ignore_start_end)
    with (if ignore_start_end then 0 else 1) by (by destruct ignore_start_end).
  do 3 f_equal. rewrite <- list_fmap_compose.
  apply list_fmap_ext. intros _ w Hin%list_elem_of_lookup_2. simpl.
  by apply word_loss_mask_per_subword, Hw.
Qed.

Lemma built_subtokens_mask_per_subword (q : string) :
  (∀ w, w ∈ py_split q → toks w ≠ []) →
  built_subtokens_mask tokenizer q
  = [0] ++ concat (per_subword 1 0 <$> (toks <$> py_split q)) ++ [0].
Proof.
  intros Hw. unfold built_subtokens_mask.
  do 3 f_equal. rewrite <- list_fmap_compose.
  apply list_fmap_ext. intros _ w Hin%list_elem_of_lookup_2. simpl.
  by apply word_subtokens_mask_per_subword, Hw.
Qed.

Lemma built_labels_per_subword (p : Z) (vs : list Z) (q : string) :
  built_labels tokenizer p vs q
  = [p] ++ concat (zip_with (λ w v, (λ _, v) <$> toks w) (py_split q) vs)
    ++ [p].
Proof.
  unfold built_labels. do 3 f_equal.
  apply zip_with_ext; [|done..]. intros w v. apply py_repeat_len_fmap.
Qed.

Lemma ones_built_subtokens_mask (q : string) :
  ones (built_subtokens_mask tokenizer q) = length (py_split q).
Proof.
  unfold built_subtokens_mask. rewrite !ones_app, ones_concat_fmap.
  - unfold ones. rewrite filter_cons_False by done. simpl. lia.
  - intros w. unfold word_subtokens_mask.
    rewrite ones_app, ones_py_repeat_0. unfold ones.
    by rewrite filter_cons_True.
Qed.
End SpecWords.

(** ** The second loop on a sentence that is, or is not, too long *)

Section SecondLoopCases.
Variable tokenizer : Tokenizer.

Local Abbreviation kept_subtokens := (kept_subtokens tokenizer).
Local Abbreviation padded := (padded tokenizer).

Lemma final_not_truncated {A : Type} (e : Z) (subs : list string)
    (head pad : A) (xs : list A) :
  len subs <= e →
  padded e subs pad (truncated e subs head xs)
  = xs ++ py_repeat pad (e - len subs).
Proof.
  intros Hle. unfold padded, truncated, kept_subtokens.
  destruct (Z.gtb_spec (len subs) e); [lia|].
  destruct (Z.ltb_spec (len subs) e); [done|].
  replace (e - len subs) with 0 by lia. by rewrite app_nil_r.
Qed.

Lemma final_input_ids_not_truncated (e : Z) (subs : list string) :
  len subs <= e →
  final_input_ids tokenizer e subs
  = tokens_to_ids tokenizer subs ++ py_repeat 0 (e - len subs).
Proof.
  intros Hle. unfold final_input_ids, padded,
    kept_subtokens.
  destruct (Z.gtb_spec (len subs) e); [lia|].
  destruct (Z.ltb_spec (len subs) e); [done|].
  replace (e - len subs) with 0 by lia. by rewrite app_nil_r.
Qed.

Lemma final_truncated {A : Type} (e : Z) (subs : list string)
    (head pad : A) (xs : list A) :
  2 <= e → e < len subs →
  padded e subs pad (truncated e subs head xs)
  = [head] ++ last_n (e - 1) xs.
Proof.
  intros He Hlong. unfold padded.
  rewrite len_kept_subtokens by done.
  destruct (Z.ltb_spec (Z.min e (len subs)) e); [lia|].
  unfold truncated. destruct (Z.gtb_spec (len subs) e); [|lia].
  by rewrite slice_from_last_n.
Qed.

Lemma final_input_ids_truncated (e : Z) (subs : list string) :
  2 <= e → e < len subs →
  final_input_ids tokenizer e subs
  = tokens_to_ids tokenizer ([cls_token tokenizer] ++ last_n (e - 1) subs).
Proof.
  intros He Hlong. unfold final_input_ids, padded.
  rewrite len_kept_subtokens by done.
  destruct (Z.ltb_spec (Z.min e (len subs)) e); [lia|].
  unfold kept_subtokens.
  destruct (Z.gtb_spec (len subs) e); [|lia].
  by rewrite slice_from_last_n.
Qed.
End SecondLoopCases.

(** ** The result of [get_features], entry by entry *)

Section Claims.
Variable queries : list string.
Variable max_seq_length : Z.
Variable tokenizer : Tokenizer.
Variable label_ids : option (gmap string Z).
Variable pad_label : string.
Variable raw_labels : option (list (list string)).
Variable ignore_extra_tokens : bool.
Variable ignore_start_end : bool.

Hypothesis queries_nonempty : queries ≠ [].
Hypothesis labels_usable :
  labels_available label_ids pad_label raw_labels queries.

Local Abbreviation get_features :=
  (get_features queries max_seq_length tokenizer label_ids pad_label
     raw_labels ignore_extra_tokens ignore_start_end).
Local Abbreviation first_loop :=
  (first_loop queries tokenizer label_ids pad_label raw_labels
     ignore_extra_tokens ignore_start_end).
Local Abbreviation result :=
  (get_features_result tokenizer ignore_extra_tokens ignore_start_end
     label_ids pad_label raw_labels queries max_seq_length).
Local Abbreviation e := (effective_length tokenizer max_seq_length queries).
Local Abbreviation built_subtokens := (built_subtokens tokenizer).
Local Abbreviation pad_value := (label_value label_ids pad_label).
Local Abbreviation query_label_values :=
  (query_label_values label_ids raw_labels).

Lemma query_labels_cover (i : nat) (q : string) :
  with_label raw_labels = true → queries !! i = Some q →
  (length (py_split q) ≤ length (query_label_values i))%nat.
Proof.
  intros Hwl Hi. destruct (labels_usable Hwl) as [_ Hq].
  destruct (Hq i q Hi) as (ls & Hls & _ & Hlen).
  unfold query_label_values. rewrite Hls. cbn [default].
  by rewrite length_fmap.
Qed.

Lemma tokenizes_words_lookup (i : nat) (q w : string) :
  tokenizes_words tokenizer queries → queries !! i = Some q →
  w ∈ py_split q → text_to_tokens tokenizer w ≠ [].
Proof.
  intros Htok Hi Hw. apply (Htok q w); [|done].
  by apply list_elem_of_lookup_2 in Hi.
Qed.

Local Abbreviation s0 :=
  (first_loop_state tokenizer ignore_extra_tokens ignore_start_end label_ids
     pad_label raw_labels initial_state 0 queries).
Local Abbreviation built_input_mask := (built_input_mask tokenizer).
Local Abbreviation built_loss_mask :=
  (built_loss_mask tokenizer ignore_extra_tokens ignore_start_end).
Local Abbreviation built_subtokens_mask := (built_subtokens_mask tokenizer).
Local Abbreviation built_labels := (built_labels tokenizer).

Lemma first_loop_entries (i : nat) (q : string) :
  queries !! i = Some q →
  all_subtokens s0 !! i = Some (built_subtokens q)
  ∧ all_input_mask s0 !! i = Some (built_input_mask q)
  ∧ all_loss_mask s0 !! i = Some (built_loss_mask q)
  ∧ all_subtokens_mask s0 !! i = Some (built_subtokens_mask q)
  ∧ all_labels s0 !! i
    = (if with_label raw_labels
       then Some (built_labels pad_value (query_label_values i) q)
       else None).
Proof.
  intros Hq. unfold first_loop_state.
  cbn [all_subtokens all_input_mask all_loss_mask all_subtokens_mask
    all_labels initial_state app].
  rewrite !list_lookup_fmap, Hq.
  destruct (with_label raw_labels); [|done].
  by rewrite list_lookup_imap, Hq.
Qed.

Lemma first_loop_pad_id :
  pad_id s0 = if with_label raw_labels then Some pad_value else None.
Proof. unfold first_loop_state. cbn [pad_id]. by destruct queries. Qed.

Lemma first_loop_pad_label :
  with_label raw_labels = true → pad_id s0 = (d ← label_ids; d !! pad_label).
Proof.
  intros Hwl. rewrite first_loop_pad_id, Hwl.
  destruct (labels_usable Hwl) as [[p Hp] _].
  unfold label_value. by rewrite Hp.
Qed.

Lemma first_loop_subtokens (i : nat) (subs : list string) :
  all_subtokens s0 !! i = Some subs →
  ∃ q : string, queries !! i = Some q ∧ subs = built_subtokens q.
Proof.
  unfold first_loop_state. cbn [all_subtokens initial_state app].
  rewrite list_lookup_fmap. destruct (queries !! i) as [q|]; [|done].
  intros [= <-]. by exists q.
Qed.

Lemma result_entries (i : nat) (q : string) :
  queries !! i = Some q →
  f_input_ids (feats result) !! i
  = Some (final_input_ids tokenizer e (built_subtokens q))
  ∧ f_segment_ids (feats result) !! i = Some (py_repeat 0 e)
  ∧ f_input_mask (feats result) !! i
    = Some (final_input_mask tokenizer e (built_subtokens q)
              (built_input_mask q))
  ∧ f_loss_mask (feats result) !! i
    = Some (final_loss_mask tokenizer ignore_start_end e (built_subtokens q)
              (built_loss_mask q))
  ∧ f_subtokens_mask (feats result) !! i
    = Some (final_subtokens_mask tokenizer e (built_subtokens q)
              (built_subtokens_mask q))
  ∧ f_labels (feats result) !! i
    = (if with_label raw_labels
       then Some (final_labels tokenizer e pad_value (built_subtokens q)
                    (built_labels pad_value (query_label_values i) q))
       else None).
Proof.
  intros Hq. unfold get_features_result.
  cbn [feats f_input_ids f_segment_ids f_input_mask f_loss_mask
    f_subtokens_mask f_labels].
  rewrite !list_lookup_fmap, Hq.
  destruct (with_label raw_labels); [|done].
  by rewrite list_lookup_imap, Hq.
Qed.

Lemma first_loop_result : first_loop = Ok s0.
Proof. by apply first_loop_closed. Qed.

Lemma get_features_result_ok : get_features = Ok result.
Proof. by apply get_features_closed. Qed.

(** X24.  For [max_seq_length >= 2]: a sentence longer than the
    effective max length is cut to the start marker followed by its last
    [effective max length - 1] subtokens, and its input mask, loss mask,
    subtokens mask and (with labels) label list are cut the same way, the
    label list starting with the pad id; the reported count is the number
    of such sentences; a sentence of exactly the effective max length is
    returned as the first loop built it. *)
Theorem get_features_truncation :
  2 <= max_seq_length →
  ∃ (s : state) (out : output),
    first_loop = Ok s ∧ get_features = Ok out
    ∧ (with_label raw_labels = true →
       pad_id s = (d ← label_ids; d !! pad_label))
    ∧ truncation_policy tokenizer ignore_start_end (with_label raw_labels)
        s out.
Proof.
  intros Hm. exists s0, result.
  split; [apply first_loop_result|]. split; [apply get_features_result_ok|].
  split; [apply first_loop_pad_label|].
  pose proof (effective_length_ge_2 tokenizer max_seq_length queries
                queries_nonempty Hm) as He.
  unfold truncation_policy.
  change (log_max_length result) with e.
  split; [|split].
  - intros i subs Hsubs Hlong.
    destruct (first_loop_subtokens i subs Hsubs) as (q & Hq & ->).
    destruct (first_loop_entries i q Hq) as (_ & -> & -> & -> & ->).
    destruct (result_entries i q Hq) as (-> & _ & -> & -> & -> & ->).
    unfold final_input_mask, final_loss_mask, final_subtokens_mask,
      final_labels.
    rewrite final_input_ids_truncated, !final_truncated by done.
    repeat split; try done.
    intros Hwl. exists pad_value. rewrite first_loop_pad_id.
    by rewrite Hwl.
  - intros i subs Hsubs Hlen.
    destruct (first_loop_subtokens i subs Hsubs) as (q & Hq & ->).
    destruct (first_loop_entries i q Hq) as (_ & -> & -> & -> & ->).
    destruct (result_entries i q Hq) as (-> & _ & -> & -> & -> & ->).
    unfold final_input_mask, final_loss_mask, final_subtokens_mask,
      final_labels.
    rewrite final_input_ids_not_truncated, !final_not_truncated by lia.
    replace (e - len (built_subtokens q)) with 0 by lia.
    unfold py_repeat. cbn [Z.to_nat replicate]. rewrite !app_nil_r.
    repeat split; try done.
  - unfold get_features_result. cbn [log_too_long_count].
    unfold count_too_long, first_loop_state.
    cbn [all_subtokens initial_state app]. done.
Qed.

(** C2.  The first loop builds, for every sentence, the loss mask and the
    subtokens mask subword by subword: the start marker has loss bit
    [1 - ignore_start_end] and alignment bit 0; the first subword of a word
    has both bits 1; a continuation subword has alignment bit 0 and loss
    bit 0 when [ignore_extra_tokens] and 1 otherwise; the end marker is as
    the start marker.  For a sentence no longer than the effective max
    length these are the returned masks, up to the trailing padding. *)
Theorem first_loop_masks :
  tokenizes_words tokenizer queries →
  ∃ (s : state) (out : output),
    first_loop = Ok s ∧ get_features = Ok out
    ∧ ∀ (i : nat) (q : string), queries !! i = Some q →
        let word_tokens := text_to_tokens tokenizer <$> py_split q in
        let marker := if ignore_start_end then 0 else 1 in
        let continuation := if ignore_extra_tokens then 0 else 1 in
        let subs :=
          [cls_token tokenizer] ++ concat word_tokens
          ++ [sep_token tokenizer] in
        let lm :=
          [marker] ++ concat (per_subword 1 continuation <$> word_tokens)
          ++ [marker] in
        let sm := [0] ++ concat (per_subword 1 0 <$> word_tokens) ++ [0] in
        all_subtokens s !! i = Some subs
        ∧ all_loss_mask s !! i = Some lm
        ∧ all_subtokens_mask s !! i = Some sm
        ∧ (len subs <= log_max_length out →
           f_loss_mask (feats out) !! i
           = Some (lm ++ py_repeat 0 (log_max_length out - len subs))
           ∧ f_subtokens_mask (feats out) !! i
             = Some (sm ++ py_repeat 0 (log_max_length out - len subs))).
Proof.
  intros Htok. exists s0, result.
  split; [apply first_loop_result|]. split; [apply get_features_result_ok|].
  intros i q Hq. cbn zeta.
  assert (∀ w, w ∈ py_split q → text_to_tokens tokenizer w ≠ []) as Hw
    by (intros w Hin; by eapply tokenizes_words_lookup).
  destruct (first_loop_entries i q Hq) as (-> & _ & -> & -> & _).
  destruct (result_entries i q Hq) as (_ & _ & _ & -> & -> & _).
  rewrite <- (built_loss_mask_per_subword _ _ _ _ Hw),
    <- (built_subtokens_mask_per_subword _ _ Hw).
  repeat split; try done.
  - unfold final_loss_mask. by rewrite final_not_truncated.
  - unfold final_subtokens_mask. by rewrite final_not_truncated.
Qed.

(** C5.  For a non-empty batch the effective max length, which the second
    loop truncates and pads to, is the minimum of [max_seq_length] and the
    length of the longest subtoken sequence of the batch, markers included;
    a padded record has exactly that length, which is at most the length
    of the longest sequence. *)
Theorem effective_max_length_min :
  ∃ (s : state) (out : output) (longest : Z),
    first_loop = Ok s ∧ get_features = Ok out
    ∧ py_max (sent_lengths s) = Ok longest
    ∧ (∃ (i : nat) (subs : list string),
         all_subtokens s !! i = Some subs ∧ len subs = longest)
    ∧ (∀ (i : nat) (subs : list string),
         all_subtokens s !! i = Some subs → len subs <= longest)
    ∧ effective_max_length max_seq_length s = Ok (log_max_length out)
    ∧ log_max_length out = Z.min max_seq_length longest
    ∧ (∀ (i : nat) (subs : list string),
         all_subtokens s !! i = Some subs → len subs < log_max_length out →
         ∃ im : list Z,
           f_input_mask (feats out) !! i = Some im
           ∧ im = py_repeat 1 (len subs)
                  ++ py_repeat 0 (log_max_length out - len subs)
           ∧ len im = log_max_length out ∧ len im <= longest)
    ∧ (∀ (i : nat) (seg : list Z),
         f_segment_ids (feats out) !! i = Some seg → len seg <= longest).
Proof.
  exists s0, result, (longest_sentence tokenizer queries).
  split; [apply first_loop_result|]. split; [apply get_features_result_ok|].
  assert (py_max (sent_lengths s0)
          = Ok (longest_sentence tokenizer queries)) as Hmax.
  { unfold first_loop_state. cbn [sent_lengths initial_state app].
    apply py_max_nonneg; [by destruct queries|].
    apply Forall_fmap, Forall_forall. intros q _. apply len_nonneg. }
  change (log_max_length result) with e.
  assert (e <= longest_sentence tokenizer queries) as Hle
    by (unfold effective_length; lia).
  split; [done|]. split; [|split; [|split; [|split; [|split]]]].
  - destruct (longest_sentence_attained tokenizer queries queries_nonempty)
      as (q & [i Hq]%list_elem_of_lookup_1 & ->).
    exists i, (built_subtokens q).
    by destruct (first_loop_entries i q Hq) as (-> & _).
  - intros i subs (q & Hq & ->)%first_loop_subtokens.
    apply list_elem_of_lookup_2 in Hq. by apply longest_sentence_ge.
  - unfold effective_max_length. by rewrite Hmax.
  - done.
  - intros i subs (q & Hq & ->)%first_loop_subtokens Hshort.
    destruct (result_entries i q Hq) as (_ & _ & -> & _).
    eexists. split; [done|]. unfold final_input_mask.
    rewrite final_not_truncated by lia. split; [done|].
    rewrite len_app, len_py_repeat.
    fold (built_input_mask q). rewrite len_built_input_mask. lia.
  - intros i seg Hseg. unfold get_features_result in Hseg.
    cbn [feats f_segment_ids] in Hseg.
    rewrite list_lookup_fmap in Hseg.
    destruct (queries !! i); [|done]. injection Hseg as <-.
    rewrite len_py_repeat.
    pose proof (effective_length_ge_2 tokenizer 2 queries queries_nonempty).
    unfold effective_length in *. lia.
Qed.

(** C6.  A sentence shorter than the effective max length gets trailing
    zeros in its input ids, input mask, loss mask and subtokens mask, and
    trailing pad-label ids in its labels, up to the effective max length;
    the segment ids of every sentence are that many zeros. *)
Theorem get_features_padding :
  tokenizes_words tokenizer queries → ids_per_token tokenizer →
  ∃ (s : state) (out : output),
    first_loop = Ok s ∧ get_features = Ok out
    ∧ (with_label raw_labels = true →
       pad_id s = (d ← label_ids; d !! pad_label))
    ∧ padding_policy tokenizer (with_label raw_labels) s out.
Proof.
  intros Htok Hids. exists s0, result.
  split; [apply first_loop_result|]. split; [apply get_features_result_ok|].
  split; [apply first_loop_pad_label|].
  unfold padding_policy. change (log_max_length result) with e.
  split; [|split].
  - intros i subs (q & Hq & ->)%first_loop_subtokens Hshort. cbn zeta.
    destruct (first_loop_entries i q Hq) as (_ & Him & Hlm & Hsm & Hlb).
    destruct (result_entries i q Hq) as (Ri & _ & Rim & Rlm & Rsm & Rlb).
    unfold final_input_mask, final_loss_mask, final_subtokens_mask,
      final_labels in Rim, Rlm, Rsm, Rlb.
    rewrite final_input_ids_not_truncated in Ri by lia.
    rewrite final_not_truncated in Rim, Rlm, Rsm, Rlb by lia.
    assert (∀ w, w ∈ py_split q → text_to_tokens tokenizer w ≠ []) as Hw
      by (intros w Hin; by eapply tokenizes_words_lookup).
    assert (0 <= e - len (built_subtokens q)) as Hextra by lia.
    split; [done|]. split; [by rewrite Rim, Him|].
    split; [by rewrite Rlm, Hlm|]. split; [by rewrite Rsm, Hsm|]. split.
    + intros Hwl. exists pad_value.
      by rewrite first_loop_pad_id, Rlb, Hlb, Hwl.
    + repeat apply Forall_cons_2.
      * eexists. split; [exact Ri|]. rewrite len_app, len_py_repeat.
        unfold len at 1. rewrite Hids. fold (len (built_subtokens q)). lia.
      * eexists. split; [exact Rim|].
        rewrite len_app, len_py_repeat, len_built_input_mask. lia.
      * eexists. split; [exact Rlm|].
        rewrite len_app, len_py_repeat, len_built_loss_mask by done. lia.
      * eexists. split; [exact Rsm|].
        rewrite len_app, len_py_repeat, len_built_subtokens_mask by done.
        lia.
      * destruct (with_label raw_labels) eqn:Hwl; [|apply Forall_nil_2].
        apply Forall_singleton. eexists. split; [exact Rlb|].
        rewrite len_app, len_py_repeat, len_built_labels; [lia|].
        by apply query_labels_cover.
  - unfold get_features_result, first_loop_state.
    cbn [feats f_segment_ids all_subtokens initial_state app].
    by rewrite !length_fmap.
  - intros i seg Hseg. unfold get_features_result in Hseg.
    cbn [feats f_segment_ids] in Hseg.
    rewrite list_lookup_fmap in Hseg.
    destruct (queries !! i); [|done]. by injection Hseg as <-.
Qed.

(** C7.  For a sentence that is not truncated (it is no longer than the
    effective max length), the number of 1-bits of the returned subtokens
    mask is the number of whitespace-separated words of the sentence. *)
Theorem subtokens_mask_counts_words :
  ∃ (s : state) (out : output),
    first_loop = Ok s ∧ get_features = Ok out
    ∧ ∀ (i : nat) (q : string) (subs : list string),
        queries !! i = Some q → all_subtokens s !! i = Some subs →
        len subs <= log_max_length out →
        ∃ mask : list Z,
          f_subtokens_mask (feats out) !! i = Some mask
          ∧ ones mask = length (py_split q).
Proof.
  exists s0, result.
  split; [apply first_loop_result|]. split; [apply get_features_result_ok|].
  intros i q subs Hq Hsubs Hfit.
  destruct (first_loop_entries i q Hq) as (Hs & _).
  rewrite Hs in Hsubs. injection Hsubs as <-.
  destruct (result_entries i q Hq) as (_ & _ & _ & _ & -> & _).
  eexists. split; [done|]. unfold final_subtokens_mask.
  rewrite final_not_truncated by done.
  rewrite ones_app, ones_py_repeat_0, ones_built_subtokens_mask. lia.
Qed.

Lemma first_loop_labels_entry (i : nat) (q : string) :
  with_label raw_labels = true → queries !! i = Some q →
  ∃ ls : list string,
    (r ← raw_labels; r !! i) = Some ls
    ∧ Forall (λ l, is_Some (d ← label_ids; d !! l)) ls
    ∧ all_subtokens s0 !! i = Some (built_subtokens q)
    ∧ all_labels s0 !! i
      = Some (built_labels pad_value (label_value label_ids <$> ls) q)
    ∧ (len (built_subtokens q) <= e →
       f_labels (feats result) !! i
       = Some (built_labels pad_value (label_value label_ids <$> ls) q
               ++ py_repeat pad_value (e - len (built_subtokens q)))).
Proof.
  intros Hwl Hq. destruct (labels_usable Hwl) as [_ Hok].
  destruct (Hok i q Hq) as (ls & Hls & Hall & _). exists ls.
  destruct (first_loop_entries i q Hq) as (-> & _ & _ & _ & ->).
  destruct (result_entries i q Hq) as (_ & _ & _ & _ & _ & ->).
  rewrite Hwl. unfold query_label_values. rewrite Hls.
  cbn [default]. repeat split; try done.
  intros Hfit. unfold final_labels. by rewrite final_not_truncated.
Qed.

(** X23.  For a non-empty batch with usable labels, a tokenizer
    that yields at least one subword for every word and one id per token,
    and [max_seq_length >= 2], [get_features] returns six lists with one
    entry per sentence, and every entry of every list (input ids, segment
    ids, input mask, loss mask, subtokens mask, labels) has exactly the
    effective max length. *)
Theorem get_features_uniform_length :
  with_label raw_labels = true →
  tokenizes_words tokenizer queries → ids_per_token tokenizer →
  2 <= max_seq_length →
  ∃ out : output,
    get_features = Ok out ∧ uniform_length out (length queries).
Proof.
  intros Hwl Htok Hids Hm. exists result.
  split; [by apply get_features_closed|].
  pose proof (effective_length_ge_2 tokenizer max_seq_length queries
                queries_nonempty Hm) as He.
  unfold uniform_length, six_lists, get_features_result.
  cbn [feats log_max_length f_input_ids f_segment_ids f_input_mask
    f_loss_mask f_subtokens_mask f_labels]. rewrite Hwl.
  repeat apply Forall_cons_2; [..|apply Forall_nil_2];
    (split; [by rewrite ?length_fmap, ?length_imap|]);
    apply Forall_lookup_2; intros i xs Hxs;
    rewrite ?list_lookup_fmap, ?list_lookup_imap in Hxs;
    destruct (queries !! i) as [q|] eqn:Hq; simplify_eq/=.
  - by apply len_final_input_ids.
  - rewrite len_py_repeat. lia.
  - apply len_final; [done|]. apply len_built_input_mask.
  - apply len_final; [done|]. apply len_built_loss_mask.
    intros w Hw. by eapply tokenizes_words_lookup.
  - apply len_final; [done|]. apply len_built_subtokens_mask.
    intros w Hw. by eapply tokenizes_words_lookup.
  - apply len_final; [done|]. apply len_built_labels.
    by apply query_labels_cover.
Qed.
End Claims.

(** C4.  With labels, the label list the first loop builds for a sentence
    is the pad id, then for every word one copy of the word's label id per
    subword of the word, first and continuation subwords alike, then the
    pad id; for a sentence no longer than the effective max length this is
    the returned label list, up to the trailing padding. *)
Theorem labels_follow_words (queries : list string) (max_seq_length : Z)
    (tokenizer : Tokenizer) (d : gmap string Z) (pad_label : string)
    (rl : list (list string)) (ignore_extra_tokens ignore_start_end : bool)
    (p : Z) :
  queries ≠ [] → d !! pad_label = Some p →
  well_labelled d queries rl = true →
  ∃ (s : state) (out : output),
    first_loop queries tokenizer (Some d) pad_label (Some rl)
      ignore_extra_tokens ignore_start_end = Ok s
    ∧ get_features queries max_seq_length tokenizer (Some d) pad_label
        (Some rl) ignore_extra_tokens ignore_start_end = Ok out
    ∧ ∀ (i : nat) (q : string), queries !! i = Some q →
        ∃ (ls : list string) (vs : list Z),
          rl !! i = Some ls
          ∧ Forall2 (λ l v, d !! l = Some v) ls vs
          ∧ let words := py_split q in
            let subs :=
              [cls_token tokenizer]
              ++ concat (text_to_tokens tokenizer <$> words)
              ++ [sep_token tokenizer] in
            let lbs :=
              [p]
              ++ concat (zip_with
                           (λ w v, (λ _, v) <$> text_to_tokens tokenizer w)
                           words vs)
              ++ [p] in
            all_subtokens s !! i = Some subs
            ∧ all_labels s !! i = Some lbs
            ∧ (len subs <= log_max_length out →
               f_labels (feats out) !! i
               = Some (lbs ++ py_repeat p (log_max_length out - len subs))).
Proof.
  intros Hne Hp Hwl.
  assert (labels_available (Some d) pad_label (Some rl) queries) as Hav
    by (apply well_labelled_available; [by eexists|done]).
  eexists _, _.
  split; [by apply first_loop_result|].
  split; [by apply get_features_result_ok|].
  intros i q Hq.
  destruct (first_loop_labels_entry queries max_seq_length tokenizer (Some d)
              pad_label (Some rl) ignore_extra_tokens ignore_start_end Hav
              i q eq_refl Hq) as (ls & Hls & Hall & Hsubs & Hlbs & Hfin).
  exists ls, (label_value (Some d) <$> ls).
  split; [exact Hls|]. split.
  { apply Forall2_fmap_r, Forall_Forall2_diag.
    eapply Forall_impl; [exact Hall|]. intros l [v Hv]. simpl in *.
    unfold label_value. simpl. by rewrite Hv. }
  cbn zeta. rewrite <- built_labels_per_subword.
  replace p with (label_value (Some d) pad_label)
    by (unfold label_value; simpl; by rewrite Hp).
  done.
Qed.

Lemma py_index_nat {A : Type} (xs : list A) (i : nat) :
  (i < length xs)%nat → py_index xs (Z.of_nat i) = list_get xs i.
Proof.
  intros Hi. unfold py_index, len.
  assert ((Z.of_nat i <? 0) = false) as Hneg by (apply Z.ltb_ge; lia).
  assert ((Z.of_nat (length xs) <=? Z.of_nat i) = false) as Hle
    by (apply Z.leb_gt; lia).
  rewrite Hneg. cbv iota. rewrite Hneg, Hle. cbn [orb]. by rewrite Nat2Z.id.
Qed.

(** C10.  Without [raw_labels], and on a non-empty batch, [get_features]
    returns six lists of which the first five have one entry per sentence
    and the sixth, the labels, is empty; the inference dataset keeps the
    first five, and an item of it is the five entries at the index. *)
Theorem get_features_without_labels (queries : list string)
    (max_seq_length : Z) (tokenizer : Tokenizer)
    (label_ids : option (gmap string Z)) (pad_label : string)
    (ignore_extra_tokens ignore_start_end : bool) :
  queries ≠ [] →
  (∃ out : output,
     get_features queries max_seq_length tokenizer label_ids pad_label None
       ignore_extra_tokens ignore_start_end = Ok out
     ∧ f_labels (feats out) = []
     ∧ Forall (λ l : list (list Z), length l = length queries)
         [f_input_ids (feats out); f_segment_ids (feats out);
          f_input_mask (feats out); f_loss_mask (feats out);
          f_subtokens_mask (feats out)])
  ∧ ∃ (out : output) (ds : BertTokenClassificationInferDataset),
      get_features queries max_seq_length tokenizer None "O" None false false
      = Ok out
      ∧ infer_init queries max_seq_length tokenizer = Ok ds
      ∧ ds = {| infer_input_ids := f_input_ids (feats out);
                infer_segment_ids := f_segment_ids (feats out);
                infer_input_mask := f_input_mask (feats out);
                infer_loss_mask := f_loss_mask (feats out);
                infer_subtokens_mask := f_subtokens_mask (feats out) |}
      ∧ infer_len ds = len queries
      ∧ ∀ i : nat, (i < length queries)%nat →
          ∃ a b c d e : list Z,
            infer_getitem ds (Z.of_nat i) = Ok (a, b, c, d, e)
            ∧ f_input_ids (feats out) !! i = Some a
            ∧ f_segment_ids (feats out) !! i = Some b
            ∧ f_input_mask (feats out) !! i = Some c
            ∧ f_loss_mask (feats out) !! i = Some d
            ∧ f_subtokens_mask (feats out) !! i = Some e.
Proof.
  intros Hne. split.
  - eexists. split.
    + apply get_features_result_ok; [done|]. apply unlabelled_available.
    + unfold get_features_result. cbn [feats f_labels f_input_ids
        f_segment_ids f_input_mask f_loss_mask f_subtokens_mask with_label].
      split; [done|]. repeat apply Forall_cons_2; try apply Forall_nil_2;
        by rewrite length_fmap.
  - eexists _, _. split.
    { apply get_features_result_ok; [done|]. apply unlabelled_available. }
    unfold infer_init.
    rewrite get_features_result_ok by (done || apply unlabelled_available).
    cbn [mbind result_bind]. split; [done|]. split; [done|].
    unfold infer_len, get_features_result, len.
    cbn [feats f_input_ids f_segment_ids f_input_mask f_loss_mask
      f_subtokens_mask infer_input_ids]. split; [by rewrite length_fmap|].
    intros i Hi. destruct (lookup_lt_is_Some_2 queries i Hi) as [q Hq].
    unfold infer_getitem.
    cbn [infer_input_ids infer_segment_ids infer_input_mask infer_loss_mask
      infer_subtokens_mask].
    rewrite !py_index_nat by (by rewrite length_fmap). unfold list_get.
    rewrite !list_lookup_fmap, Hq. cbn [fmap option_fmap option_map mbind
      result_bind]. by eexists _, _, _, _, _.
Qed.

(** ** Which exceptions the loops can raise *)

Lemma no_value_error_Ok {A : Type} (a : A) : no_value_error (Ok a).
Proof. intros msg. discriminate. Qed.

Lemma no_value_error_bind {A B : Type} (r : result A) (f : A → result B) :
  no_value_error r → (∀ a, r = Ok a → no_value_error (f a)) →
  no_value_error (r ≫= f).
Proof.
  intros Hr Hf. destruct r as [a|e]; cbn [mbind result_bind]; [by apply Hf|].
  intros msg [= ->]. by apply (Hr msg).
Qed.

Lemma no_value_error_list_get {A : Type} (xs : list A) (i : nat) :
  no_value_error (list_get xs i).
Proof. unfold list_get. intros msg. by destruct (xs !! i). Qed.

Lemma no_value_error_for_each {S A : Type} (body : S → A → result S)
    (xs : list A) :
  (∀ s x, no_value_error (body s x)) →
  ∀ s, no_value_error (for_each body xs s).
Proof.
  intros Hbody. induction xs as [|x xs IH]; intros s; cbn [for_each].
  - apply no_value_error_Ok.
  - apply no_value_error_bind; [apply Hbody|]. intros s' _. apply IH.
Qed.

Lemma bind_Ok_inv {A B : Type} (r : result A) (f : A → result B) (b : B) :
  r ≫= f = Ok b → ∃ a, r = Ok a ∧ f a = Ok b.
Proof. destruct r as [a|e]; [|done]. intros H. by exists a. Qed.

(** Splits a goal [no_value_error] along the binds and branches of a loop
    body. *)
Ltac no_value_error :=
  repeat first
    [ apply no_value_error_Ok
    | apply no_value_error_list_get
    | (intros msg; discriminate)
    | apply no_value_error_bind; [|intros ? _]
    | match goal with
      | |- no_value_error (if ?b then _ else _) => destruct b
      | |- no_value_error (match ?x with _ => _ end) => destruct x
      | |- no_value_error (from_option _ _ ?o) => destruct o; cbn [from_option]
      end ].

Section Exceptions.
Variable queries : list string.
Variable max_seq_length : Z.
Variable tokenizer : Tokenizer.
Variable label_ids : option (gmap string Z).
Variable pad_label : string.
Variable raw_labels : option (list (list string)).
Variable ignore_extra_tokens : bool.
Variable ignore_start_end : bool.

Local Abbreviation query_body :=
  (query_body tokenizer label_ids pad_label raw_labels ignore_extra_tokens
     ignore_start_end).
Local Abbreviation pad_body :=
  (pad_body tokenizer raw_labels ignore_start_end).

Lemma no_value_error_label_id (l : string) :
  no_value_error (label_id label_ids l).
Proof. unfold label_id. no_value_error. Qed.

Lemma no_value_error_list_comp (ls : list string) :
  no_value_error (list_comp (label_id label_ids) ls).
Proof.
  induction ls as [|l ls IH]; cbn [list_comp]; [apply no_value_error_Ok|].
  apply no_value_error_bind; [apply no_value_error_label_id|]. intros v _.
  apply no_value_error_bind; [apply IH|]. intros vs _.
  apply no_value_error_Ok.
Qed.

Lemma no_value_error_word_body (ql : list Z) (a : sentence)
    (jw : nat * string) :
  no_value_error
    (word_body tokenizer raw_labels ignore_extra_tokens ql a jw).
Proof. unfold word_body. destruct jw. no_value_error. Qed.

Lemma no_value_error_query_body (s : state) (iq : nat * string) :
  no_value_error (query_body s iq).
Proof.
  unfold query_body, raw_labels_at. destruct iq as [i q].
  apply no_value_error_bind.
  { destruct (with_label raw_labels); [|apply no_value_error_Ok].
    apply no_value_error_bind; [apply no_value_error_label_id|].
    intros p _. apply no_value_error_bind; [no_value_error|].
    intros rl _. apply no_value_error_bind; [apply no_value_error_list_comp|].
    intros ql _. apply no_value_error_Ok. }
  intros [[pad lbl0] ql] _.
  apply no_value_error_bind.
  { apply no_value_error_for_each. apply no_value_error_word_body. }
  intros a _. no_value_error.
Qed.

Lemma no_value_error_pad_body (m : Z) (s : state)
    (it : nat * list string) :
  no_value_error (pad_body m s it).
Proof. unfold pad_body. destruct it as [i subs]. no_value_error. Qed.

(** Every iteration of the first loop appends to [sent_lengths]. *)
Lemma query_body_sent_lengths (s s' : state) (iq : nat * string) :
  query_body s iq = Ok s' →
  length (sent_lengths s') = S (length (sent_lengths s)).
Proof.
  unfold query_body. destruct iq as [i q].
  intros ([[pad lbl0] ql] & _ & H)%bind_Ok_inv.
  apply bind_Ok_inv in H as (a & _ & H).
  apply bind_Ok_inv in H as (lbs & _ & [= <-]).
  cbn [sent_lengths]. rewrite length_app. simpl. lia.
Qed.

Lemma first_loop_sent_lengths (xs : list (nat * string)) :
  ∀ s s' : state, for_each query_body xs s = Ok s' →
  length (sent_lengths s') = (length (sent_lengths s) + length xs)%nat.
Proof.
  induction xs as [|x xs IH]; intros s s'; cbn [for_each].
  - intros [= <-]. simpl. lia.
  - intros (s1 & H1 & H)%bind_Ok_inv.
    apply query_body_sent_lengths in H1. apply IH in H.
    cbn [length]. lia.
Qed.

Lemma length_enumerate_from {A : Type} (xs : list A) :
  ∀ k : nat, length (enumerate_from k xs) = length xs.
Proof. induction xs; intros k; simpl; by f_equal. Qed.

Lemma first_loop_max (q : string) (qs : list string) (s : state) :
  first_loop (q :: qs) tokenizer label_ids pad_label raw_labels
    ignore_extra_tokens ignore_start_end = Ok s →
  ∃ m : Z, effective_max_length max_seq_length s = Ok m.
Proof.
  intros Hs. apply first_loop_sent_lengths in Hs.
  unfold enumerate in Hs. rewrite length_enumerate_from in Hs.
  cbn [sent_lengths initial_state length] in Hs.
  unfold effective_max_length.
  destruct (sent_lengths s) as [|x xs]; [simpl in Hs; lia|].
  cbn [py_max mbind result_bind]. by eexists.
Qed.

(** C9.  [get_features] raises the [ValueError] of [max] on an empty
    sequence exactly when the list of queries is empty; for a non-empty
    list the effective max length is defined whenever the first loop
    returns. *)
Theorem get_features_empty_queries :
  (get_features queries max_seq_length tokenizer label_ids pad_label
     raw_labels ignore_extra_tokens ignore_start_end
   = Raise (ValueError "max() arg is an empty sequence")
   ↔ queries = [])
  ∧ (queries ≠ [] →
     ∀ s : state,
       first_loop queries tokenizer label_ids pad_label raw_labels
         ignore_extra_tokens ignore_start_end = Ok s →
       ∃ m : Z, effective_max_length max_seq_length s = Ok m).
Proof.
  split; [split; [|by intros ->]|].
  - intros Hraise. destruct queries as [|q qs] eqn:Hqs; [done|]. exfalso.
    revert Hraise. apply (no_value_error_bind (A := state)).
    + apply no_value_error_for_each, no_value_error_query_body.
    + intros s Hs. apply no_value_error_bind.
      * destruct (first_loop_max q qs s Hs) as [m ->].
        apply no_value_error_Ok.
      * intros m _. apply no_value_error_bind.
        -- apply no_value_error_for_each, no_value_error_pad_body.
        -- intros s' _. apply no_value_error_Ok.
  - intros Hne s Hs. destruct queries as [|q qs]; [done|].
    by apply (first_loop_max q qs).
Qed.
End Exceptions.

(** ** The constructor of the training dataset *)

Section Constructor.
Variable text_file label_file : string.
Variable max_seq_length : Z.
Variable tokenizer : Tokenizer.
Variable label_ids : option (gmap string Z).
Variable num_samples : Z.
Variable pad_label : string.
Variable ignore_extra_tokens : bool.
Variable ignore_start_end : bool.
Variable overwrite_processed_files : bool.

Local Abbreviation init :=
  (dataset_init text_file label_file max_seq_length tokenizer label_ids
     num_samples pad_label ignore_extra_tokens ignore_start_end
     overwrite_processed_files).
Local Abbreviation features_pkl :=
  (features_pkl_path text_file max_seq_length tokenizer).
Local Abbreviation computes :=
  (computes_features text_file max_seq_length tokenizer
     overwrite_processed_files).

Lemma init_wrong_extension (w : world) :
  endswith (basename text_file) ".txt" = false →
  init w = (Raise (ValueError "{text_file} should have extension .txt"), w).
Proof. intros Hext. unfold dataset_init. by rewrite Hext. Qed.




Lemma init_cached (w : world) :
  endswith (basename text_file) ".txt" = true → computes w = false →
  init w
  = match files w !! features_pkl with
    | Some (PickleFile content) =>
        (Ok {| ds_input_ids := f_input_ids content;
               ds_segment_ids := f_segment_ids content;
               ds_input_mask := f_input_mask content;
               ds_loss_mask := f_loss_mask content;
               ds_subtokens_mask := f_subtokens_mask content;
               ds_labels := f_labels content |}, w)
    | Some (TextFile _) => (Raise UnpicklingError, w)
    | None => (Raise (FileNotFoundError features_pkl), w)
    end.
Proof.
  intros Hext Hcomp. unfold dataset_init.
  rewrite Hext. cbn [negb]. unfold computes_features in Hcomp.
  unfold mbind, io_bind, master_device, path_exists.
  rewrite Hcomp. unfold mret, io_ret, barrier, pickle_load.
  by destruct (files w !! features_pkl) as [[?|?]|].
Qed.

End Constructor.


(** ** The theorems on the sample batch *)

Lemma sample_queries_nonempty : sample_queries ≠ [].
Proof. discriminate. Qed.

(** C2 on the sample batch, with [ignore_extra_tokens]: the masks of
    [ab c], whose first word has a continuation subword. *)
Lemma first_loop_masks_witness :
  ∃ (s : state) (out : output),
    first_loop sample_queries sample_tokenizer (Some sample_label_ids) "O"
      (Some sample_raw_labels) true false = Ok s
    ∧ get_features sample_queries 10 sample_tokenizer (Some sample_label_ids)
        "O" (Some sample_raw_labels) true false = Ok out
    ∧ all_subtokens s !! 0%nat = Some ["[CLS]"; "a"; "##b"; "c"; "[SEP]"]
    ∧ all_loss_mask s !! 0%nat = Some [1; 1; 0; 1; 1]
    ∧ all_subtokens_mask s !! 0%nat = Some [0; 1; 0; 1; 0].
Proof.
  destruct (first_loop_masks sample_queries 10 sample_tokenizer
              (Some sample_label_ids) "O" (Some sample_raw_labels) true false
              sample_queries_nonempty sample_labels_available
              (sample_tokenizer_words sample_queries))
    as (s & out & Hs & Hout & H).
  exists s, out. split; [exact Hs|]. split; [exact Hout|].
  destruct (H 0%nat "ab c" eq_refl) as (Hsubs & Hlm & Hsm & _).
  split; [exact Hsubs|]. split; [exact Hlm|exact Hsm].
Defined.

(** X24 on the sample batch for a max length of 4, which truncates the
    first sentence. *)
Lemma get_features_truncation_witness :
  ∃ (s : state) (out : output),
    first_loop sample_queries sample_tokenizer (Some sample_label_ids) "O"
      (Some sample_raw_labels) false false = Ok s
    ∧ get_features sample_queries 4 sample_tokenizer (Some sample_label_ids)
        "O" (Some sample_raw_labels) false false = Ok out
    ∧ (true = true → pad_id s = sample_label_ids !! "O")
    ∧ truncation_policy sample_tokenizer false true s out.
Proof.
  apply (get_features_truncation sample_queries 4 sample_tokenizer
           (Some sample_label_ids) "O" (Some sample_raw_labels) false false).
  - exact sample_queries_nonempty.
  - exact sample_labels_available.
  - lia.
Defined.

(** C3 as stated fails for a max length of 1: the slice [-1 + 1 :] is
    [0:], so a sentence keeps all its subtokens behind the new start
    marker instead of none. *)
Lemma truncation_max_length_1 :
  ¬ ∃ (s : state) (out : output),
      first_loop sample_queries sample_tokenizer (Some sample_label_ids) "O"
        (Some sample_raw_labels) false false = Ok s
      ∧ get_features sample_queries 1 sample_tokenizer (Some sample_label_ids)
          "O" (Some sample_raw_labels) false false = Ok out
      ∧ (true = true → pad_id s = sample_label_ids !! "O")
      ∧ truncation_policy sample_tokenizer false true s out.
Proof.
  intros (s & out & Hs & Hout & _ & Hcut & _).
  vm_compute in Hs. injection Hs as <-.
  vm_compute in Hout. injection Hout as <-.
  destruct (Hcut 0%nat ["[CLS]"; "a"; "##b"; "c"; "[SEP]"] eq_refl)
    as (Hids & _); [reflexivity|].
  vm_compute in Hids. discriminate.
Qed.

(** C4 on the sample batch: the labels of [ab c]. *)
Lemma labels_follow_words_witness :
  ∃ (s : state) (out : output),
    first_loop sample_queries sample_tokenizer (Some sample_label_ids) "O"
      (Some sample_raw_labels) false false = Ok s
    ∧ get_features sample_queries 10 sample_tokenizer (Some sample_label_ids)
        "O" (Some sample_raw_labels) false false = Ok out
    ∧ ∃ vs : list Z,
        Forall2 (λ l v, sample_label_ids !! l = Some v) ["B-PER"; "O"] vs
        ∧ all_labels s !! 0%nat
          = Some ([0]
                  ++ concat (zip_with (λ w v, (λ _, v) <$> wordpiece w)
                               ["ab"; "c"] vs)
                  ++ [0]).
Proof.
  destruct (labels_follow_words sample_queries 10 sample_tokenizer
              sample_label_ids "O" sample_raw_labels false false 0
              sample_queries_nonempty eq_refl eq_refl)
    as (s & out & Hs & Hout & H).
  exists s, out. split; [exact Hs|]. split; [exact Hout|].
  destruct (H 0%nat "ab c" eq_refl) as (ls & vs & Hls & Hvs & _ & Hlbs & _).
  injection Hls as <-. exists vs. split; [exact Hvs|exact Hlbs].
Defined.

(** C5 on the sample batch for a max length of 4. *)
Lemma effective_max_length_min_witness :
  ∃ (s : state) (out : output) (longest : Z),
    first_loop sample_queries sample_tokenizer (Some sample_label_ids) "O"
      (Some sample_raw_labels) false false = Ok s
    ∧ get_features sample_queries 4 sample_tokenizer (Some sample_label_ids)
        "O" (Some sample_raw_labels) false false = Ok out
    ∧ py_max (sent_lengths s) = Ok longest
    ∧ log_max_length out = Z.min 4 longest.
Proof.
  destruct (effective_max_length_min sample_queries 4 sample_tokenizer
              (Some sample_label_ids) "O" (Some sample_raw_labels) false false
              sample_queries_nonempty sample_labels_available)
    as (s & out & longest & Hs & Hout & Hmax & _ & _ & _ & Hmin & _).
  exists s, out, longest. repeat split; assumption.
Defined.

(** C6 on the sample batch for a max length of 4, which pads the second
    sentence. *)
Lemma get_features_padding_witness :
  ∃ (s : state) (out : output),
    first_loop sample_queries sample_tokenizer (Some sample_label_ids) "O"
      (Some sample_raw_labels) false false = Ok s
    ∧ get_features sample_queries 4 sample_tokenizer (Some sample_label_ids)
        "O" (Some sample_raw_labels) false false = Ok out
    ∧ (true = true → pad_id s = sample_label_ids !! "O")
    ∧ padding_policy sample_tokenizer true s out.
Proof.
  apply (get_features_padding sample_queries 4 sample_tokenizer
           (Some sample_label_ids) "O" (Some sample_raw_labels) false false).
  - exact sample_queries_nonempty.
  - exact sample_labels_available.
  - apply sample_tokenizer_words.
  - exact sample_tokenizer_ids.
Defined.

(** C7 on the sample batch. *)
Lemma subtokens_mask_counts_words_witness :
  ∃ (s : state) (out : output),
    first_loop sample_queries sample_tokenizer (Some sample_label_ids) "O"
      (Some sample_raw_labels) false false = Ok s
    ∧ get_features sample_queries 10 sample_tokenizer (Some sample_label_ids)
        "O" (Some sample_raw_labels) false false = Ok out
    ∧ ∀ (i : nat) (q : string) (subs : list string),
        sample_queries !! i = Some q → all_subtokens s !! i = Some subs →
        len subs <= log_max_length out →
        ∃ mask : list Z,
          f_subtokens_mask (feats out) !! i = Some mask
          ∧ ones mask = length (py_split q).
Proof.
  apply subtokens_mask_counts_words.
  - exact sample_queries_nonempty.
  - exact sample_labels_available.
Defined.

(** C10 on the sample batch. *)
Lemma get_features_without_labels_witness :
  ∃ out : output,
    get_features sample_queries 10 sample_tokenizer None "O" None false false
    = Ok out
    ∧ f_labels (feats out) = []
    ∧ ∃ ds : BertTokenClassificationInferDataset,
        infer_init sample_queries 10 sample_tokenizer = Ok ds
        ∧ infer_len ds = 2.
Proof.
  destruct (get_features_without_labels sample_queries 10 sample_tokenizer
              None "O" false false sample_queries_nonempty)
    as [(out & Hout & Hlabels & _) (out' & ds & _ & Hds & _ & Hlen & _)].
  exists out. split; [exact Hout|]. split; [exact Hlabels|].
  exists ds. split; [exact Hds|exact Hlen].
Defined.

(** C9 on the empty batch. *)
Lemma get_features_empty_queries_witness :
  get_features [] 10 sample_tokenizer None "O" None false false
  = Raise (ValueError "max() arg is an empty sequence").
Proof.
  apply (get_features_empty_queries [] 10 sample_tokenizer None "O" None
           false false).
  reflexivity.
Defined.


(** X23 on the sample batch for a max length of 4, which truncates the
    first sentence and pads the second. *)
Lemma get_features_uniform_length_witness :
  ∃ out : output,
    get_features sample_queries 4 sample_tokenizer (Some sample_label_ids)
      "O" (Some sample_raw_labels) false false = Ok out
    ∧ uniform_length out (length sample_queries).
Proof.
  apply get_features_uniform_length.
  - exact sample_queries_nonempty.
  - exact sample_labels_available.
  - reflexivity.
  - apply sample_tokenizer_words.
  - exact sample_tokenizer_ids.
  - lia.
Defined.

(** C1 as stated fails for a max length of 1: every list entry is longer
    than the effective max length 1. *)
Lemma get_features_short_max_length :
  ¬ ∃ out : output,
      get_features sample_queries 1 sample_tokenizer (Some sample_label_ids)
        "O" (Some sample_raw_labels) false false = Ok out
      ∧ uniform_length out (length sample_queries).
Proof.
  intros (out & Hout & Hlen). vm_compute in Hout. injection Hout as <-.
  unfold uniform_length, six_lists in Hlen.
  apply Forall_cons in Hlen as [[_ Hids] _].
  apply Forall_cons in Hids as [Hids _]. vm_compute in Hids. discriminate.
Qed.

(** C1 for a max length of 1 on the sample batch.  The effective max length
    is 1 and the segment ids of a sentence have 1 entry, but the input ids,
    the three masks and the labels of the two sentences have 6 and 4
    entries: the slice [-1 + 1 :] keeps the whole list behind the new head
    entry. *)
Theorem get_features_max_length_1_lengths :
  ∃ out : output,
    get_features sample_queries 1 sample_tokenizer (Some sample_label_ids)
      "O" (Some sample_raw_labels) false false = Ok out
    ∧ log_max_length out = 1
    ∧ (λ l : list (list Z), len <$> l) <$> six_lists out
      = [[6; 4]; [1; 1]; [6; 4]; [6; 4]; [6; 4]; [6; 4]].
Proof.
  eexists. split; [vm_compute; reflexivity|].
  split; [reflexivity|]. vm_compute. reflexivity.
Qed.

(** C3 for a max length of 1 on the sample batch.  Both sentences are
    counted as too long, and the first one, [[CLS] a ##b c [SEP]] after the
    first loop, is returned as the head entry followed by all five entries
    of what the first loop built, in every list, and not by its last
    [1 - 1 = 0] entries. *)
Theorem get_features_max_length_1_truncation :
  ∃ (s : state) (out : output),
    first_loop sample_queries sample_tokenizer (Some sample_label_ids) "O"
      (Some sample_raw_labels) false false = Ok s
    ∧ get_features sample_queries 1 sample_tokenizer (Some sample_label_ids)
        "O" (Some sample_raw_labels) false false = Ok out
    ∧ log_max_length out = 1
    ∧ log_too_long_count out = 2
    ∧ all_subtokens s !! 0%nat = Some ["[CLS]"; "a"; "##b"; "c"; "[SEP]"]
    ∧ f_input_ids (feats out) !! 0%nat
      = Some (tokens_to_ids sample_tokenizer
                (["[CLS]"] ++ ["[CLS]"; "a"; "##b"; "c"; "[SEP]"]))
    ∧ all_input_mask s !! 0%nat = Some [1; 1; 1; 1; 1]
    ∧ f_input_mask (feats out) !! 0%nat = Some ([1] ++ [1; 1; 1; 1; 1])
    ∧ all_loss_mask s !! 0%nat = Some [1; 1; 1; 1; 1]
    ∧ f_loss_mask (feats out) !! 0%nat = Some ([1] ++ [1; 1; 1; 1; 1])
    ∧ all_subtokens_mask s !! 0%nat = Some [0; 1; 0; 1; 0]
    ∧ f_subtokens_mask (feats out) !! 0%nat = Some ([0] ++ [0; 1; 0; 1; 0])
    ∧ all_labels s !! 0%nat = Some [0; 1; 1; 0; 0]
    ∧ f_labels (feats out) !! 0%nat = Some ([0] ++ [0; 1; 1; 0; 0]).
Proof.
  eexists _, _. split; [vm_compute; reflexivity|].
  split; [vm_compute; reflexivity|]. repeat split; vm_compute; reflexivity.
Qed.

(** * Further properties of [get_features] *)

(** ** When the first loop returns, and what it raises otherwise *)

Lemma for_each_app {S A : Type} (body : S → A → result S) (xs ys : list A) :
  ∀ s : S, for_each body (xs ++ ys) s = for_each body xs s ≫= for_each body ys.
Proof.
  induction xs as [|x xs IH]; intros s; [done|].
  cbn [app for_each]. destruct (body s x) as [s'|e]; cbn [mbind result_bind];
    [apply IH|done].
Qed.

Lemma enumerate_from_app {A : Type} (xs ys : list A) :
  ∀ k : nat,
  enumerate_from k (xs ++ ys)
  = enumerate_from k xs ++ enumerate_from (k + length xs) ys.
Proof.
  induction xs as [|x xs IH]; intros k; cbn [app enumerate_from length].
  - by rewrite Nat.add_0_r.
  - rewrite IH. by replace (S k + length xs)%nat with (k + S (length xs))%nat
      by lia.
Qed.

Section FirstLoopErrors.
Variable tokenizer : Tokenizer.
Variable label_ids : option (gmap string Z).
Variable pad_label : string.
Variable raw_labels : option (list (list string)).
Variable ignore_extra_tokens : bool.
Variable ignore_start_end : bool.

Local Abbreviation with_label := (with_label raw_labels).
Local Abbreviation label_id := (label_id label_ids).
Local Abbreviation word_body :=
  (word_body tokenizer raw_labels ignore_extra_tokens).
Local Abbreviation query_body :=
  (query_body tokenizer label_ids pad_label raw_labels ignore_extra_tokens
     ignore_start_end).
Local Abbreviation known := (λ l : string, is_Some (d ← label_ids; d !! l)).

Lemma label_id_Ok_inv (l : string) (v : Z) : label_id l = Ok v → known l.
Proof.
  unfold label_id. destruct label_ids as [d|]; [|done]. simpl.
  destruct (d !! l); [by eexists|done].
Qed.

Lemma list_comp_label_id_inv (ls : list string) :
  ∀ ql : list Z, list_comp label_id ls = Ok ql →
  Forall known ls ∧ length ql = length ls.
Proof.
  induction ls as [|l ls IH]; intros ql; cbn [list_comp].
  - intros [= <-]. by split.
  - intros (v & Hv & H)%bind_Ok_inv.
    apply bind_Ok_inv in H as (vs & Hvs & [= <-]).
    destruct (IH vs Hvs) as [Hall Hlen]. split.
    + constructor; [by eapply label_id_Ok_inv|done].
    + simpl. by rewrite Hlen.
Qed.

(** An unknown label stops the comprehension with its [KeyError]. *)
Lemma list_comp_label_id_unknown (d : gmap string Z) (before after : list string)
    (l : string) :
  label_ids = Some d → Forall (λ l, is_Some (d !! l)) before → d !! l = None →
  list_comp label_id (before ++ l :: after) = Raise (KeyError l).
Proof.
  intros Hd Hbefore Hl. induction Hbefore as [|l0 ls [v Hv] _ IH].
  - cbn [app list_comp]. unfold label_id. rewrite Hd, Hl. done.
  - cbn [app list_comp].
    rewrite (label_id_value label_ids l0) by (rewrite Hd; simpl; by eexists).
    cbn [mbind result_bind]. by rewrite IH.
Qed.

Lemma word_loop_Ok_inv (ql : list Z) (ws : list string) :
  ∀ (j : nat) (a a' : sentence),
  for_each (word_body ql) (enumerate_from j ws) a = Ok a' →
  with_label = true → ws ≠ [] → (j + length ws ≤ length ql)%nat.
Proof.
  induction ws as [|w ws IH]; intros j a a' Hrun Hwl Hne; [done|].
  cbn [enumerate_from for_each] in Hrun.
  apply bind_Ok_inv in Hrun as (a1 & Hstep & Hrest).
  assert (j < length ql)%nat as Hj.
  { unfold word_body in Hstep. rewrite Hwl in Hstep.
    apply bind_Ok_inv in Hstep as (lbls & Hl & _).
    apply bind_Ok_inv in Hl as (l & Hl & _). unfold list_get in Hl.
    destruct (ql !! j) eqn:Hlookup; [|done].
    by apply lookup_lt_Some in Hlookup. }
  destruct ws as [|w' ws]; [simpl; lia|].
  specialize (IH (S j) a1 a' Hrest Hwl). cbn [length] in *.
  assert (S j + S (length ws) ≤ length ql)%nat by (by apply IH). lia.
Qed.

(** With too few labels the inner loop raises [IndexError]. *)
Lemma word_loop_short (ql : list Z) (ws : list string) :
  ∀ (j : nat) (a : sentence),
  with_label = true → (j ≤ length ql)%nat → (length ql < j + length ws)%nat →
  for_each (word_body ql) (enumerate_from j ws) a = Raise IndexError.
Proof.
  induction ws as [|w ws IH]; intros j a Hwl Hj Hshort;
    cbn [length] in Hshort; [lia|].
  cbn [enumerate_from for_each].
  destruct (decide (j < length ql)%nat) as [Hlt|Hge].
  - destruct (lookup_lt_is_Some_2 ql j Hlt) as [l Hl].
    rewrite (word_body_closed tokenizer raw_labels ignore_extra_tokens ql a j
               w l) by done.
    cbn [mbind result_bind]. apply IH; [done|lia|lia].
  - unfold word_body. rewrite Hwl. unfold list_get.
    rewrite (lookup_ge_None_2 ql j) by lia. done.
Qed.

(** What a successful iteration of the first loop has found. *)
Lemma query_body_Ok_inv (s s' : state) (i : nat) (q : string) :
  query_body s (i, q) = Ok s' → with_label = true →
  known pad_label
  ∧ ∃ ls : list string,
      (r ← raw_labels; r !! i) = Some ls ∧ Forall known ls
      ∧ (length (py_split q) ≤ length ls)%nat.
Proof.
  intros Hrun Hwl. unfold query_body in Hrun. rewrite Hwl in Hrun.
  apply bind_Ok_inv in Hrun as ([[pad lbl0] ql] & Hlabels & Hrun).
  apply bind_Ok_inv in Hlabels as (p & Hp & Hlabels).
  apply bind_Ok_inv in Hlabels as (rl & Hrl & Hlabels).
  apply bind_Ok_inv in Hlabels as (ql' & Hql & [= <- <- <-]).
  apply bind_Ok_inv in Hrun as (a & Hwords & _).
  split; [by eapply label_id_Ok_inv|]. exists rl.
  destruct (list_comp_label_id_inv rl ql' Hql) as [Hall Hlen].
  split; [|split; [done|]].
  - unfold raw_labels_at in Hrl. destruct raw_labels as [r|]; [|done]. simpl.
    unfold list_get in Hrl. by destruct (r !! i) as [x|]; simplify_eq.
  - destruct (py_split q) as [|w ws] eqn:Hws; [simpl; lia|].
    unfold enumerate in Hwords.
    apply word_loop_Ok_inv in Hwords; [|done..]. cbn [length] in *. lia.
Qed.

Lemma first_loop_Ok_inv (qs : list string) :
  ∀ (k : nat) (s s' : state),
  for_each query_body (enumerate_from k qs) s = Ok s' → with_label = true →
  ∀ (i : nat) (q : string), qs !! i = Some q →
    known pad_label
    ∧ ∃ ls : list string,
        (r ← raw_labels; r !! (k + i)%nat) = Some ls ∧ Forall known ls
        ∧ (length (py_split q) ≤ length ls)%nat.
Proof.
  induction qs as [|q0 qs IH]; intros k s s' Hrun Hwl i q Hq; [done|].
  cbn [enumerate_from for_each] in Hrun.
  apply bind_Ok_inv in Hrun as (s1 & Hstep & Hrest).
  destruct i as [|i]; simplify_eq/=.
  - rewrite Nat.add_0_r. by eapply query_body_Ok_inv.
  - replace (k + S i)%nat with (S k + i)%nat by lia. by eapply IH.
Qed.
End FirstLoopErrors.

(** A call that returns had a non-empty batch and usable labels. *)
Lemma get_features_Ok_available (queries : list string) (max_seq_length : Z)
    (tokenizer : Tokenizer) (label_ids : option (gmap string Z))
    (pad_label : string) (raw_labels : option (list (list string)))
    (ignore_extra_tokens ignore_start_end : bool) (out : output) :
  get_features queries max_seq_length tokenizer label_ids pad_label raw_labels
    ignore_extra_tokens ignore_start_end = Ok out →
  queries ≠ [] ∧ labels_available label_ids pad_label raw_labels queries.
Proof.
  intros Hout. destruct queries as [|q0 qs] eqn:Hqs; [done|].
  split; [done|]. apply bind_Ok_inv in Hout as (s & Hs & _). intros Hwl.
  split.
  - by destruct (first_loop_Ok_inv _ _ _ _ _ _ _ _ _ _ Hs Hwl 0%nat q0 eq_refl).
  - intros i q Hq.
    by destruct (first_loop_Ok_inv _ _ _ _ _ _ _ _ _ _ Hs Hwl i q Hq).
Qed.

(** X1.  [get_features] returns exactly on a non-empty batch whose labels
    are usable: otherwise it raises. *)
Theorem get_features_returns_iff (queries : list string) (max_seq_length : Z)
    (tokenizer : Tokenizer) (label_ids : option (gmap string Z))
    (pad_label : string) (raw_labels : option (list (list string)))
    (ignore_extra_tokens ignore_start_end : bool) :
  (∃ out : output,
     get_features queries max_seq_length tokenizer label_ids pad_label
       raw_labels ignore_extra_tokens ignore_start_end = Ok out)
  ↔ queries ≠ [] ∧ labels_available label_ids pad_label raw_labels queries.
Proof.
  split.
  - intros [out Hout]. by eapply get_features_Ok_available.
  - intros [Hne Hok]. eexists. by apply get_features_closed.
Qed.

Section LabelErrors.
Variable max_seq_length : Z.
Variable tokenizer : Tokenizer.
Variable d : gmap string Z.
Variable pad_label : string.
Variable rl : list (list string).
Variable ignore_extra_tokens : bool.
Variable ignore_start_end : bool.

Local Abbreviation query_body :=
  (query_body tokenizer (Some d) pad_label (Some rl) ignore_extra_tokens
     ignore_start_end).
Local Abbreviation get_features queries :=
  (get_features queries max_seq_length tokenizer (Some d) pad_label (Some rl)
     ignore_extra_tokens ignore_start_end).

(** The first sentence whose iteration raises decides the result: the
    sentences before it are encoded, the ones after it are never looked
    at. *)
Lemma get_features_first_raise (before after : list string) (q : string)
    (e : exn) :
  is_Some (d !! pad_label) → well_labelled d before rl = true →
  (∀ s : state, query_body s (length before, q) = Raise e) →
  get_features (before ++ q :: after) = Raise e.
Proof.
  intros Hpad Hbefore Hq. unfold get_features, first_loop, enumerate.
  rewrite enumerate_from_app, for_each_app.
  rewrite first_loop_from.
  - cbn [mbind result_bind enumerate_from for_each]. by rewrite Hq.
  - intros _. split; [done|]. intros i q' Hi. simpl.
    by apply (well_labelled_lookup d before).
Qed.

Lemma query_body_unknown_label (s : state) (i : nat) (q l : string)
    (known after : list string) :
  is_Some (d !! pad_label) →
  rl !! i = Some (known ++ l :: after) →
  Forall (λ l, is_Some (d !! l)) known → d !! l = None →
  query_body s (i, q) = Raise (KeyError l).
Proof.
  intros Hpad Hls Hknown Hl. unfold query_body. cbn [with_label].
  rewrite (label_id_value (Some d) pad_label) by done.
  cbn [mbind result_bind]. unfold raw_labels_at, list_get. rewrite Hls.
  cbn [mbind result_bind].
  by rewrite (list_comp_label_id_unknown (Some d) d known after l).
Qed.

Lemma query_body_short_labels (s : state) (i : nat) (q : string) :
  is_Some (d !! pad_label) →
  match rl !! i with
  | Some ls =>
      Forall (λ l, is_Some (d !! l)) ls
      ∧ (length ls < length (py_split q))%nat
  | None => True
  end →
  query_body s (i, q) = Raise IndexError.
Proof.
  intros Hpad Hshort. unfold query_body. cbn [with_label].
  rewrite (label_id_value (Some d) pad_label) by done.
  cbn [mbind result_bind]. unfold raw_labels_at, list_get.
  destruct (rl !! i) as [ls|]; [|done]. destruct Hshort as [Hknown Hlen].
  cbn [mbind result_bind].
  rewrite (list_comp_label_id (Some d)) by done. cbn [mbind result_bind].
  unfold enumerate. rewrite word_loop_short; [done|done|lia|].
  rewrite length_fmap. lia.
Qed.

(** X2.  An unknown label raises its [KeyError]: in the first sentence that
    has one, after sentences whose labels are usable, the first label that
    is not a key of [label_ids] is the key of the error. *)
Theorem get_features_unknown_label (before after : list string) (q l : string)
    (known rest : list string) :
  is_Some (d !! pad_label) → well_labelled d before rl = true →
  rl !! length before = Some (known ++ l :: rest) →
  Forall (λ l, is_Some (d !! l)) known → d !! l = None →
  get_features (before ++ q :: after) = Raise (KeyError l).
Proof.
  intros Hpad Hbefore Hls Hknown Hl. apply get_features_first_raise; [done..|].
  intros s. by eapply query_body_unknown_label.
Qed.

(** X3.  Missing labels raise [IndexError]: in the first sentence, after
    sentences whose labels are usable, that has no label line or whose
    labels, all known, are fewer than its words. *)
Theorem get_features_short_labels (before after : list string) (q : string) :
  is_Some (d !! pad_label) → well_labelled d before rl = true →
  match rl !! length before with
  | Some ls =>
      Forall (λ l, is_Some (d !! l)) ls
      ∧ (length ls < length (py_split q))%nat
  | None => True
  end →
  get_features (before ++ q :: after) = Raise IndexError.
Proof.
  intros Hpad Hbefore Hshort. apply get_features_first_raise; [done..|].
  intros s. by apply query_body_short_labels.
Qed.
End LabelErrors.

(** X4.  With labels, a non-empty batch is not encoded at all when the pad
    label cannot be looked up: without [label_ids] the first lookup raises
    [TypeError], and with a [label_ids] that lacks the pad label it raises
    the [KeyError] of the pad label. *)
Theorem get_features_pad_label_error (queries : list string)
    (max_seq_length : Z) (tokenizer : Tokenizer) (pad_label : string)
    (rl : list (list string)) (ignore_extra_tokens ignore_start_end : bool) :
  queries ≠ [] →
  get_features queries max_seq_length tokenizer None pad_label (Some rl)
    ignore_extra_tokens ignore_start_end = Raise TypeError
  ∧ ∀ d : gmap string Z, d !! pad_label = None →
      get_features queries max_seq_length tokenizer (Some d) pad_label
        (Some rl) ignore_extra_tokens ignore_start_end
      = Raise (KeyError pad_label).
Proof.
  intros Hne. destruct queries as [|q qs]; [done|]. split.
  - done.
  - intros d Hd. unfold get_features, first_loop, enumerate.
    cbn [enumerate_from for_each].
    assert (query_body tokenizer (Some d) pad_label (Some rl)
              ignore_extra_tokens ignore_start_end initial_state (0%nat, q)
            = Raise (KeyError pad_label)) as ->; [|done].
    unfold query_body, label_id. cbn [with_label]. by rewrite Hd.
Qed.

(** ** The returned lists, sentence by sentence *)

Lemma py_repeat_nonpos {A : Type} (x : A) (n : Z) : n <= 0 → py_repeat x n = [].
Proof. intros Hn. unfold py_repeat. by replace (Z.to_nat n) with 0%nat by lia. Qed.

Lemma slice_from_drop {A : Type} (start : Z) (xs : list A) :
  0 <= start → slice_from start xs = drop (Z.to_nat start) xs.
Proof.
  intros Hstart. unfold slice_from.
  destruct (Z.ltb_spec start 0); [lia|].
  destruct (Z.le_gt_cases start (Z.of_nat (length xs))).
  - by rewrite Z.min_l.
  - rewrite Z.min_r, Nat2Z.id by lia. rewrite !drop_ge; [done|lia|lia].
Qed.

Lemma slice_from_is_drop {A : Type} (start : Z) (xs : list A) :
  ∃ n : nat, slice_from start xs = drop n xs.
Proof. unfold slice_from. by eexists. Qed.

Lemma ones_drop_le (n : nat) (xs : list Z) : (ones (drop n xs) ≤ ones xs)%nat.
Proof.
  rewrite <- (take_drop n xs) at 2. rewrite ones_app. lia.
Qed.

Lemma last_last_n {A : Type} (k : Z) (xs : list A) :
  1 <= k → last (last_n k xs) = last xs.
Proof.
  intros Hk. unfold last_n.
  destruct xs as [|x xs] using rev_ind; [done|].
  rewrite last_snoc, length_app. cbn [length].
  rewrite drop_app_le by lia. by rewrite last_snoc.
Qed.

Lemma last_n_py_repeat {A : Type} (x : A) (k n : Z) :
  0 <= k <= n → last_n k (py_repeat x n) = py_repeat x k.
Proof.
  intros Hk. unfold last_n, py_repeat.
  rewrite length_replicate, drop_replicate. f_equal. lia.
Qed.

Section Shape.
Variable tokenizer : Tokenizer.

Local Abbreviation kept_subtokens := (kept_subtokens tokenizer).
Local Abbreviation padded := (padded tokenizer).
Local Abbreviation built_subtokens := (built_subtokens tokenizer).

(** Padding in one formula: nothing is appended when nothing is missing. *)
Lemma padded_app {A : Type} (e : Z) (subs : list string) (pad : A)
    (xs : list A) :
  padded e subs pad xs = xs ++ py_repeat pad (e - len (kept_subtokens e subs)).
Proof.
  unfold padded.
  destruct (Z.ltb_spec (len (kept_subtokens e subs)) e); [done|].
  by rewrite py_repeat_nonpos, app_nil_r by lia.
Qed.

Lemma head_built_subtokens (q : string) :
  head (built_subtokens q) = Some (cls_token tokenizer).
Proof. done. Qed.

Lemma last_built_subtokens (q : string) :
  last (built_subtokens q) = Some (sep_token tokenizer).
Proof.
  unfold built_subtokens. by rewrite !app_assoc, last_snoc.
Qed.

Lemma kept_subtokens_markers (e : Z) (q : string) :
  2 <= e →
  head (kept_subtokens e (built_subtokens q)) = Some (cls_token tokenizer)
  ∧ last (kept_subtokens e (built_subtokens q)) = Some (sep_token tokenizer).
Proof.
  intros He. unfold kept_subtokens.
  destruct (Z.gtb_spec (len (built_subtokens q)) e) as [Hlong|_].
  - split; [done|]. rewrite slice_from_last_n by done.
    assert (last_n (e - 1) (built_subtokens q) ≠ []) as Hne.
    { intros Hnil. apply (f_equal len) in Hnil.
      rewrite len_last_n in Hnil by lia. unfold len in Hnil. simpl in Hnil.
      lia. }
    rewrite last_app. rewrite last_last_n, last_built_subtokens by lia. done.
  - split; [apply head_built_subtokens|apply last_built_subtokens].
Qed.

Lemma truncated_input_mask (e : Z) (q : string) :
  2 <= e →
  truncated e (built_subtokens q) 1 (built_input_mask tokenizer q)
  = py_repeat 1 (len (kept_subtokens e (built_subtokens q))).
Proof.
  intros He. rewrite len_kept_subtokens by done.
  unfold truncated, built_input_mask.
  pose proof (len_built_subtokens_ge tokenizer q).
  destruct (Z.gtb_spec (len (built_subtokens q)) e) as [Hlong|Hfit].
  - rewrite slice_from_last_n, last_n_py_repeat by lia.
    rewrite Z.min_l by lia. unfold py_repeat.
    replace (Z.to_nat e) with (S (Z.to_nat (e - 1))) by lia. done.
  - by rewrite Z.min_r by lia.
Qed.
End Shape.

Section Batch.
Variable queries : list string.
Variable max_seq_length : Z.
Variable tokenizer : Tokenizer.
Variable label_ids : option (gmap string Z).
Variable pad_label : string.
Variable raw_labels : option (list (list string)).
Variable ignore_extra_tokens : bool.
Variable ignore_start_end : bool.

Hypothesis queries_nonempty : queries ≠ [].
Hypothesis labels_usable :
  labels_available label_ids pad_label raw_labels queries.

Local Abbreviation get_features m :=
  (get_features queries m tokenizer label_ids pad_label raw_labels
     ignore_extra_tokens ignore_start_end).
Local Abbreviation first_loop :=
  (first_loop queries tokenizer label_ids pad_label raw_labels
     ignore_extra_tokens ignore_start_end).
Local Abbreviation result m :=
  (get_features_result tokenizer ignore_extra_tokens ignore_start_end
     label_ids pad_label raw_labels queries m).
Local Abbreviation s0 :=
  (first_loop_state tokenizer ignore_extra_tokens ignore_start_end label_ids
     pad_label raw_labels initial_state 0 queries).
Local Abbreviation longest := (longest_sentence tokenizer queries).
Local Abbreviation e := (effective_length tokenizer max_seq_length queries).
Local Abbreviation built_subtokens := (built_subtokens tokenizer).
Local Abbreviation kept_subtokens := (kept_subtokens tokenizer).

Lemma first_loop_longest : py_max (sent_lengths s0) = Ok longest.
Proof.
  unfold first_loop_state. cbn [sent_lengths initial_state app].
  apply py_max_nonneg; [by destruct queries|].
  apply Forall_fmap, Forall_forall. intros q _. apply len_nonneg.
Qed.

Lemma longest_ge_2 : 2 <= longest.
Proof.
  pose proof (effective_length_ge_2 tokenizer 2 queries queries_nonempty).
  unfold effective_length in *. lia.
Qed.

Lemma count_too_long_eq (m m' : Z) (all : list (list string)) :
  (∀ subs, subs ∈ all → m < len subs ↔ m' < len subs) →
  count_too_long m all = count_too_long m' all.
Proof.
  intros Hiff. unfold count_too_long. f_equal.
  induction all as [|subs all IH]; [done|].
  assert (filter (λ subs, m < len subs) all
          = filter (λ subs, m' < len subs) all) as Hrest
    by (apply IH; intros subs' Hin; apply Hiff; by right).
  pose proof (Hiff subs (list_elem_of_here _ _)) as Hsubs.
  rewrite !filter_cons, Hrest. repeat case_decide; tauto.
Qed.

Lemma count_too_long_none (m : Z) (all : list (list string)) :
  (∀ subs, subs ∈ all → len subs <= m) → count_too_long m all = 0.
Proof.
  intros Hfit. unfold count_too_long.
  induction all as [|subs all IH]; [done|].
  rewrite filter_cons_False.
  - apply IH. intros subs' Hin. apply Hfit. by right.
  - pose proof (Hfit subs (list_elem_of_here _ _)). lia.
Qed.

Lemma count_too_long_all (m : Z) (all : list (list string)) :
  (∀ subs, subs ∈ all → m < len subs) → count_too_long m all = len all.
Proof.
  intros Hlong. unfold count_too_long. f_equal.
  induction all as [|subs all IH]; [done|].
  rewrite filter_cons_True by (apply Hlong; left).
  f_equal. apply IH. intros subs' Hin. apply Hlong. by right.
Qed.

(** X5.  A bound at or above the longest sentence changes nothing: for
    every [max_seq_length] that is at least the length of the longest
    sentence, [get_features] returns one and the same result, pads to the
    longest sentence and reports no truncation. *)
Theorem get_features_large_max_length :
  ∃ (s : state) (longest : Z) (out : output),
    first_loop = Ok s ∧ py_max (sent_lengths s) = Ok longest
    ∧ log_max_length out = longest ∧ log_too_long_count out = 0
    ∧ ∀ m : Z, longest <= m → get_features m = Ok out.
Proof.
  exists s0, longest, (result longest).
  split; [by apply first_loop_result|]. split; [apply first_loop_longest|].
  assert (∀ m, longest <= m → effective_length tokenizer m queries = longest)
    as Heff by (intros m Hm; unfold effective_length; lia).
  split; [|split].
  - cbn [get_features_result log_max_length]. by apply Heff.
  - cbn [get_features_result log_too_long_count].
    rewrite Heff by lia. apply count_too_long_none.
    intros subs (q & -> & Hq)%list_elem_of_fmap. by apply longest_sentence_ge.
  - intros m Hm. rewrite (get_features_result_ok queries m) by done.
    f_equal. unfold get_features_result. by rewrite !Heff by lia.
Qed.

(** X6.  The reported count is the number of sentences longer than the
    [max_seq_length] that was passed in, although the loop compares with
    the effective max length. *)
Theorem too_long_count_of_max_seq_length :
  ∃ (s : state) (out : output),
    first_loop = Ok s ∧ get_features max_seq_length = Ok out
    ∧ log_too_long_count out
      = len (filter (λ subs, max_seq_length < len subs) (all_subtokens s))
    ∧ 0 <= log_too_long_count out <= len queries.
Proof.
  exists s0, (result max_seq_length).
  split; [by apply first_loop_result|].
  split; [by apply get_features_result_ok|].
  cbn [get_features_result log_too_long_count].
  unfold first_loop_state. cbn [all_subtokens initial_state app].
  split.
  - apply count_too_long_eq.
    intros subs (q & -> & Hq)%list_elem_of_fmap.
    pose proof (longest_sentence_ge tokenizer queries q Hq).
    unfold effective_length. lia.
  - unfold count_too_long, len. split; [lia|].
    pose proof (length_filter (λ subs, e < len subs) (built_subtokens <$> queries))
      as Hle.
    rewrite length_fmap in Hle. unfold len in Hle. lia.
Qed.

(** X7.  For [max_seq_length >= 2] every returned sentence is made of real
    tokens and padding: the input ids are the ids of a subtoken sequence
    that starts with the start marker, ends with the end marker and has
    [min(len, e)] entries, followed by zeros up to the effective max length
    [e]; and the input mask is 1 on exactly those entries and 0 on the
    padding. *)
Theorem real_tokens_and_padding :
  2 <= max_seq_length →
  ∃ (s : state) (out : output),
    first_loop = Ok s ∧ get_features max_seq_length = Ok out
    ∧ ∀ (i : nat) (subs : list string), all_subtokens s !! i = Some subs →
        ∃ kept : list string,
          len kept = Z.min (len subs) (log_max_length out)
          ∧ head kept = Some (cls_token tokenizer)
          ∧ last kept = Some (sep_token tokenizer)
          ∧ f_input_ids (feats out) !! i
            = Some (tokens_to_ids tokenizer kept
                    ++ py_repeat 0 (log_max_length out - len kept))
          ∧ f_input_mask (feats out) !! i
            = Some (py_repeat 1 (len kept)
                    ++ py_repeat 0 (log_max_length out - len kept)).
Proof.
  intros Hm. exists s0, (result max_seq_length).
  split; [by apply first_loop_result|].
  split; [by apply get_features_result_ok|].
  pose proof (effective_length_ge_2 tokenizer max_seq_length queries
                queries_nonempty Hm) as He.
  change (log_max_length (result max_seq_length)) with e.
  intros i subs (q & Hq & ->)%first_loop_subtokens.
  destruct (result_entries queries max_seq_length tokenizer label_ids
              pad_label raw_labels ignore_extra_tokens ignore_start_end i q Hq)
    as (-> & _ & -> & _).
  exists (kept_subtokens e (built_subtokens q)).
  destruct (kept_subtokens_markers tokenizer e q He) as [Hhead Hlast].
  split; [rewrite len_kept_subtokens by done; lia|].
  split; [done|]. split; [done|].
  unfold final_input_ids, final_input_mask.
  by rewrite !padded_app, truncated_input_mask.
Qed.

Local Abbreviation cut_front xs :=
  (drop (Z.to_nat (1 - max_seq_length)) xs).

Lemma small_max_length_cases {A : Type} (q : string) (head pad : A)
    (xs : list A) :
  max_seq_length <= 1 →
  kept_subtokens e (built_subtokens q)
  = [cls_token tokenizer] ++ cut_front (built_subtokens q)
  ∧ padded tokenizer e (built_subtokens q) pad
      (truncated e (built_subtokens q) head xs)
    = [head] ++ cut_front xs.
Proof.
  intros Hm. pose proof longest_ge_2 as Hlongest.
  pose proof (len_built_subtokens_ge tokenizer q) as Hq.
  assert (e = max_seq_length) as -> by (unfold effective_length; lia).
  assert (kept_subtokens max_seq_length (built_subtokens q)
          = [cls_token tokenizer] ++ cut_front (built_subtokens q)) as Hkept.
  { unfold kept_subtokens.
    destruct (Z.gtb_spec (len (built_subtokens q)) max_seq_length); [|lia].
    rewrite slice_from_drop by lia. do 2 f_equal. lia. }
  split; [done|]. rewrite padded_app, Hkept, py_repeat_nonpos, app_nil_r.
  - unfold truncated.
    destruct (Z.gtb_spec (len (built_subtokens q)) max_seq_length); [|lia].
    rewrite slice_from_drop by lia. do 2 f_equal. lia.
  - rewrite len_app. unfold len at 1. cbn [length].
    pose proof (len_nonneg (cut_front (built_subtokens q))). lia.
Qed.

(** X8.  Below 2 the bound is not kept: for [max_seq_length <= 1] every
    sentence counts as too long, nothing is padded, and every list of a
    sentence is its head entry followed by what the first loop built
    without its first [1 - max_seq_length] entries; for 1 that is all of
    it. *)
Theorem small_max_length :
  max_seq_length <= 1 →
  ∃ (s : state) (out : output),
    first_loop = Ok s ∧ get_features max_seq_length = Ok out
    ∧ log_max_length out = max_seq_length
    ∧ log_too_long_count out = len queries
    ∧ ∀ (i : nat) (subs : list string), all_subtokens s !! i = Some subs →
        f_input_ids (feats out) !! i
        = Some (tokens_to_ids tokenizer
                  ([cls_token tokenizer] ++ cut_front subs))
        ∧ f_input_mask (feats out) !! i
          = (λ xs, [1] ++ cut_front xs) <$> all_input_mask s !! i
        ∧ f_loss_mask (feats out) !! i
          = (λ xs, [int_of_bool (negb ignore_start_end)] ++ cut_front xs)
              <$> all_loss_mask s !! i
        ∧ f_subtokens_mask (feats out) !! i
          = (λ xs, [0] ++ cut_front xs) <$> all_subtokens_mask s !! i
        ∧ (with_label raw_labels = true →
           ∃ p : Z, pad_id s = Some p
             ∧ f_labels (feats out) !! i
               = (λ xs, [p] ++ cut_front xs) <$> all_labels s !! i).
Proof.
  intros Hm. exists s0, (result max_seq_length).
  split; [by apply first_loop_result|].
  split; [by apply get_features_result_ok|].
  pose proof longest_ge_2 as Hlongest.
  assert (e = max_seq_length) as Heff by (unfold effective_length; lia).
  split; [done|]. split.
  - cbn [get_features_result log_too_long_count].
    rewrite count_too_long_all; [unfold len; by rewrite length_fmap|].
    intros subs (q & -> & _)%list_elem_of_fmap.
    pose proof (len_built_subtokens_ge tokenizer q). lia.
  - intros i subs (q & Hq & ->)%first_loop_subtokens.
    destruct (first_loop_entries queries tokenizer label_ids pad_label
                raw_labels ignore_extra_tokens ignore_start_end i q Hq)
      as (_ & -> & -> & -> & ->).
    destruct (result_entries queries max_seq_length tokenizer label_ids
                pad_label raw_labels ignore_extra_tokens ignore_start_end i q
                Hq) as (-> & _ & -> & -> & -> & ->).
    unfold final_input_ids, final_input_mask, final_loss_mask,
      final_subtokens_mask, final_labels.
    rewrite !(λ A h p xs, proj2 (@small_max_length_cases A q h p xs Hm)).
    rewrite padded_app.
    destruct (small_max_length_cases q 0 0 [] Hm) as [-> _].
    rewrite py_repeat_nonpos, app_nil_r.
    + repeat split; try done. intros Hwl.
      exists (label_value label_ids pad_label).
      rewrite (first_loop_pad_id queries) by done. by rewrite Hwl.
    + rewrite len_app. unfold len at 1. cbn [length].
      pose proof (len_nonneg (cut_front (built_subtokens q))). lia.
Qed.

(** X9.  Truncation can only lose words: the returned subtokens mask of a
    sentence never has more 1-bits than the sentence has words, for every
    tokenizer and every [max_seq_length]. *)
Theorem subtokens_mask_at_most_words :
  ∃ out : output,
    get_features max_seq_length = Ok out
    ∧ ∀ (i : nat) (q : string), queries !! i = Some q →
        ∃ mask : list Z,
          f_subtokens_mask (feats out) !! i = Some mask
          ∧ (ones mask ≤ length (py_split q))%nat.
Proof.
  exists (result max_seq_length).
  split; [by apply get_features_result_ok|]. intros i q Hq.
  destruct (result_entries queries max_seq_length tokenizer label_ids
              pad_label raw_labels ignore_extra_tokens ignore_start_end i q Hq)
    as (_ & _ & _ & _ & -> & _).
  eexists. split; [done|]. unfold final_subtokens_mask.
  rewrite padded_app, ones_app, ones_py_repeat_0, Nat.add_0_r.
  rewrite <- (ones_built_subtokens_mask tokenizer q). unfold truncated.
  destruct (len (built_subtokens q) >? e); [|done].
  destruct (slice_from_is_drop (- e + 1) (built_subtokens_mask tokenizer q))
    as [n ->].
  rewrite ones_app. pose proof (ones_drop_le n (built_subtokens_mask tokenizer q)).
  unfold ones at 1. rewrite filter_cons_False by done. simpl. lia.
Qed.
End Batch.

(** ** The loss mask for the two settings of both flags *)

Lemma concat_per_subword_ones (tss : list (list string)) :
  Forall (λ ts, ts ≠ []) tss →
  concat (per_subword 1 1 <$> tss) = replicate (length (concat tss)) 1.
Proof.
  induction 1 as [|ts tss Hts _ IH]; [done|].
  cbn [fmap list_fmap concat]. rewrite IH, length_app, replicate_add.
  f_equal. destruct ts as [|t ts]; [done|]. cbn [per_subword length replicate].
  by rewrite replicate_length_fmap.
Qed.

Lemma built_loss_mask_flags_off (tokenizer : Tokenizer) (q : string) :
  (∀ w, w ∈ py_split q → text_to_tokens tokenizer w ≠ []) →
  built_loss_mask tokenizer false false q = built_input_mask tokenizer q.
Proof.
  intros Hw. rewrite built_loss_mask_per_subword by done.
  rewrite concat_per_subword_ones.
  - unfold built_input_mask, built_subtokens, py_repeat, len.
    rewrite Nat2Z.id, !length_app. cbn [length app].
    set (n := length (concat (text_to_tokens tokenizer <$> py_split q))).
    replace (1 + (n + 1))%nat with (S n + 1)%nat by lia.
    by rewrite replicate_add.
  - apply Forall_fmap, Forall_forall. intros w Hin. by apply Hw.
Qed.

(** X10.  With neither flag set the loss mask is the input mask: every real
    token counts, for a tokenizer that yields a subword for every word. *)
Theorem loss_mask_flags_off (queries : list string) (max_seq_length : Z)
    (tokenizer : Tokenizer) (label_ids : option (gmap string Z))
    (pad_label : string) (raw_labels : option (list (list string))) :
  queries ≠ [] → labels_available label_ids pad_label raw_labels queries →
  tokenizes_words tokenizer queries →
  ∃ out : output,
    get_features queries max_seq_length tokenizer label_ids pad_label
      raw_labels false false = Ok out
    ∧ f_loss_mask (feats out) = f_input_mask (feats out).
Proof.
  intros Hne Hok Htok. eexists. split; [by apply get_features_result_ok|].
  unfold get_features_result. cbn [feats f_loss_mask f_input_mask].
  apply list_fmap_ext. intros i q Hq.
  rewrite built_loss_mask_flags_off; [done|].
  intros w Hw. by eapply tokenizes_words_lookup.
Qed.

(** X11.  With both flags set the loss mask is the subtokens mask: only the
    first subword of a word counts, for every tokenizer. *)
Theorem loss_mask_flags_on (queries : list string) (max_seq_length : Z)
    (tokenizer : Tokenizer) (label_ids : option (gmap string Z))
    (pad_label : string) (raw_labels : option (list (list string))) :
  queries ≠ [] → labels_available label_ids pad_label raw_labels queries →
  ∃ out : output,
    get_features queries max_seq_length tokenizer label_ids pad_label
      raw_labels true true = Ok out
    ∧ f_loss_mask (feats out) = f_subtokens_mask (feats out).
Proof.
  intros Hne Hok. eexists. split; [by apply get_features_result_ok|].
  reflexivity.
Qed.

(** ** What the labels do and do not influence *)

Lemma zip_with_take_same {A B C : Type} (f : A → B → C) (xs : list A) :
  ∀ ys : list B, zip_with f xs (take (length xs) ys) = zip_with f xs ys.
Proof.
  induction xs as [|x xs IH]; intros [|y ys]; cbn [length take zip_with];
    try done. by rewrite IH.
Qed.

(** X12.  The ids and the masks do not depend on the labels: a labelled
    call and the call without [raw_labels] return the same input ids,
    segment ids, input mask, loss mask and subtokens mask and report the
    same numbers. *)
Theorem labels_leave_masks (queries : list string) (max_seq_length : Z)
    (tokenizer : Tokenizer) (label_ids : option (gmap string Z))
    (pad_label : string) (raw_labels : option (list (list string)))
    (ignore_extra_tokens ignore_start_end : bool) :
  queries ≠ [] → labels_available label_ids pad_label raw_labels queries →
  ∃ out out' : output,
    get_features queries max_seq_length tokenizer label_ids pad_label
      raw_labels ignore_extra_tokens ignore_start_end = Ok out
    ∧ get_features queries max_seq_length tokenizer None pad_label None
        ignore_extra_tokens ignore_start_end = Ok out'
    ∧ f_input_ids (feats out) = f_input_ids (feats out')
    ∧ f_segment_ids (feats out) = f_segment_ids (feats out')
    ∧ f_input_mask (feats out) = f_input_mask (feats out')
    ∧ f_loss_mask (feats out) = f_loss_mask (feats out')
    ∧ f_subtokens_mask (feats out) = f_subtokens_mask (feats out')
    ∧ log_max_length out = log_max_length out'
    ∧ log_too_long_count out = log_too_long_count out'.
Proof.
  intros Hne Hok. eexists _, _.
  split; [by apply get_features_result_ok|].
  split; [apply get_features_result_ok; [done|apply unlabelled_available]|].
  repeat split.
Qed.

(** X13.  Labels beyond the words of a sentence are read but not used: two
    label lists that are both usable and agree, sentence by sentence, on
    as many labels as the sentence has words give the same result. *)
Theorem surplus_labels_unused (queries : list string) (max_seq_length : Z)
    (tokenizer : Tokenizer) (d : gmap string Z) (pad_label : string)
    (rl rl' : list (list string)) (ignore_extra_tokens ignore_start_end : bool) :
  is_Some (d !! pad_label) →
  well_labelled d queries rl = true → well_labelled d queries rl' = true →
  (∀ (i : nat) (q : string), queries !! i = Some q →
     take (length (py_split q)) <$> rl !! i
     = take (length (py_split q)) <$> rl' !! i) →
  get_features queries max_seq_length tokenizer (Some d) pad_label (Some rl)
    ignore_extra_tokens ignore_start_end
  = get_features queries max_seq_length tokenizer (Some d) pad_label (Some rl')
      ignore_extra_tokens ignore_start_end.
Proof.
  intros Hpad Hrl Hrl' Hsame.
  destruct (decide (queries = [])) as [->|Hne]; [done|].
  rewrite !get_features_result_ok by (done || by apply well_labelled_available).
  f_equal. unfold get_features_result. f_equal. f_equal. cbn [with_label].
  apply imap_ext. intros i q Hq. cbn beta. f_equal.
  unfold built_labels. do 3 f_equal. unfold query_label_values. simpl.
  specialize (Hsame i q Hq).
  rewrite <- (zip_with_take_same _ _ (label_value (Some d) <$> default [] (rl !! i))),
    <- (zip_with_take_same _ _ (label_value (Some d) <$> default [] (rl' !! i))).
  rewrite <- !fmap_take. do 2 f_equal.
  destruct (rl !! i), (rl' !! i); by simplify_eq/=.
Qed.

(** * Further properties of the dataset wrappers *)

(** ** Indexing *)

Lemma py_index_in_range {A : Type} (xs : list A) (idx : Z) :
  - len xs <= idx < len xs →
  py_index xs idx = list_get xs (Z.to_nat (idx mod len xs)).
Proof.
  intros Hidx. unfold py_index.
  destruct (Z.ltb_spec idx 0) as [Hneg|Hpos].
  - replace (idx mod len xs) with (idx + len xs)
      by (rewrite <- (Z.mod_small (idx + len xs) (len xs)) by lia;
          by rewrite <- (Z.add_mod_idemp_r idx (len xs)), Z.mod_same,
               Z.add_0_r by lia).
    destruct (Z.ltb_spec (idx + len xs) 0); [lia|].
    by destruct (Z.leb_spec (len xs) (idx + len xs)); [lia|].
  - rewrite Z.mod_small by lia.
    destruct (Z.ltb_spec idx 0); [lia|].
    by destruct (Z.leb_spec (len xs) idx); [lia|].
Qed.

Lemma py_index_out_of_range {A : Type} (xs : list A) (idx : Z) :
  idx < - len xs ∨ len xs <= idx → py_index xs idx = Raise IndexError.
Proof.
  intros Hidx. unfold py_index.
  destruct (Z.ltb_spec idx 0) as [Hneg|Hpos].
  - destruct (Z.ltb_spec (idx + len xs) 0); [done|].
    pose proof (len_nonneg xs). lia.
  - destruct (Z.ltb_spec idx 0); [lia|].
    by destruct (Z.leb_spec (len xs) idx); [|lia].
Qed.

Lemma py_index_Ok {A : Type} (xs : list A) (idx : Z) :
  - len xs <= idx < len xs →
  ∃ x : A, py_index xs idx = Ok x ∧ py_index xs (idx mod len xs) = Ok x.
Proof.
  intros Hidx. assert (0 <= idx mod len xs < len xs) as Hmod
    by (apply Z.mod_pos_bound; lia).
  rewrite !py_index_in_range, Z.mod_mod by lia.
  unfold list_get. destruct (lookup_lt_is_Some_2 xs (Z.to_nat (idx mod len xs)))
    as [x ->]; [unfold len in *; lia|]. by exists x.
Qed.

Lemma get_features_Ok_lengths (queries : list string) (max_seq_length : Z)
    (tokenizer : Tokenizer) (label_ids : option (gmap string Z))
    (pad_label : string) (raw_labels : option (list (list string)))
    (ignore_extra_tokens ignore_start_end : bool) (out : output) :
  get_features queries max_seq_length tokenizer label_ids pad_label raw_labels
    ignore_extra_tokens ignore_start_end = Ok out →
  queries ≠ []
  ∧ Forall (λ l : list (list Z), length l = length queries)
      [f_input_ids (feats out); f_segment_ids (feats out);
       f_input_mask (feats out); f_loss_mask (feats out);
       f_subtokens_mask (feats out)]
  ∧ length (f_labels (feats out))
    = (if with_label raw_labels then length queries else 0%nat).
Proof.
  intros Hout.
  destruct (get_features_Ok_available _ _ _ _ _ _ _ _ _ Hout) as [Hne Hok].
  rewrite get_features_result_ok in Hout by done. injection Hout as <-.
  split; [done|]. unfold get_features_result.
  cbn [feats f_input_ids f_segment_ids f_input_mask f_loss_mask
    f_subtokens_mask f_labels].
  split; [repeat constructor; by rewrite length_fmap|].
  destruct (with_label raw_labels); [by rewrite length_imap|done].
Qed.

(** X14.  An inference dataset has one item per query, and indexing follows
    Python's lists: an index from [-n] to [n - 1] returns an item, a
    negative one the same item as the index plus [n], and any other index
    raises [IndexError]. *)
Theorem infer_getitem_bounds (queries : list string) (max_seq_length : Z)
    (tokenizer : Tokenizer) (ds : BertTokenClassificationInferDataset) :
  infer_init queries max_seq_length tokenizer = Ok ds →
  infer_len ds = len queries
  ∧ ∀ idx : Z,
      (idx < - len queries ∨ len queries <= idx →
       infer_getitem ds idx = Raise IndexError)
      ∧ (- len queries <= idx < len queries →
         ∃ item, infer_getitem ds idx = Ok item
           ∧ infer_getitem ds (idx mod len queries) = Ok item).
Proof.
  unfold infer_init. intros (out & Hout & [= <-])%bind_Ok_inv.
  destruct (get_features_Ok_lengths _ _ _ _ _ _ _ _ _ Hout)
    as (Hne & Hlens & _).
  apply Forall_cons in Hlens as [H1 Hlens].
  apply Forall_cons in Hlens as [H2 Hlens].
  apply Forall_cons in Hlens as [H3 Hlens].
  apply Forall_cons in Hlens as [H4 Hlens].
  apply Forall_cons in Hlens as [H5 _].
  unfold infer_len, infer_getitem.
  cbn [infer_input_ids infer_segment_ids infer_input_mask infer_loss_mask
    infer_subtokens_mask].
  assert (∀ l : list (list Z), length l = length queries → len l = len queries)
    as Hlen by (intros l Hl; unfold len; by rewrite Hl).
  split; [by apply Hlen|]. intros idx. split.
  - intros Hidx.
    by rewrite (py_index_out_of_range (f_input_ids (feats out)))
      by (by rewrite Hlen).
  - intros Hidx.
    destruct (py_index_Ok (f_input_ids (feats out)) idx) as (a & Ha & Ha');
      [by rewrite Hlen|].
    destruct (py_index_Ok (f_segment_ids (feats out)) idx) as (b & Hb & Hb');
      [by rewrite Hlen|].
    destruct (py_index_Ok (f_input_mask (feats out)) idx) as (c & Hc & Hc');
      [by rewrite Hlen|].
    destruct (py_index_Ok (f_loss_mask (feats out)) idx) as (d & Hd & Hd');
      [by rewrite Hlen|].
    destruct (py_index_Ok (f_subtokens_mask (feats out)) idx)
      as (e & He & He'); [by rewrite Hlen|].
    rewrite !Hlen in * by done.
    exists (a, b, c, d, e). by rewrite Ha, Hb, Hc, Hd, He, Ha', Hb', Hc', Hd', He'.
Qed.

(** ** The constructor, branch by branch *)

Section ConstructorBranches.
Variable text_file label_file : string.
Variable max_seq_length : Z.
Variable tokenizer : Tokenizer.
Variable label_ids : option (gmap string Z).
Variable num_samples : Z.
Variable pad_label : string.
Variable ignore_extra_tokens : bool.
Variable ignore_start_end : bool.
Variable overwrite_processed_files : bool.

Local Abbreviation init :=
  (dataset_init text_file label_file max_seq_length tokenizer label_ids
     num_samples pad_label ignore_extra_tokens ignore_start_end
     overwrite_processed_files).
Local Abbreviation features_pkl :=
  (features_pkl_path text_file max_seq_length tokenizer).
Local Abbreviation computes :=
  (computes_features text_file max_seq_length tokenizer
     overwrite_processed_files).

Lemma computed_init_eq (w : world) :
  endswith (basename text_file) ".txt" = true → computes w = true →
  init w
  = computed_init text_file label_file max_seq_length tokenizer label_ids
      num_samples pad_label ignore_extra_tokens ignore_start_end w.
Proof.
  intros Hext Hcomp. unfold dataset_init, computed_init.
  rewrite Hext. cbn [negb]. unfold computes_features in Hcomp.
  unfold mbind, io_bind, master_device, path_exists, read_lines.
  rewrite Hcomp. destruct (num_samples =? 0); [done|]. cbv beta.
  destruct (files w !! text_file) as [[text_lines|?]|]; [|done..].
  cbv beta iota.
  destruct (files w !! label_file) as [[label_text|?]|]; [|done..].
  cbv beta iota. unfold len at 1. rewrite length_fmap.
  fold (len label_text).
  destruct (negb (len label_text =? len text_lines)); [done|].
  cbv beta iota. unfold select_samples.
  destruct (num_samples >? 0).
  - destruct (take (Z.to_nat num_samples)
                (zip text_lines (py_split <$> label_text))) as [|pair pairs];
      [done|].
    unfold mret, io_ret, call_get_features. cbv beta iota.
    destruct (get_features _ _ _ _ _ _ _ _) as [out|e]; [|done].
    unfold pickle_dump, barrier, pickle_load, cache_written. cbv beta iota.
    cbn [files]. by rewrite lookup_insert_eq.
  - unfold mret, io_ret, call_get_features. cbv beta iota.
    destruct (get_features _ _ _ _ _ _ _ _) as [out|e]; [|done].
    unfold pickle_dump, barrier, pickle_load, cache_written. cbv beta iota.
    cbn [files]. by rewrite lookup_insert_eq.
Qed.

Lemma computed_init_Ok_inv (w w' : world)
    (ds : BertTokenClassificationDataset) :
  computed_init text_file label_file max_seq_length tokenizer label_ids
    num_samples pad_label ignore_extra_tokens ignore_start_end w
  = (Ok ds, w') →
  ∃ content : features,
    ds = dataset_of content ∧ w' = cache_written features_pkl content w.
Proof.
  unfold computed_init. intros H.
  repeat (case_match; simplify_eq/=; try done). by eexists.
Qed.

(** A constructor that returns has left the features it holds in the cache
    file. *)
Lemma init_Ok_inv (w w' : world) (ds : BertTokenClassificationDataset) :
  init w = (Ok ds, w') →
  endswith (basename text_file) ".txt" = true
  ∧ dist_rank w' = dist_rank w
  ∧ ∃ content : features,
      files w' !! features_pkl = Some (PickleFile content)
      ∧ ds = dataset_of content.
Proof.
  intros Hinit.
  destruct (endswith (basename text_file) ".txt") eqn:Hext;
    [|by rewrite init_wrong_extension in Hinit].
  split; [done|]. destruct (computes w) eqn:Hcomp.
  - rewrite computed_init_eq in Hinit by done.
    apply computed_init_Ok_inv in Hinit as (content & -> & ->).
    split; [done|]. exists content. split; [|done].
    unfold cache_written. cbn [files]. apply lookup_insert_eq.
  - rewrite init_cached in Hinit by done.
    destruct (files w !! features_pkl) as [[?|content]|] eqn:Hfile;
      simplify_eq/=. split; [done|]. by exists content.
Qed.
End ConstructorBranches.

(** ** The cache *)

(** X15.  Once a constructor has returned, the features are served from the
    cache: a later construction for the same text file, maximum length and
    tokenizer type and vocabulary size, without [overwrite_processed_files],
    returns the same features whatever label file, label ids, sample count,
    pad label and flags it is given, and does not encode again. *)
Theorem cached_features_reused (text_file label_file label_file' : string)
    (max_seq_length : Z) (tokenizer tokenizer' : Tokenizer)
    (label_ids label_ids' : option (gmap string Z))
    (num_samples num_samples' : Z) (pad_label pad_label' : string)
    (ignore_extra_tokens ignore_start_end overwrite_processed_files : bool)
    (ignore_extra_tokens' ignore_start_end' : bool) (w w' : world)
    (ds : BertTokenClassificationDataset) :
  tokenizer_type tokenizer' = tokenizer_type tokenizer →
  vocab_size tokenizer' = vocab_size tokenizer →
  dataset_init text_file label_file max_seq_length tokenizer label_ids
    num_samples pad_label ignore_extra_tokens ignore_start_end
    overwrite_processed_files w = (Ok ds, w') →
  dataset_init text_file label_file' max_seq_length tokenizer' label_ids'
    num_samples' pad_label' ignore_extra_tokens' ignore_start_end' false w'
  = (Ok ds, w').
Proof.
  intros Htype Hvocab Hinit.
  apply init_Ok_inv in Hinit as (Hext & _ & content & Hfile & ->).
  assert (features_pkl_path text_file max_seq_length tokenizer'
          = features_pkl_path text_file max_seq_length tokenizer) as Hpath
    by (unfold features_pkl_path; by rewrite Htype, Hvocab).
  rewrite init_cached; [by rewrite Hpath, Hfile|done|].
  unfold computes_features. rewrite Hpath, Hfile.
  rewrite bool_decide_eq_true_2 by (by eexists). cbn [orb negb].
  apply andb_false_r.
Qed.

(** X16.  Computing again gives the same: when a construction that
    computed the features has returned and the cache file is neither the
    text file nor the label file, the same construction with
    [overwrite_processed_files] encodes once more, returns the same
    features and leaves the files as they are. *)
Theorem overwrite_recomputes_same (text_file label_file : string)
    (max_seq_length : Z) (tokenizer : Tokenizer)
    (label_ids : option (gmap string Z)) (num_samples : Z)
    (pad_label : string)
    (ignore_extra_tokens ignore_start_end overwrite_processed_files : bool)
    (w w' : world) (ds : BertTokenClassificationDataset) :
  computes_features text_file max_seq_length tokenizer
    overwrite_processed_files w = true →
  features_pkl_path text_file max_seq_length tokenizer ≠ text_file →
  features_pkl_path text_file max_seq_length tokenizer ≠ label_file →
  dataset_init text_file label_file max_seq_length tokenizer label_ids
    num_samples pad_label ignore_extra_tokens ignore_start_end
    overwrite_processed_files w = (Ok ds, w') →
  dataset_init text_file label_file max_seq_length tokenizer label_ids
    num_samples pad_label ignore_extra_tokens ignore_start_end true w'
  = (Ok ds, encoded_once w').
Proof.
  intros Hcomp Htext Hlabel Hinit.
  pose proof (init_Ok_inv _ _ _ _ _ _ _ _ _ _ _ _ _ Hinit) as (Hext & Hrank & _).
  rewrite computed_init_eq in Hinit by done.
  rewrite computed_init_eq; [|done|].
  - unfold computed_init in Hinit.
    destruct (num_samples =? 0) eqn:Hzero; [done|].
    destruct (files w !! text_file) as [[text_lines|?]|] eqn:Ht; [|done..].
    destruct (files w !! label_file) as [[label_text|?]|] eqn:Hl; [|done..].
    destruct (negb (len label_text =? len text_lines)) eqn:Hcount; [done|].
    destruct (select_samples _ _ _) as [[lines labels]|?] eqn:Hsel; [|done].
    destruct (get_features _ _ _ _ _ _ _ _) as [out|?] eqn:Hout; [|done].
    injection Hinit as <- <-.
    unfold computed_init, cache_written, encoded_once.
    cbn [files dist_rank encodings].
    rewrite !lookup_insert_ne, Hzero, Ht, Hl, Hcount, Hsel, Hout by done.
    by rewrite insert_insert_eq.
  - unfold computes_features in *. rewrite Hrank.
    apply andb_true_iff in Hcomp as [-> _]. done.
Qed.

(** ** The sample count and empty files *)

Lemma select_samples_first (n : Z) (text_lines : list string)
    (labels_lines : list (list string)) :
  0 < n → text_lines ≠ [] → length text_lines = length labels_lines →
  select_samples n text_lines labels_lines
  = Ok (take (Z.to_nat n) text_lines, take (Z.to_nat n) labels_lines).
Proof.
  intros Hn Hne Hlen. unfold select_samples.
  destruct (Z.gtb_spec n 0); [|lia].
  destruct (take (Z.to_nat n) (zip text_lines labels_lines)) as [|p ps] eqn:Htake.
  - apply (f_equal length) in Htake.
    rewrite length_take, length_zip in Htake.
    destruct text_lines; [done|]. cbn [length] in *. lia.
  - rewrite <- Htake, !fmap_take, fst_zip, snd_zip by lia. done.
Qed.

(** X17.  A positive sample count encodes the first lines only: the
    constructor, when it computes the features of a text file that is not
    empty, runs [get_features] on the first [num_samples] text lines and
    their label lines, and the dataset it returns has
    [min(num_samples, number of lines)] items. *)
Theorem first_samples_encoded (text_file label_file : string)
    (max_seq_length : Z) (tokenizer : Tokenizer)
    (label_ids : option (gmap string Z)) (num_samples : Z)
    (pad_label : string)
    (ignore_extra_tokens ignore_start_end overwrite_processed_files : bool)
    (w : world) (text_lines label_text : list string) :
  endswith (basename text_file) ".txt" = true →
  computes_features text_file max_seq_length tokenizer
    overwrite_processed_files w = true →
  0 < num_samples →
  files w !! text_file = Some (TextFile text_lines) →
  files w !! label_file = Some (TextFile label_text) →
  text_lines ≠ [] → length text_lines = length label_text →
  ∃ r : result output,
    r = get_features (take (Z.to_nat num_samples) text_lines) max_seq_length
          tokenizer label_ids pad_label
          (Some (take (Z.to_nat num_samples) (py_split <$> label_text)))
          ignore_extra_tokens ignore_start_end
    ∧ dataset_init text_file label_file max_seq_length tokenizer label_ids
        num_samples pad_label ignore_extra_tokens ignore_start_end
        overwrite_processed_files w
      = match r with
        | Ok out =>
            (Ok (dataset_of (feats out)),
             cache_written
               (features_pkl_path text_file max_seq_length tokenizer)
               (feats out) w)
        | Raise e => (Raise e, encoded_once w)
        end
    ∧ ∀ out : output, r = Ok out →
        dataset_len (dataset_of (feats out))
        = Z.min num_samples (len text_lines).
Proof.
  intros Hext Hcomp Hn Htext Hlabel Hne Hlen. eexists. split; [reflexivity|].
  split.
  - rewrite computed_init_eq by done. unfold computed_init.
    rewrite Htext, Hlabel. destruct (Z.eqb_spec num_samples 0); [lia|].
    unfold len. rewrite Hlen, Z.eqb_refl. cbn [negb].
    by rewrite select_samples_first by (done || by rewrite length_fmap).
  - intros out Hout.
    destruct (get_features_Ok_lengths _ _ _ _ _ _ _ _ _ Hout)
      as (_ & [Hids _]%Forall_cons & _).
    unfold dataset_len, dataset_of, len. cbn [ds_input_ids].
    rewrite Hids, length_take. lia.
Qed.

(** X18.  Empty files pass the line count check and fail later: when the
    constructor computes the features and the text file and the label file
    have no lines, a positive sample count raises [IndexError] before
    [get_features] is called, and a negative one raises the [ValueError] of
    [max] from within [get_features]. *)
Theorem empty_files (text_file label_file : string) (max_seq_length : Z)
    (tokenizer : Tokenizer) (label_ids : option (gmap string Z))
    (num_samples : Z) (pad_label : string)
    (ignore_extra_tokens ignore_start_end overwrite_processed_files : bool)
    (w : world) :
  endswith (basename text_file) ".txt" = true →
  computes_features text_file max_seq_length tokenizer
    overwrite_processed_files w = true →
  files w !! text_file = Some (TextFile []) →
  files w !! label_file = Some (TextFile []) →
  (0 < num_samples →
   dataset_init text_file label_file max_seq_length tokenizer label_ids
     num_samples pad_label ignore_extra_tokens ignore_start_end
     overwrite_processed_files w = (Raise IndexError, w))
  ∧ (num_samples < 0 →
     dataset_init text_file label_file max_seq_length tokenizer label_ids
       num_samples pad_label ignore_extra_tokens ignore_start_end
       overwrite_processed_files w
     = (Raise (ValueError "max() arg is an empty sequence"), encoded_once w)).
Proof.
  intros Hext Hcomp Htext Hlabel.
  rewrite computed_init_eq by done. unfold computed_init, select_samples.
  rewrite Htext, Hlabel. cbn [fmap list_fmap zip zip_with take].
  split; intros Hn.
  - destruct (Z.eqb_spec num_samples 0); [lia|].
    destruct (Z.gtb_spec num_samples 0); [|lia].
    by rewrite take_nil.
  - destruct (Z.eqb_spec num_samples 0); [lia|].
    by destruct (Z.gtb_spec num_samples 0); [lia|].
Qed.

(** ** Items of a computed dataset *)

Lemma computed_init_Ok_features (text_file label_file : string)
    (max_seq_length : Z) (tokenizer : Tokenizer)
    (label_ids : option (gmap string Z)) (num_samples : Z)
    (pad_label : string) (ignore_extra_tokens ignore_start_end : bool)
    (w w' : world) (ds : BertTokenClassificationDataset) :
  computed_init text_file label_file max_seq_length tokenizer label_ids
    num_samples pad_label ignore_extra_tokens ignore_start_end w
  = (Ok ds, w') →
  ∃ (lines : list string) (labels : list (list string)) (out : output),
    get_features lines max_seq_length tokenizer label_ids pad_label
      (Some labels) ignore_extra_tokens ignore_start_end = Ok out
    ∧ ds = dataset_of (feats out).
Proof.
  unfold computed_init. intros H.
  destruct (num_samples =? 0); [done|].
  destruct (files w !! text_file) as [[text_lines|?]|]; [|done..].
  destruct (files w !! label_file) as [[label_text|?]|]; [|done..].
  destruct (negb (len label_text =? len text_lines)); [done|].
  destruct (select_samples _ _ _) as [[lines labels]|?]; [|done].
  destruct (get_features _ _ _ _ _ _ _ _) as [out|?] eqn:Hout; [|done].
  injection H as <- _. by exists lines, labels, out.
Qed.

(** X19.  A dataset whose features the constructor has computed has six
    lists of one length: [__getitem__] returns an item for every index from
    [-n] to [n - 1], where [n] is [__len__], and raises [IndexError] for
    every other index. *)
Theorem computed_dataset_getitem (text_file label_file : string)
    (max_seq_length : Z) (tokenizer : Tokenizer)
    (label_ids : option (gmap string Z)) (num_samples : Z)
    (pad_label : string)
    (ignore_extra_tokens ignore_start_end overwrite_processed_files : bool)
    (w w' : world) (ds : BertTokenClassificationDataset) :
  computes_features text_file max_seq_length tokenizer
    overwrite_processed_files w = true →
  dataset_init text_file label_file max_seq_length tokenizer label_ids
    num_samples pad_label ignore_extra_tokens ignore_start_end
    overwrite_processed_files w = (Ok ds, w') →
  0 < dataset_len ds
  ∧ ∀ idx : Z,
      (- dataset_len ds <= idx < dataset_len ds →
       ∃ item, dataset_getitem ds idx = Ok item
         ∧ dataset_getitem ds (idx mod dataset_len ds) = Ok item)
      ∧ (idx < - dataset_len ds ∨ dataset_len ds <= idx →
         dataset_getitem ds idx = Raise IndexError).
Proof.
  intros Hcomp Hinit.
  pose proof (init_Ok_inv _ _ _ _ _ _ _ _ _ _ _ _ _ Hinit) as (Hext & _).
  rewrite computed_init_eq in Hinit by done.
  apply computed_init_Ok_features in Hinit as (lines & labels & out & Hout & ->).
  destruct (get_features_Ok_lengths _ _ _ _ _ _ _ _ _ Hout)
    as (Hne & Hlens & Hlabels).
  apply Forall_cons in Hlens as [H1 Hlens].
  apply Forall_cons in Hlens as [H2 Hlens].
  apply Forall_cons in Hlens as [H3 Hlens].
  apply Forall_cons in Hlens as [H4 Hlens].
  apply Forall_cons in Hlens as [H5 _].
  cbn [with_label] in Hlabels.
  unfold dataset_len, dataset_getitem, dataset_of.
  cbn [ds_input_ids ds_segment_ids ds_input_mask ds_loss_mask
    ds_subtokens_mask ds_labels].
  assert (∀ l : list (list Z), length l = length lines → len l = len lines)
    as Hlen by (intros l Hl; unfold len; by rewrite Hl).
  rewrite (Hlen _ H1). split.
  { destruct lines; [done|]. unfold len. cbn [length]. lia. }
  intros idx. split.
  - intros Hidx.
    destruct (py_index_Ok (f_input_ids (feats out)) idx) as (a & Ha & Ha');
      [by rewrite Hlen|].
    destruct (py_index_Ok (f_segment_ids (feats out)) idx) as (b & Hb & Hb');
      [by rewrite Hlen|].
    destruct (py_index_Ok (f_input_mask (feats out)) idx) as (c & Hc & Hc');
      [by rewrite Hlen|].
    destruct (py_index_Ok (f_loss_mask (feats out)) idx) as (d & Hd & Hd');
      [by rewrite Hlen|].
    destruct (py_index_Ok (f_subtokens_mask (feats out)) idx)
      as (e & He & He'); [by rewrite Hlen|].
    destruct (py_index_Ok (f_labels (feats out)) idx)
      as (f & Hf & Hf'); [by rewrite Hlen|].
    rewrite !Hlen in * by done.
    exists (a, b, c, d, e, f).
    by rewrite Ha, Hb, Hc, Hd, He, Hf, Ha', Hb', Hc', Hd', He', Hf'.
  - intros Hidx.
    by rewrite (py_index_out_of_range (f_input_ids (feats out)))
      by (by rewrite Hlen).
Qed.

(** ** The two masks of a sentence *)

Lemma slice_from_Forall2 {A B : Type} (P : A → B → Prop) (start : Z)
    (xs : list A) (ys : list B) :
  Forall2 P xs ys → Forall2 P (slice_from start xs) (slice_from start ys).
Proof.
  intros H. unfold slice_from. rewrite <- (Forall2_length _ _ _ H).
  by apply Forall2_drop.
Qed.

Lemma word_masks_related (tokenizer : Tokenizer) (ignore_extra_tokens : bool)
    (words : list string) :
  Forall2 (λ s l : Z, s = 0 ∨ s = 1 ∧ l = 1)
    (concat (word_subtokens_mask tokenizer <$> words))
    (concat (word_loss_mask tokenizer ignore_extra_tokens <$> words)).
Proof.
  induction words as [|word words IH]; [constructor|].
  cbn [fmap list_fmap concat]. apply Forall2_app; [|done].
  unfold word_subtokens_mask, word_loss_mask, py_repeat.
  apply Forall2_app; [repeat constructor; by right|].
  apply Forall2_replicate. by left.
Qed.

(** X20.  The positions that [subtokens_mask] marks are positions of the
    loss: in every sentence of a result the two masks have the same length,
    an entry of [subtokens_mask] is 0 or 1, and where it is 1 the entry of
    [loss_mask] is 1 as well, whatever the flags, the maximum length and the
    tokenizer. *)
Theorem first_subtokens_in_loss (queries : list string) (max_seq_length : Z)
    (tokenizer : Tokenizer) (label_ids : option (gmap string Z))
    (pad_label : string) (raw_labels : option (list (list string)))
    (ignore_extra_tokens ignore_start_end : bool) (out : output) :
  get_features queries max_seq_length tokenizer label_ids pad_label raw_labels
    ignore_extra_tokens ignore_start_end = Ok out →
  Forall2 (Forall2 (λ s l : Z, s = 0 ∨ s = 1 ∧ l = 1))
    (f_subtokens_mask (feats out)) (f_loss_mask (feats out)).
Proof.
  intros Hout.
  destruct (get_features_Ok_available _ _ _ _ _ _ _ _ _ Hout) as [Hne Hok].
  rewrite get_features_result_ok in Hout by done. injection Hout as <-.
  unfold get_features_result. cbn [feats f_subtokens_mask f_loss_mask].
  apply Forall2_fmap, Forall_Forall2_diag, Forall_forall. intros q _.
  unfold final_subtokens_mask, final_loss_mask, padded, truncated.
  assert (Forall2 (λ s l : Z, s = 0 ∨ s = 1 ∧ l = 1)
            (built_subtokens_mask tokenizer q)
            (built_loss_mask tokenizer ignore_extra_tokens ignore_start_end q))
    as Hbuilt.
  { unfold built_subtokens_mask, built_loss_mask.
    apply Forall2_app; [repeat constructor; by left|].
    apply Forall2_app; [apply word_masks_related|].
    repeat constructor; by left. }
  assert (∀ xs ys : list Z,
            Forall2 (λ s l : Z, s = 0 ∨ s = 1 ∧ l = 1) xs ys →
            Forall2 (λ s l : Z, s = 0 ∨ s = 1 ∧ l = 1)
              (if len (kept_subtokens tokenizer
                         (effective_length tokenizer max_seq_length queries)
                         (built_subtokens tokenizer q))
                  <? effective_length tokenizer max_seq_length queries
               then xs ++ py_repeat 0
                      (effective_length tokenizer max_seq_length queries
                       - len (kept_subtokens tokenizer
                                (effective_length tokenizer max_seq_length
                                   queries)
                                (built_subtokens tokenizer q)))
               else xs)
              (if len (kept_subtokens tokenizer
                         (effective_length tokenizer max_seq_length queries)
                         (built_subtokens tokenizer q))
                  <? effective_length tokenizer max_seq_length queries
               then ys ++ py_repeat 0
                      (effective_length tokenizer max_seq_length queries
                       - len (kept_subtokens tokenizer
                                (effective_length tokenizer max_seq_length
                                   queries)
                                (built_subtokens tokenizer q)))
               else ys)) as Hpad.
  { intros xs ys Hxy. destruct (_ <? _); [|done].
    apply Forall2_app; [done|]. apply Forall2_replicate. by left. }
  apply Hpad. destruct (_ >? _); [|done].
  apply Forall2_app; [repeat constructor; by left|].
  by apply slice_from_Forall2.
Qed.

(** ** The name of the cache file *)

Lemma string_app_cons (c : ascii) (s t : string) :
  String c s +:+ t = String c (s +:+ t).
Proof. done. Qed.

Lemma string_length_app (s t : string) :
  String.length (s +:+ t) = (String.length s + String.length t)%nat.
Proof.
  induction s as [|c s IH]; [done|].
  rewrite string_app_cons. cbn [String.length]. by rewrite IH.
Qed.

Lemma string_app_inj_r (s t u : string) : s +:+ u = t +:+ u → s = t.
Proof.
  revert t. induction s as [|c s IH]; intros [|c' t] H.
  - done.
  - apply (f_equal String.length) in H.
    rewrite !string_length_app in H. cbn [String.length] in H. lia.
  - apply (f_equal String.length) in H.
    rewrite !string_length_app in H. cbn [String.length] in H. lia.
  - rewrite !string_app_cons in H. injection H as -> H. f_equal. by apply IH.
Qed.

Lemma path_join_inj (a b b' : string) :
  startswith b "/" = false → startswith b' "/" = false →
  path_join a b = path_join a b' → b = b'.
Proof.
  intros Hb Hb'. unfold path_join. rewrite Hb, Hb'.
  destruct (decide (a = "")); [done|].
  destruct (endswith a "/").
  - apply String.app_inj.
  - intros H. by apply String.app_inj, String.app_inj in H.
Qed.

(** X21.  Every maximum length has a cache file of its own: for one text
    file and tokenizer, two maximum lengths give the same cache path only
    when they are equal. *)
Theorem features_pkl_path_max_seq_length (text_file : string)
    (max_seq_length max_seq_length' : Z) (tokenizer : Tokenizer) :
  features_pkl_path text_file max_seq_length tokenizer
  = features_pkl_path text_file max_seq_length' tokenizer
  ↔ max_seq_length = max_seq_length'.
Proof.
  split; [|by intros ->]. unfold features_pkl_path. intros H.
  apply path_join_inj in H; [|done..].
  do 5 apply String.app_inj in H.
  apply string_app_inj_r in H. by apply pretty_Z_inj in H.
Qed.

(** ** What the constructor leaves alone *)

(** X22.  The constructor writes nothing but its cache file: whatever its
    arguments and whether it returns or raises, every other file is as it
    was, the process keeps its rank, and [get_features] has been called at
    most once. *)
Theorem dataset_init_writes_cache_only (text_file label_file : string)
    (max_seq_length : Z) (tokenizer : Tokenizer)
    (label_ids : option (gmap string Z)) (num_samples : Z)
    (pad_label : string)
    (ignore_extra_tokens ignore_start_end overwrite_processed_files : bool)
    (w : world) :
  let w' :=
    (dataset_init text_file label_file max_seq_length tokenizer label_ids
       num_samples pad_label ignore_extra_tokens ignore_start_end
       overwrite_processed_files w).2 in
  delete (features_pkl_path text_file max_seq_length tokenizer) (files w')
  = delete (features_pkl_path text_file max_seq_length tokenizer) (files w)
  ∧ dist_rank w' = dist_rank w
  ∧ (encodings w ≤ encodings w' ≤ S (encodings w))%nat.
Proof.
  cbv zeta.
  destruct (endswith (basename text_file) ".txt") eqn:Hext;
    [|rewrite init_wrong_extension by done; cbn [snd]; split_and!; (done || lia)].
  destruct (computes_features text_file max_seq_length tokenizer
              overwrite_processed_files w) eqn:Hcomp.
  - rewrite computed_init_eq by done. unfold computed_init.
    destruct (num_samples =? 0); [cbn [snd]; split_and!; (done || lia)|].
    destruct (files w !! text_file) as [[text_lines|?]|];
      [|cbn [snd]; split_and!; (done || lia)..].
    destruct (files w !! label_file) as [[label_text|?]|];
      [|cbn [snd]; split_and!; (done || lia)..].
    destruct (negb (len label_text =? len text_lines));
      [cbn [snd]; split_and!; (done || lia)|].
    destruct (select_samples _ _ _) as [[lines labels]|?];
      [|cbn [snd]; split_and!; (done || lia)].
    destruct (get_features _ _ _ _ _ _ _ _) as [out|?];
      cbn [snd cache_written encoded_once files dist_rank encodings].
    + unfold cache_written. cbn [files dist_rank encodings].
      rewrite delete_insert_eq. split_and!; (done || lia).
    + unfold encoded_once. cbn [files dist_rank encodings].
      split_and!; (done || lia).
  - rewrite init_cached by done.
    destruct (files w !! _) as [[?|?]|]; cbn [snd]; split_and!; (done || lia).
Qed.

(** ** The further properties on the sample inputs *)

Lemma sample_pad_label_known : is_Some (sample_label_ids !! "O").
Proof. by exists 0. Qed.

(** X2 on the sample batch: [B-MISC], the label of the second sentence, is
    no key of the label ids. *)
Lemma get_features_unknown_label_witness :
  get_features sample_queries 10 sample_tokenizer (Some sample_label_ids) "O"
    (Some unknown_raw_labels) false false = Raise (KeyError "B-MISC").
Proof.
  apply (get_features_unknown_label 10 sample_tokenizer sample_label_ids "O"
           unknown_raw_labels false false ["ab c"] [] "d" "B-MISC" [] []).
  - exact sample_pad_label_known.
  - reflexivity.
  - reflexivity.
  - constructor.
  - reflexivity.
Defined.

(** X3 on the sample batch: the second sentence has a word and no label. *)
Lemma get_features_short_labels_witness :
  get_features sample_queries 10 sample_tokenizer (Some sample_label_ids) "O"
    (Some short_raw_labels) false false = Raise IndexError.
Proof.
  apply (get_features_short_labels 10 sample_tokenizer sample_label_ids "O"
           short_raw_labels false false ["ab c"] [] "d").
  - exact sample_pad_label_known.
  - reflexivity.
  - split; [constructor|vm_compute; lia].
Defined.

(** X4 on the sample batch: no label ids, and label ids without the pad
    label [PAD]. *)
Lemma get_features_pad_label_error_witness :
  get_features sample_queries 10 sample_tokenizer None "PAD"
    (Some sample_raw_labels) false false = Raise TypeError
  ∧ get_features sample_queries 10 sample_tokenizer (Some sample_label_ids)
      "PAD" (Some sample_raw_labels) false false = Raise (KeyError "PAD").
Proof.
  destruct (get_features_pad_label_error sample_queries 10 sample_tokenizer
              "PAD" sample_raw_labels false false sample_queries_nonempty)
    as [Hnone Hsome].
  split; [exact Hnone|]. apply Hsome. reflexivity.
Defined.

(** X5 on the sample batch, whose longest sentence has 5 subtokens. *)
Lemma get_features_large_max_length_witness :
  ∃ out : output,
    log_max_length out = 5 ∧ log_too_long_count out = 0
    ∧ ∀ m : Z, 5 <= m →
        get_features sample_queries m sample_tokenizer (Some sample_label_ids)
          "O" (Some sample_raw_labels) false false = Ok out.
Proof.
  destruct (get_features_large_max_length sample_queries sample_tokenizer
              (Some sample_label_ids) "O" (Some sample_raw_labels) false false
              sample_queries_nonempty sample_labels_available)
    as (s & longest & out & Hs & Hmax & Hlen & Hcount & Hout).
  vm_compute in Hs. injection Hs as <-.
  vm_compute in Hmax. injection Hmax as <-.
  exists out. split; [exact Hlen|]. split; [exact Hcount|exact Hout].
Defined.

(** X6 on the sample batch for a max length of 4: one sentence is longer. *)
Lemma too_long_count_of_max_seq_length_witness :
  ∃ out : output,
    get_features sample_queries 4 sample_tokenizer (Some sample_label_ids)
      "O" (Some sample_raw_labels) false false = Ok out
    ∧ log_too_long_count out = 1.
Proof.
  destruct (too_long_count_of_max_seq_length sample_queries 4 sample_tokenizer
              (Some sample_label_ids) "O" (Some sample_raw_labels) false false
              sample_queries_nonempty sample_labels_available)
    as (s & out & Hs & Hout & Hcount & _).
  vm_compute in Hs. injection Hs as <-.
  exists out. split; [exact Hout|]. rewrite Hcount. reflexivity.
Defined.

(** X7 on the sample batch for a max length of 4. *)
Lemma real_tokens_and_padding_witness :
  ∃ (s : state) (out : output),
    first_loop sample_queries sample_tokenizer (Some sample_label_ids) "O"
      (Some sample_raw_labels) false false = Ok s
    ∧ get_features sample_queries 4 sample_tokenizer (Some sample_label_ids)
        "O" (Some sample_raw_labels) false false = Ok out
    ∧ ∀ (i : nat) (subs : list string), all_subtokens s !! i = Some subs →
        ∃ kept : list string,
          len kept = Z.min (len subs) (log_max_length out)
          ∧ head kept = Some "[CLS]"
          ∧ last kept = Some "[SEP]"
          ∧ f_input_ids (feats out) !! i
            = Some (tokens_to_ids sample_tokenizer kept
                    ++ py_repeat 0 (log_max_length out - len kept))
          ∧ f_input_mask (feats out) !! i
            = Some (py_repeat 1 (len kept)
                    ++ py_repeat 0 (log_max_length out - len kept)).
Proof.
  apply (real_tokens_and_padding sample_queries 4 sample_tokenizer
           (Some sample_label_ids) "O" (Some sample_raw_labels) false false).
  - exact sample_queries_nonempty.
  - exact sample_labels_available.
  - lia.
Defined.

(** X8 on the sample batch for a max length of 1: both sentences count as
    too long and the first one comes back with 6 ids. *)
Lemma small_max_length_witness :
  ∃ out : output,
    get_features sample_queries 1 sample_tokenizer (Some sample_label_ids)
      "O" (Some sample_raw_labels) false false = Ok out
    ∧ log_max_length out = 1
    ∧ log_too_long_count out = 2
    ∧ f_input_ids (feats out) !! 0%nat = Some [5; 5; 1; 3; 1; 5].
Proof.
  destruct (small_max_length sample_queries 1 sample_tokenizer
              (Some sample_label_ids) "O" (Some sample_raw_labels) false false
              sample_queries_nonempty sample_labels_available)
    as (s & out & Hs & Hout & Hlen & Hcount & Hlists); [lia|].
  vm_compute in Hs. injection Hs as <-.
  exists out. split; [exact Hout|]. split; [exact Hlen|].
  split; [exact Hcount|].
  destruct (Hlists 0%nat ["[CLS]"; "a"; "##b"; "c"; "[SEP]"] eq_refl)
    as (Hids & _).
  exact Hids.
Defined.

(** X9 on the sample batch for a max length of 3, which cuts the first word
    of the first sentence. *)
Lemma subtokens_mask_at_most_words_witness :
  ∃ out : output,
    get_features sample_queries 3 sample_tokenizer (Some sample_label_ids)
      "O" (Some sample_raw_labels) false false = Ok out
    ∧ ∃ mask : list Z,
        f_subtokens_mask (feats out) !! 0%nat = Some mask
        ∧ (ones mask ≤ 2)%nat.
Proof.
  destruct (subtokens_mask_at_most_words sample_queries 3 sample_tokenizer
              (Some sample_label_ids) "O" (Some sample_raw_labels) false false
              sample_queries_nonempty sample_labels_available)
    as (out & Hout & Hmasks).
  exists out. split; [exact Hout|]. exact (Hmasks 0%nat "ab c" eq_refl).
Defined.

(** X10 on the sample batch. *)
Lemma loss_mask_flags_off_witness :
  ∃ out : output,
    get_features sample_queries 10 sample_tokenizer (Some sample_label_ids)
      "O" (Some sample_raw_labels) false false = Ok out
    ∧ f_loss_mask (feats out) = f_input_mask (feats out).
Proof.
  apply (loss_mask_flags_off sample_queries 10 sample_tokenizer
           (Some sample_label_ids) "O" (Some sample_raw_labels)).
  - exact sample_queries_nonempty.
  - exact sample_labels_available.
  - exact (sample_tokenizer_words sample_queries).
Defined.

(** X11 on the sample batch. *)
Lemma loss_mask_flags_on_witness :
  ∃ out : output,
    get_features sample_queries 10 sample_tokenizer (Some sample_label_ids)
      "O" (Some sample_raw_labels) true true = Ok out
    ∧ f_loss_mask (feats out) = f_subtokens_mask (feats out).
Proof.
  apply (loss_mask_flags_on sample_queries 10 sample_tokenizer
           (Some sample_label_ids) "O" (Some sample_raw_labels)).
  - exact sample_queries_nonempty.
  - exact sample_labels_available.
Defined.

(** X12 on the sample batch. *)
Lemma labels_leave_masks_witness :
  ∃ out out' : output,
    get_features sample_queries 10 sample_tokenizer (Some sample_label_ids)
      "O" (Some sample_raw_labels) false false = Ok out
    ∧ get_features sample_queries 10 sample_tokenizer None "O" None false false
      = Ok out'
    ∧ f_input_ids (feats out) = f_input_ids (feats out')
    ∧ f_segment_ids (feats out) = f_segment_ids (feats out')
    ∧ f_input_mask (feats out) = f_input_mask (feats out')
    ∧ f_loss_mask (feats out) = f_loss_mask (feats out')
    ∧ f_subtokens_mask (feats out) = f_subtokens_mask (feats out')
    ∧ log_max_length out = log_max_length out'
    ∧ log_too_long_count out = log_too_long_count out'.
Proof.
  apply (labels_leave_masks sample_queries 10 sample_tokenizer
           (Some sample_label_ids) "O" (Some sample_raw_labels) false false).
  - exact sample_queries_nonempty.
  - exact sample_labels_available.
Defined.

(** X13 on the sample batch: its labels, and the same labels with one more
    label on every line. *)
Lemma surplus_labels_unused_witness :
  get_features sample_queries 10 sample_tokenizer (Some sample_label_ids) "O"
    (Some sample_raw_labels) false false
  = get_features sample_queries 10 sample_tokenizer (Some sample_label_ids)
      "O" (Some surplus_raw_labels) false false.
Proof.
  apply (surplus_labels_unused sample_queries 10 sample_tokenizer
           sample_label_ids "O" sample_raw_labels surplus_raw_labels false
           false).
  - exact sample_pad_label_known.
  - reflexivity.
  - reflexivity.
  - intros [|[|i]] q Hq; [injection Hq as <-; reflexivity..|discriminate Hq].
Defined.

(** X14 on the sample batch: two items, and the index [-1] is the index
    [1]. *)
Lemma infer_getitem_bounds_witness :
  ∃ ds : BertTokenClassificationInferDataset,
    infer_init sample_queries 10 sample_tokenizer = Ok ds
    ∧ infer_len ds = 2
    ∧ infer_getitem ds 2 = Raise IndexError
    ∧ ∃ item, infer_getitem ds (-1) = Ok item ∧ infer_getitem ds 1 = Ok item.
Proof.
  eexists. split; [vm_compute; reflexivity|].
  match goal with
  | |- infer_len ?ds = _ ∧ _ =>
      destruct (infer_getitem_bounds sample_queries 10 sample_tokenizer ds)
        as [Hlen Hidx]; [vm_compute; reflexivity|]
  end.
  split; [exact Hlen|]. split.
  - apply (proj1 (Hidx 2)). right. vm_compute. discriminate.
  - apply (proj2 (Hidx (-1))). vm_compute. split; [discriminate|reflexivity].
Defined.

(** X15 on the sample directory: the dataset built from [labels.txt] comes
    back from a construction that names the shorter label file, another
    tokenizer of the same type and vocabulary size, no label ids and a
    sample count of 0. *)
Lemma cached_features_reused_witness :
  ∃ (ds : BertTokenClassificationDataset) (w' : world),
    dataset_init "data/text.txt" "data/labels.txt" 10 sample_tokenizer
      (Some sample_label_ids) (-1) "O" false false false sample_world
    = (Ok ds, w')
    ∧ dataset_init "data/text.txt" "data/short.txt" 10 dropping_tokenizer
        None 0 "PAD" true true false w'
      = (Ok ds, w').
Proof.
  eexists _, _. split; [vm_compute; reflexivity|].
  apply (cached_features_reused "data/text.txt" "data/labels.txt"
           "data/short.txt" 10 sample_tokenizer dropping_tokenizer
           (Some sample_label_ids) None (-1) 0 "O" "PAD" false false false
           true true sample_world).
  - reflexivity.
  - reflexivity.
  - vm_compute. reflexivity.
Defined.

(** X16 on the sample directory. *)
Lemma overwrite_recomputes_same_witness :
  ∃ (ds : BertTokenClassificationDataset) (w' : world),
    dataset_init "data/text.txt" "data/labels.txt" 10 sample_tokenizer
      (Some sample_label_ids) (-1) "O" false false false sample_world
    = (Ok ds, w')
    ∧ dataset_init "data/text.txt" "data/labels.txt" 10 sample_tokenizer
        (Some sample_label_ids) (-1) "O" false false true w'
      = (Ok ds, encoded_once w').
Proof.
  eexists _, _. split; [vm_compute; reflexivity|].
  apply (overwrite_recomputes_same "data/text.txt" "data/labels.txt" 10
           sample_tokenizer (Some sample_label_ids) (-1) "O" false false false
           sample_world).
  - vm_compute. reflexivity.
  - vm_compute. discriminate.
  - vm_compute. discriminate.
  - vm_compute. reflexivity.
Defined.

(** X17 on the sample directory for a sample count of 2: the first two of
    the three lines are encoded. *)
Lemma first_samples_encoded_witness :
  ∃ out : output,
    get_features ["ab c"; "d"] 10 sample_tokenizer (Some sample_label_ids)
      "O" (Some [["B-PER"; "O"]; ["B-LOC"]]) false false = Ok out
    ∧ dataset_init "data/text.txt" "data/labels.txt" 10 sample_tokenizer
        (Some sample_label_ids) 2 "O" false false false sample_world
      = (Ok (dataset_of (feats out)),
         cache_written
           (features_pkl_path "data/text.txt" 10 sample_tokenizer)
           (feats out) sample_world)
    ∧ dataset_len (dataset_of (feats out)) = 2.
Proof.
  destruct (first_samples_encoded "data/text.txt" "data/labels.txt" 10
              sample_tokenizer (Some sample_label_ids) 2 "O" false false false
              sample_world ["ab c"; "d"; "ab"] ["B-PER O"; "B-LOC"; "O"])
    as (r & Hr & Hinit & Hlen).
  - vm_compute. reflexivity.
  - vm_compute. reflexivity.
  - lia.
  - vm_compute. reflexivity.
  - vm_compute. reflexivity.
  - discriminate.
  - reflexivity.
  - vm_compute in Hr. subst r. eexists. split; [vm_compute; reflexivity|].
    split; [exact Hinit|]. exact (Hlen _ eq_refl).
Defined.

(** X18 on a directory whose text and label files are empty. *)
Lemma empty_files_witness :
  dataset_init "data/blank.txt" "data/blank_labels.txt" 10 sample_tokenizer
    (Some sample_label_ids) 5 "O" false false false blank_world
  = (Raise IndexError, blank_world)
  ∧ dataset_init "data/blank.txt" "data/blank_labels.txt" 10 sample_tokenizer
      (Some sample_label_ids) (-1) "O" false false false blank_world
    = (Raise (ValueError "max() arg is an empty sequence"),
       encoded_once blank_world).
Proof.
  split.
  - apply (empty_files "data/blank.txt" "data/blank_labels.txt" 10
             sample_tokenizer (Some sample_label_ids) 5 "O" false false false
             blank_world);
      [vm_compute; reflexivity..|lia].
  - apply (empty_files "data/blank.txt" "data/blank_labels.txt" 10
             sample_tokenizer (Some sample_label_ids) (-1) "O" false false
             false blank_world);
      [vm_compute; reflexivity..|lia].
Defined.

(** X19 on the sample directory: three items, the index [-3] is the index
    [0], and the index [3] is out of range. *)
Lemma computed_dataset_getitem_witness :
  ∃ (ds : BertTokenClassificationDataset) (w' : world),
    dataset_init "data/text.txt" "data/labels.txt" 10 sample_tokenizer
      (Some sample_label_ids) (-1) "O" false false false sample_world
    = (Ok ds, w')
    ∧ dataset_len ds = 3
    ∧ dataset_getitem ds 3 = Raise IndexError
    ∧ ∃ item, dataset_getitem ds (-3) = Ok item ∧ dataset_getitem ds 0 = Ok item.
Proof.
  eexists _, _. split; [vm_compute; reflexivity|].
  match goal with
  | |- dataset_len ?ds = _ ∧ _ =>
      destruct (computed_dataset_getitem "data/text.txt" "data/labels.txt" 10
                  sample_tokenizer (Some sample_label_ids) (-1) "O" false
                  false false sample_world
                  (cache_written
                     (features_pkl_path "data/text.txt" 10 sample_tokenizer)
                     {| f_input_ids := ds_input_ids ds;
                        f_segment_ids := ds_segment_ids ds;
                        f_input_mask := ds_input_mask ds;
                        f_loss_mask := ds_loss_mask ds;
                        f_subtokens_mask := ds_subtokens_mask ds;
                        f_labels := ds_labels ds |} sample_world) ds)
        as [_ Hidx]; [vm_compute; reflexivity..|]
  end.
  split; [reflexivity|]. split.
  - apply (proj2 (Hidx 3)). right. vm_compute. discriminate.
  - apply (proj1 (Hidx (-3))). vm_compute. split; [discriminate|reflexivity].
Defined.

(** X20 on the sample batch: the masks of its first sentence. *)
Lemma first_subtokens_in_loss_witness :
  ∃ out : output,
    get_features sample_queries 10 sample_tokenizer (Some sample_label_ids)
      "O" (Some sample_raw_labels) true false = Ok out
    ∧ Forall2 (Forall2 (λ s l : Z, s = 0 ∨ s = 1 ∧ l = 1))
        (f_subtokens_mask (feats out)) (f_loss_mask (feats out)).
Proof.
  eexists. split; [vm_compute; reflexivity|].
  apply (first_subtokens_in_loss sample_queries 10 sample_tokenizer
           (Some sample_label_ids) "O" (Some sample_raw_labels) true false).
  vm_compute. reflexivity.
Defined.
